(* ===================================================================== *)
(* TLDR_Webscraper: a shallow embedding of webscraper.py and             *)
(* lamda_webscraper.py, and the properties of the scraping policy and of *)
(* the article-extraction heuristic that the specification states.       *)
(* ===================================================================== *)

From Stdlib Require Import ZArith QArith Ascii String List Bool Lia Sorted.
From stdpp Require Import gmap strings list fin_maps sorting.

Local Open Scope Z_scope.

(* set_solver clears hypotheses that are not always there *)
#[local] Set Warnings "-clear-no-such-hyp".

(* --------------------------------------------------------------------- *)
(* Python strings                                                        *)
(* --------------------------------------------------------------------- *)
(* A Python [str] is a sequence of code points.  A [string] stands for a
   [str] whose code points are below 256, one [ascii] per code point, so
   that [String.length] is Python's [len]. *)

Module PyStr.

Definition code (c : ascii) : Z := Z.of_N (N_of_ascii c).

Definition chr (z : Z) : ascii := ascii_of_N (Z.to_N z).

(* str.isspace on one code point below 256 *)
Definition isspace (c : ascii) : bool :=
  let n := code c in
  ((9 <=? n) && (n <=? 13)) || ((28 <=? n) && (n <=? 32))
  || (n =? 133) || (n =? 160).

Fixpoint lstrip (s : string) : string :=
  match s with
  | EmptyString => EmptyString
  | String c r => if isspace c then lstrip r else s
  end.

(* [rstrip] keeps a character when it is not a space or when something
   that is kept follows it. *)
Fixpoint rstrip (s : string) : string :=
  match s with
  | EmptyString => EmptyString
  | String c r =>
      match rstrip r with
      | EmptyString => if isspace c then EmptyString else String c EmptyString
      | r' => String c r'
      end
  end.

(* str.strip() *)
Definition strip (s : string) : string := rstrip (lstrip s).

(* s.startswith(p) *)
Definition startswith (s p : string) : bool := String.prefix p s.

(* needle in hay *)
Fixpoint contains (needle hay : string) : bool :=
  String.prefix needle hay
  || match hay with
     | EmptyString => false
     | String _ r => contains needle r
     end.

Definition lower_char (c : ascii) : ascii :=
  let n := code c in
  if ((65 <=? n) && (n <=? 90))
     || ((192 <=? n) && (n <=? 222) && negb (n =? 215))
  then chr (n + 32) else c.

(* str.lower() *)
Fixpoint lower (s : string) : string :=
  match s with
  | EmptyString => EmptyString
  | String c r => String (lower_char c) (lower r)
  end.

(* truthiness of a str: [if s] *)
Definition truthy (s : string) : bool :=
  match s with EmptyString => false | _ => true end.

(* s[:n] *)
Fixpoint take (n : nat) (s : string) : string :=
  match n, s with
  | O, _ => EmptyString
  | _, EmptyString => EmptyString
  | S n', String c r => String c (take n' r)
  end.

(* s.split(sep) for a one-character separator *)
Fixpoint split (sep : ascii) (s : string) : list string :=
  match s with
  | EmptyString => [EmptyString]
  | String c r =>
      if Ascii.eqb c sep then EmptyString :: split sep r
      else match split sep r with
           | [] => [String c EmptyString]
           | p :: ps => String c p :: ps
           end
  end.

(* sep.join(parts) *)
Fixpoint join (sep : string) (parts : list string) : string :=
  match parts with
  | [] => EmptyString
  | [p] => p
  | p :: ps => p +:+ sep +:+ join sep ps
  end.

Definition digit (d : Z) : ascii := chr (48 + d).

Fixpoint digits (fuel : nat) (n : Z) (acc : string) : string :=
  match fuel with
  | O => acc
  | S f =>
      let acc' := String (digit (n mod 10)) acc in
      if n <? 10 then acc' else digits f (n / 10) acc'
  end.

(* str(n) for an int *)
Definition of_int (n : Z) : string :=
  if n <? 0 then String "-" (digits (S (Z.to_nat (Z.log2 (- n)))) (- n) EmptyString)
  else digits (S (Z.to_nat (Z.log2 n))) n EmptyString.

(* s.split() on runs of whitespace *)
Fixpoint words_aux (cur : string) (s : string) : list string :=
  match s with
  | EmptyString => if truthy cur then [cur] else []
  | String c r =>
      if isspace c
      then (if truthy cur then cur :: words_aux EmptyString r
            else words_aux EmptyString r)
      else words_aux (cur +:+ String c EmptyString) r
  end.

Definition words (s : string) : list string := words_aux EmptyString s.

End PyStr.

(* --------------------------------------------------------------------- *)
(* hashlib.md5                                                           *)
(* --------------------------------------------------------------------- *)
(* RFC 1321 on lists of bytes; 32-bit words are [Z] reduced modulo 2^32
   after every addition and rotation. *)

Module MD5.

Definition w32 (x : Z) : Z := x mod 2 ^ 32.

Definition not32 (x : Z) : Z := Z.lxor x 0xffffffff.

Definition rotl (x s : Z) : Z :=
  w32 (Z.lor (Z.shiftl x s) (Z.shiftr x (32 - s))).

Definition K : list Z :=
  [ 0xd76aa478; 0xe8c7b756; 0x242070db; 0xc1bdceee;
    0xf57c0faf; 0x4787c62a; 0xa8304613; 0xfd469501;
    0x698098d8; 0x8b44f7af; 0xffff5bb1; 0x895cd7be;
    0x6b901122; 0xfd987193; 0xa679438e; 0x49b40821;
    0xf61e2562; 0xc040b340; 0x265e5a51; 0xe9b6c7aa;
    0xd62f105d; 0x02441453; 0xd8a1e681; 0xe7d3fbc8;
    0x21e1cde6; 0xc33707d6; 0xf4d50d87; 0x455a14ed;
    0xa9e3e905; 0xfcefa3f8; 0x676f02d9; 0x8d2a4c8a;
    0xfffa3942; 0x8771f681; 0x6d9d6122; 0xfde5380c;
    0xa4beea44; 0x4bdecfa9; 0xf6bb4b60; 0xbebfbc70;
    0x289b7ec6; 0xeaa127fa; 0xd4ef3085; 0x04881d05;
    0xd9d4d039; 0xe6db99e5; 0x1fa27cf8; 0xc4ac5665;
    0xf4292244; 0x432aff97; 0xab9423a7; 0xfc93a039;
    0x655b59c3; 0x8f0ccc92; 0xffeff47d; 0x85845dd1;
    0x6fa87e4f; 0xfe2ce6e0; 0xa3014314; 0x4e0811a1;
    0xf7537e82; 0xbd3af235; 0x2ad7d2bb; 0xeb86d391 ].

Definition shifts : list Z :=
  [ 7; 12; 17; 22; 7; 12; 17; 22; 7; 12; 17; 22; 7; 12; 17; 22;
    5; 9; 14; 20; 5; 9; 14; 20; 5; 9; 14; 20; 5; 9; 14; 20;
    4; 11; 16; 23; 4; 11; 16; 23; 4; 11; 16; 23; 4; 11; 16; 23;
    6; 10; 15; 21; 6; 10; 15; 21; 6; 10; 15; 21; 6; 10; 15; 21 ].

(* little-endian bytes of a value, [n] of them *)
Fixpoint le_bytes (n : nat) (x : Z) : list Z :=
  match n with
  | O => []
  | S n' => x mod 256 :: le_bytes n' (x / 256)
  end.

Fixpoint le_word (bs : list Z) : Z :=
  match bs with
  | [] => 0
  | b :: r => b + 256 * le_word r
  end.

(* message, 0x80, zeros up to 56 modulo 64, bit length on 8 bytes *)
Definition pad (msg : list Z) : list Z :=
  let len := Z.of_nat (length msg) in
  let zeros := Z.to_nat ((55 - len) mod 64) in
  msg ++ [0x80] ++ repeat 0 zeros ++ le_bytes 8 ((8 * len) mod 2 ^ 64).

Fixpoint chunks (fuel : nat) (k : nat) (bs : list Z) : list (list Z) :=
  match fuel, bs with
  | O, _ => []
  | _, [] => []
  | S f, _ => firstn k bs :: chunks f k (skipn k bs)
  end.

Definition words_of_block (block : list Z) : list Z :=
  map le_word (chunks 16 4 block).

Record regs := Regs { rA : Z; rB : Z; rC : Z; rD : Z }.

Definition step (M : list Z) (r : regs) (i : nat) : regs :=
  let '(Regs a b c d) := r in
  let iz := Z.of_nat i in
  let '(f, g) :=
    if iz <? 16 then (Z.lor (Z.land b c) (Z.land (not32 b) d), iz)
    else if iz <? 32 then
      (Z.lor (Z.land d b) (Z.land (not32 d) c), (5 * iz + 1) mod 16)
    else if iz <? 48 then (Z.lxor (Z.lxor b c) d, (3 * iz + 5) mod 16)
    else (Z.lxor c (Z.lor b (not32 d)), (7 * iz) mod 16) in
  let f' := w32 (f + a + nth i K 0 + nth (Z.to_nat g) M 0) in
  Regs d (w32 (b + rotl f' (nth i shifts 0))) b c.

Definition compress (r : regs) (block : list Z) : regs :=
  let r' := fold_left (step (words_of_block block)) (seq 0 64) r in
  Regs (w32 (rA r + rA r')) (w32 (rB r + rB r'))
       (w32 (rC r + rC r')) (w32 (rD r + rD r')).

Definition init : regs := Regs 0x67452301 0xefcdab89 0x98badcfe 0x10325476.

Definition digest (msg : list Z) : list Z :=
  let p := pad msg in
  let r := fold_left compress (chunks (S (length p)) 64 p) init in
  le_bytes 4 (rA r) ++ le_bytes 4 (rB r) ++ le_bytes 4 (rC r) ++ le_bytes 4 (rD r).

Definition hex_digit (d : Z) : ascii :=
  if d <? 10 then PyStr.chr (48 + d) else PyStr.chr (87 + d).

Fixpoint hex (bs : list Z) : string :=
  match bs with
  | [] => EmptyString
  | b :: r => String (hex_digit (b / 16)) (String (hex_digit (b mod 16)) (hex r))
  end.

(* str.encode(): UTF-8 of code points below 256 *)
Fixpoint encode (s : string) : list Z :=
  match s with
  | EmptyString => []
  | String c r =>
      let n := PyStr.code c in
      if n <? 128 then n :: encode r
      else (192 + n / 64) :: (128 + n mod 64) :: encode r
  end.

(* hashlib.md5(b).hexdigest() *)
Definition hexdigest (msg : list Z) : string := hex (digest msg).

Definition is_hex (c : ascii) : bool :=
  PyStr.contains (String c EmptyString) "0123456789abcdef".

Fixpoint all_hex (s : string) : bool :=
  match s with
  | EmptyString => true
  | String c r => is_hex c && all_hex r
  end.

End MD5.

(* --------------------------------------------------------------------- *)
(* Exceptions                                                            *)
(* --------------------------------------------------------------------- *)

Inductive exn : Type :=
| ValueError          (* urllib.parse on a malformed URL, strptime on a malformed date *)
| OverflowError       (* a date past 9999-12-31 *)
| RequestException.   (* requests: transport error, timeout, HTTP error status *)

Inductive result (A : Type) : Type :=
| Ok (a : A)
| Raise (e : exn).

Arguments Ok {A} a.
Arguments Raise {A} e.

#[global] Instance result_ret : MRet result := fun A a => Ok a.

#[global] Instance result_bind : MBind result := fun A B k r =>
  match r with
  | Ok a => k a
  | Raise e => Raise e
  end.

(* --------------------------------------------------------------------- *)
(* BeautifulSoup documents                                               *)
(* --------------------------------------------------------------------- *)
(* The tree BeautifulSoup(markup, 'html.parser') builds: strings, each of
   the class the parser gave it, and tags with their attribute dictionary
   (keys distinct, in source order) and their contents. *)

Module Soup.

(* the subclasses of NavigableString: the strings html.parser does not
   read as text, and the strings inside the tags of
   HTMLTreeBuilder.DEFAULT_STRING_CONTAINERS *)
Inductive StringClass : Type :=
| Comment
| CData
| ProcessingInstruction
| Declaration
| Doctype
| Stylesheet               (* inside style *)
| Script                   (* inside script *)
| TemplateString           (* inside template *)
| RubyTextString           (* inside rt *)
| RubyParenthesisString.   (* inside rp *)

#[global] Instance StringClass_eq_dec : EqDecision StringClass.
Proof. solve_decision. Defined.

#[warnings="-register-all"]
Inductive Node : Type :=
| NavigableString (text : string)                      (* of that very class *)
| SubclassString (cls : StringClass) (text : string)   (* of a subclass *)
| Tag (name : string) (attrs : list (string * string)) (contents : list Node).

Definition name_of (n : Node) : option string :=
  match n with
  | Tag nm _ _ => Some nm
  | _ => None
  end.

(* tag.get(key) *)
Definition get (key : string) (n : Node) : option string :=
  match n with
  | Tag _ attrs _ => snd <$> List.find (fun kv => String.eqb (fst kv) key) attrs
  | _ => None
  end.

(* tag.descendants: every node below [n], in document order *)
Fixpoint descendants (n : Node) : list Node :=
  match n with
  | Tag _ _ cs => flat_map (fun c => c :: descendants c) cs
  | _ => []
  end.

Definition is_named (names : list string) (n : Node) : bool :=
  match name_of n with
  | Some nm => existsb (String.eqb nm) names
  | None => false
  end.

(* tag.find_all(names) *)
Definition find_all (names : list string) (n : Node) : list Node :=
  List.filter (is_named names) (descendants n).

(* tag.find(name) *)
Definition find (names : list string) (n : Node) : option Node :=
  head (find_all names n).

(* tag.find_all(name, key=True) *)
Definition find_all_with_attr (names : list string) (key : string) (n : Node)
  : list Node :=
  List.filter (fun t => is_named names t && bool_decide (is_Some (get key t)))
              (descendants n).

(* The class attribute is multi-valued: a predicate given as [class_=f]
   is tried on every token and then on the tokens joined by one space; a
   tag without a class attribute hands [None] to the predicate, which the
   predicates of this program reject. *)
Definition class_matches (f : string -> bool) (n : Node) : bool :=
  match get "class" n with
  | None => false
  | Some v =>
      let tokens := PyStr.words v in
      existsb f tokens || f (PyStr.join " " tokens)
  end.

(* tag.find_all(name, class_=f) *)
Definition find_all_class (names : list string) (f : string -> bool) (n : Node)
  : list Node :=
  List.filter (fun t => is_named names t && class_matches f t) (descendants n).

(* the strings below [n], of whatever class, with the name of their
   parent, document order *)
Fixpoint strings_under (parent : string) (n : Node) : list (string * string) :=
  match n with
  | NavigableString s => [(parent, s)]
  | SubclassString _ s => [(parent, s)]
  | Tag nm _ cs => flat_map (strings_under nm) cs
  end.

(* tag.find_all(text=True), each with elem.parent.name: comments, scripts
   and the like are strings too *)
Definition text_nodes (n : Node) : list (string * string) :=
  match n with
  | Tag nm _ cs => flat_map (strings_under nm) cs
  | _ => []
  end.

Fixpoint concat_str (l : list string) : string :=
  match l with
  | [] => EmptyString
  | s :: r => s +:+ concat_str r
  end.

(* builder.string_containers.get(name) *)
Definition string_container (name : string) : option StringClass :=
  if String.eqb name "rt" then Some RubyTextString
  else if String.eqb name "rp" then Some RubyParenthesisString
  else if String.eqb name "style" then Some Stylesheet
  else if String.eqb name "script" then Some Script
  else if String.eqb name "template" then Some TemplateString
  else None.

(* the text of [n] when [n] is a string whose class is one of
   tag.interesting_string_types, for a tag of that name: the class of the
   name when it is a string container, NavigableString and CData
   otherwise (the class itself, not a subclass of it) *)
Definition interesting (name : string) (n : Node) : option string :=
  match n with
  | NavigableString s =>
      match string_container name with
      | None => Some s
      | Some _ => None
      end
  | SubclassString cls s =>
      match string_container name with
      | None => if decide (cls = CData) then Some s else None
      | Some k => if decide (cls = k) then Some s else None
      end
  | Tag _ _ _ => None
  end.

(* tag._all_strings(): the descendants that are strings of an interesting
   class; a string gives itself when it is a NavigableString or a CData *)
Definition _all_strings (n : Node) : list string :=
  match n with
  | Tag nm _ _ => omap (interesting nm) (descendants n)
  | _ => match interesting EmptyString n with
         | Some s => [s]
         | None => []
         end
  end.

(* tag.get_text() *)
Definition get_text (n : Node) : string := concat_str (_all_strings n).

(* tag.get_text(separator=' ', strip=True) *)
Definition get_text_stripped (n : Node) : string :=
  PyStr.join " " (List.filter PyStr.truthy (map PyStr.strip (_all_strings n))).

(* for t in soup(names): t.decompose() *)
Fixpoint decompose (names : list string) (n : Node) : Node :=
  match n with
  | Tag nm attrs cs =>
      Tag nm attrs
        ((fix go (l : list Node) : list Node :=
            match l with
            | [] => []
            | c :: r => if is_named names c then go r else decompose names c :: go r
            end) cs)
  | _ => n
  end.

(* EntitySubstitution.substitute_xml *)
Fixpoint escape (s : string) : string :=
  match s with
  | EmptyString => EmptyString
  | String c r =>
      if Ascii.eqb c "&" then "&amp;" +:+ escape r
      else if Ascii.eqb c "<" then "&lt;" +:+ escape r
      else if Ascii.eqb c ">" then "&gt;" +:+ escape r
      else String c (escape r)
  end.

(* HTMLTreeBuilder.empty_element_tags *)
Definition empty_element_tags : list string :=
  ["area"; "base"; "br"; "col"; "embed"; "hr"; "img"; "input"; "keygen";
   "link"; "menuitem"; "meta"; "param"; "source"; "track"; "wbr";
   "basefont"; "bgsound"; "command"; "frame"; "image"; "isindex"; "nextid";
   "spacer"]%string.

(* HTMLTreeBuilder.DEFAULT_CDATA_LIST_ATTRIBUTES: the attributes whose
   value is kept as the list of its tokens *)
Definition cdata_list_attribute (tag key : string) : bool :=
  existsb (String.eqb key) ["class"; "accesskey"; "dropzone"]%string
  || existsb (fun tk : string * string => String.eqb (fst tk) tag && String.eqb (snd tk) key)
       [("a", "rel"); ("a", "rev"); ("link", "rel"); ("link", "rev");
        ("td", "headers"); ("th", "headers"); ("form", "accept-charset");
        ("object", "archive"); ("area", "rel"); ("icon", "sizes");
        ("iframe", "sandbox"); ("output", "for")]%string.

Definition dquote : string := String (PyStr.chr 34) EmptyString.

(* value.replace(double quote, '&quot;') *)
Fixpoint quot (s : string) : string :=
  match s with
  | EmptyString => EmptyString
  | String c r =>
      if Ascii.eqb c (PyStr.chr 34) then "&quot;" +:+ quot r else String c (quot r)
  end.

(* Formatter.quoted_attribute_value: double quotes, single quotes around
   a value that holds a double quote, and &quot; when it holds both *)
Definition quoted_attribute_value (value : string) : string :=
  if PyStr.contains dquote value then
    if PyStr.contains "'" value
    then dquote +:+ quot value +:+ dquote
    else "'" +:+ value +:+ "'"
  else dquote +:+ value +:+ dquote.

(* the value of an attribute as it is written out: the tokens of a
   multi-valued attribute are joined by one space *)
Definition attr_value (tag : string) (kv : string * string) : string :=
  if cdata_list_attribute tag (fst kv) then PyStr.join " " (PyStr.words (snd kv))
  else snd kv.

(* the order of sorted(tag.attrs.items()): by key, the keys of a
   dictionary being distinct; str compares by code point *)
Definition attr_le (a b : string * string) : Prop := String.le (fst a) (fst b).

#[global] Instance attr_le_dec : RelDecision attr_le :=
  fun a b => String.le_dec (fst a) (fst b).

(* Formatter.attributes(tag) *)
Definition sorted_attrs (attrs : list (string * string)) : list (string * string) :=
  merge_sort attr_le attrs.

(* the attributes of an opening tag *)
Definition decode_attrs (tag : string) (attrs : list (string * string)) : string :=
  concat_str
    (map (fun kv => " " +:+ fst kv +:+ "="
                    +:+ quoted_attribute_value (escape (attr_value tag kv)))
         (sorted_attrs attrs)).

(* HTMLFormatter.cdata_containing_tags *)
Definition cdata_containing (parent : string) : bool :=
  String.eqb parent "script" || String.eqb parent "style".

Definition newline : string := String (PyStr.chr 10) EmptyString.

(* string.output_ready(formatter='minimal') below a tag named [parent] *)
Definition output_ready (parent : string) (cls : option StringClass) (s : string)
  : string :=
  match cls with
  | Some Comment => "<!--" +:+ s +:+ "-->"
  | Some CData => "<![CDATA[" +:+ s +:+ "]]>"
  | Some ProcessingInstruction => "<?" +:+ s +:+ ">"
  | Some Declaration => "<?" +:+ s +:+ "?>"
  | Some Doctype => "<!DOCTYPE " +:+ s +:+ ">" +:+ newline
  | _ => if cdata_containing parent then s else escape s
  end.

(* element.decode(), the element being a child of a tag named [parent]:
   attributes sorted by name, a tag of empty_element_tags without contents
   closed in place, strings with the minimal entity substitution *)
Fixpoint decode_in (parent : string) (n : Node) : string :=
  match n with
  | NavigableString s => output_ready parent None s
  | SubclassString cls s => output_ready parent (Some cls) s
  | Tag nm attrs cs =>
      match cs with
      | [] =>
          if existsb (String.eqb nm) empty_element_tags
          then "<" +:+ nm +:+ decode_attrs nm attrs +:+ "/>"
          else "<" +:+ nm +:+ decode_attrs nm attrs +:+ "></" +:+ nm +:+ ">"
      | _ :: _ =>
          "<" +:+ nm +:+ decode_attrs nm attrs +:+ ">"
          +:+ concat_str (map (decode_in nm) cs) +:+ "</" +:+ nm +:+ ">"
      end
  end.

(* str(tag): what is written for a tag does not depend on its parent *)
Definition decode (n : Node) : string := decode_in EmptyString n.

End Soup.

(* --------------------------------------------------------------------- *)
(* urllib.parse                                                          *)
(* --------------------------------------------------------------------- *)
(* urlsplit, urlparse, urlunparse and urljoin of CPython 3.11 on str.  Two
   checks of urlsplit are left out: a host between brackets is not
   validated as an IP address, and no netloc of Latin-1 characters fails
   the NFKC check. *)

Module Url.

(* the text before the first character that belongs to [stops] *)
Fixpoint before (stops : string) (s : string) : string :=
  match s with
  | EmptyString => EmptyString
  | String c r =>
      if PyStr.contains (String c EmptyString) stops then EmptyString
      else String c (before stops r)
  end.

(* the text from the first character that belongs to [stops] on *)
Fixpoint from (stops : string) (s : string) : string :=
  match s with
  | EmptyString => EmptyString
  | String c r =>
      if PyStr.contains (String c EmptyString) stops then s else from stops r
  end.

(* s[n:] *)
Fixpoint drop (n : nat) (s : string) : string :=
  match n, s with
  | O, _ => s
  | S n', String _ r => drop n' r
  | S _, EmptyString => EmptyString
  end.

(* url.lstrip(_WHATWG_C0_CONTROL_OR_SPACE) *)
Fixpoint lstrip_c0 (s : string) : string :=
  match s with
  | EmptyString => EmptyString
  | String c r => if PyStr.code c <=? 32 then lstrip_c0 r else s
  end.

(* url.replace(b, '') for the tab, the carriage return and the line feed *)
Fixpoint remove_unsafe (s : string) : string :=
  match s with
  | EmptyString => EmptyString
  | String c r =>
      let n := PyStr.code c in
      if (n =? 9) || (n =? 13) || (n =? 10) then remove_unsafe r
      else String c (remove_unsafe r)
  end.

(* c.isascii() and c.isalpha() *)
Definition isalpha (c : ascii) : bool :=
  let n := PyStr.code c in
  ((65 <=? n) && (n <=? 90)) || ((97 <=? n) && (n <=? 122)).

(* every character is in scheme_chars *)
Fixpoint scheme_chars (s : string) : bool :=
  match s with
  | EmptyString => true
  | String c r =>
      (isalpha c || PyStr.contains (String c EmptyString) "0123456789+-.")
      && scheme_chars r
  end.

Definition uses_relative : list string :=
  [EmptyString; "ftp"; "http"; "gopher"; "nntp"; "imap"; "wais"; "file"; "https";
   "shttp"; "mms"; "prospero"; "rtsp"; "rtspu"; "sftp"; "svn"; "svn+ssh"; "ws";
   "wss"]%string.

Definition uses_netloc : list string :=
  [EmptyString; "ftp"; "http"; "gopher"; "nntp"; "telnet"; "imap"; "wais"; "file";
   "mms"; "https"; "shttp"; "snews"; "prospero"; "rtsp"; "rtspu"; "rsync"; "svn";
   "svn+ssh"; "sftp"; "nfs"; "git"; "git+ssh"; "ws"; "wss"]%string.

Definition uses_params : list string :=
  [EmptyString; "ftp"; "hdl"; "prospero"; "http"; "imap"; "https"; "shttp"; "rtsp";
   "rtspu"; "sip"; "sips"; "mms"; "sftp"; "tel"]%string.

Definition member (x : string) (l : list string) : bool := existsb (String.eqb x) l.

(* ParseResult *)
Record Parsed : Type := mkParsed {
  p_scheme : string;
  p_netloc : string;
  p_path : string;
  p_params : string;
  p_query : string;
  p_fragment : string
}.

(* everything up to and including the last "/" *)
Fixpoint dirname (s : string) : string :=
  match s with
  | EmptyString => EmptyString
  | String c r =>
      if PyStr.contains "/" r then String c (dirname r)
      else if Ascii.eqb c "/" then "/" else EmptyString
  end.

(* _splitparams: the parameters are those of the last segment of the path *)
Definition _splitparams (url : string) : string * string :=
  let dir := dirname url in
  let last := drop (String.length dir) url in
  if PyStr.contains ";" last
  then (dir +:+ before ";" last, drop 1 (from ";" last))
  else (url, EmptyString).

(* urlparse(url, scheme) *)
Definition urlparse (url scheme : string) : result Parsed :=
  let url := remove_unsafe (lstrip_c0 url) in
  let '(scheme, url) :=
    let head := before ":" url in
    match head with
    | String c _ =>
        if PyStr.contains ":" url && isalpha c && scheme_chars head
        then (PyStr.lower head, drop (S (String.length head)) url)
        else (scheme, url)
    | EmptyString => (scheme, url)
    end in
  let '(netloc, url) :=
    if PyStr.startswith url "//"
    then (before "/?#" (drop 2 url), from "/?#" (drop 2 url))
    else (EmptyString, url) in
  if xorb (PyStr.contains "[" netloc) (PyStr.contains "]" netloc)
  then Raise ValueError
  else
    let '(url, fragment) :=
      if PyStr.contains "#" url then (before "#" url, drop 1 (from "#" url))
      else (url, EmptyString) in
    let '(url, query) :=
      if PyStr.contains "?" url then (before "?" url, drop 1 (from "?" url))
      else (url, EmptyString) in
    let '(url, params) :=
      if member scheme uses_params && PyStr.contains ";" url then _splitparams url
      else (url, EmptyString) in
    Ok (mkParsed scheme netloc url params query fragment).

(* urlunparse *)
Definition urlunparse (p : Parsed) : string :=
  let url := if PyStr.truthy (p_params p) then p_path p +:+ ";" +:+ p_params p
             else p_path p in
  let url :=
    if PyStr.truthy (p_netloc p)
       || (PyStr.truthy (p_scheme p) && member (p_scheme p) uses_netloc
           && negb (PyStr.startswith url "//"))
    then "//" +:+ p_netloc p
         +:+ (if PyStr.truthy url && negb (PyStr.startswith url "/") then "/" +:+ url
              else url)
    else url in
  let url := if PyStr.truthy (p_scheme p) then p_scheme p +:+ ":" +:+ url else url in
  let url := if PyStr.truthy (p_query p) then url +:+ "?" +:+ p_query p else url in
  if PyStr.truthy (p_fragment p) then url +:+ "#" +:+ p_fragment p else url.

(* l[:-1] *)
Definition but_last (l : list string) : list string := removelast l.

(* segments[1:-1] = filter(None, segments[1:-1]) *)
Definition drop_empty_middle (segments : list string) : list string :=
  match segments with
  | first :: (_ :: _) as rest =>
      first :: List.filter PyStr.truthy (removelast rest) ++ [List.last rest EmptyString]
  | _ => segments
  end.

(* the loop over the segments: ".." pops, "." is passed over *)
Fixpoint resolve (segments resolved_path : list string) : list string :=
  match segments with
  | [] => resolved_path
  | seg :: rest =>
      if String.eqb seg ".." then resolve rest (removelast resolved_path)
      else if String.eqb seg "." then resolve rest resolved_path
      else resolve rest (resolved_path ++ [seg])
  end.

(* urllib.parse.urljoin *)
Definition urljoin (base url : string) : result string :=
  if negb (PyStr.truthy base) then Ok url
  else if negb (PyStr.truthy url) then Ok base
  else
    b ← urlparse base EmptyString;
    u ← urlparse url (p_scheme b);
    if negb (String.eqb (p_scheme u) (p_scheme b)) || negb (member (p_scheme u) uses_relative)
    then Ok url
    else if member (p_scheme u) uses_netloc && PyStr.truthy (p_netloc u)
    then Ok (urlunparse u)
    else
      let netloc := if member (p_scheme u) uses_netloc then p_netloc b else p_netloc u in
      if negb (PyStr.truthy (p_path u)) && negb (PyStr.truthy (p_params u))
      then Ok (urlunparse
                 (mkParsed (p_scheme u) netloc (p_path b) (p_params b)
                           (if PyStr.truthy (p_query u) then p_query u else p_query b)
                           (p_fragment u)))
      else
        let base_parts := PyStr.split "/" (p_path b) in
        let base_parts :=
          if PyStr.truthy (List.last base_parts EmptyString) then removelast base_parts
          else base_parts in
        let segments :=
          if PyStr.startswith (p_path u) "/" then PyStr.split "/" (p_path u)
          else drop_empty_middle (base_parts ++ PyStr.split "/" (p_path u)) in
        let resolved_path := resolve segments [] in
        let resolved_path :=
          if member (List.last segments EmptyString) [".."; "."]%string
          then resolved_path ++ [EmptyString] else resolved_path in
        let joined := PyStr.join "/" resolved_path in
        Ok (urlunparse
              (mkParsed (p_scheme u) netloc
                        (if PyStr.truthy joined then joined else "/")
                        (p_params u) (p_query u) (p_fragment u))).

(* urlparse(url).scheme, .netloc and .path; the URLs the scraper is given
   are taken to be ones urlparse accepts *)
Definition scheme (url : string) : string :=
  match urlparse url EmptyString with
  | Ok p => p_scheme p
  | Raise _ => EmptyString
  end.

Definition netloc (url : string) : string :=
  match urlparse url EmptyString with
  | Ok p => p_netloc p
  | Raise _ => EmptyString
  end.

Definition path (url : string) : string :=
  match urlparse url EmptyString with
  | Ok p => p_path p
  | Raise _ => EmptyString
  end.

End Url.

(* --------------------------------------------------------------------- *)
(* Article extraction: _extract_articles and _parse_article_container    *)
(* --------------------------------------------------------------------- *)

Module Extract.

Import Soup.

(* len(s) *)
Definition len (s : string) : Z := Z.of_nat (String.length s).

(* The article dictionary.  lamda_webscraper.py builds it without the keys
   date, category and reading_time, which are [None] here. *)
Record Article : Type := mkArticle {
  record_id : string;
  title : string;
  link : option string;
  description : option string;
  body : string;
  image_url : option string;
  date : option string;
  category : option string;
  reading_time : option string;
  source_page : string;
  extraction_index : Z
}.

Definition heading_names : list string := ["h1"; "h2"; "h3"; "h4"; "h5"; "h6"]%string.

(* tag.get_text().strip() *)
Definition stripped_text (tag : Node) : string := PyStr.strip (get_text tag).

(* for tag in tags: t = tag.get_text().strip()
     if t and len(t) > n: found = t; break *)
Fixpoint first_long_text (n : Z) (tags : list Node) : option string :=
  match tags with
  | [] => None
  | tag :: rest =>
      let t := stripped_text tag in
      if PyStr.truthy t && (len t >? n) then Some t else first_long_text n rest
  end.

Definition extract_title (container : Node) : option string :=
  first_long_text 10 (find_all heading_names container).

(* hashlib.md5(f"{page_url}|{title}|{index}".encode()).hexdigest()[:16] *)
Definition _generate_article_id (page_url title : string) (index : Z) : string :=
  PyStr.take 16
    (MD5.hexdigest
       (MD5.encode (page_url +:+ "|" +:+ title +:+ "|" +:+ PyStr.of_int index))).

(* a or b, on values that are None or a str *)
Definition py_or (a b : option string) : option string :=
  match a with
  | Some s => if PyStr.truthy s then a else b
  | None => b
  end.

Definition class_has_any (patterns : list string) (x : string) : bool :=
  PyStr.truthy x && existsb (fun p => PyStr.contains p (PyStr.lower x)) patterns.

Definition months : list string :=
  ["Jan"; "Feb"; "Mar"; "Apr"; "May"; "Jun";
   "Jul"; "Aug"; "Sep"; "Oct"; "Nov"; "Dec"]%string.

(* the loop over the date spans; a later span overwrites an earlier one *)
Fixpoint date_loop (spans : list Node) (date_info category : option string)
  : option string * option string :=
  match spans with
  | [] => (date_info, category)
  | span :: rest =>
      let text := PyStr.strip (get_text span) in
      if PyStr.truthy text then
        if existsb (fun m => PyStr.contains m text) months
        then date_loop rest (Some text) category
        else if PyStr.contains "|" text then
          let parts := PyStr.split "|" text in
          date_loop rest (PyStr.strip <$> parts !! 0%nat) (PyStr.strip <$> parts !! 1%nat)
        else date_loop rest date_info category
      else date_loop rest date_info category
  end.

Definition isdigit (c : ascii) : bool := (48 <=? PyStr.code c) && (PyStr.code c <=? 57).

Fixpoint span_digits (s : string) : string * string :=
  match s with
  | EmptyString => (EmptyString, EmptyString)
  | String c r =>
      if isdigit c then let '(ds, rest) := span_digits r in (String c ds, rest)
      else (EmptyString, s)
  end.

(* a lower-case literal matched at the head of [s] without regard to case *)
Fixpoint match_ci (lit s : string) : option string :=
  match lit, s with
  | EmptyString, _ => Some s
  | String a l', String c s' =>
      if Ascii.eqb (PyStr.lower_char c) a then match_ci l' s' else None
  | String _ _, EmptyString => None
  end.

(* (\d+)\s*minute\s*read matched at the head of [s]: group 1 *)
Definition match_reading_time (s : string) : option string :=
  let '(ds, rest) := span_digits s in
  if PyStr.truthy ds then
    r ← match_ci "minute" (PyStr.lstrip rest);
    _ ← match_ci "read" (PyStr.lstrip r);
    Some ds
  else None.

(* re.search(r'(\d+)\s*minute\s*read', s, re.IGNORECASE).group(1) *)
Fixpoint search_reading_time (s : string) : option string :=
  match match_reading_time s with
  | Some g => Some g
  | None =>
      match s with
      | EmptyString => None
      | String _ r => search_reading_time r
      end
  end.

(* text nodes outside script, style, button and a, stripped, longer than 5 *)
Definition body_parts (container : Node) : list string :=
  omap (fun ps : string * string =>
          let '(parent, elem) := ps in
          if existsb (String.eqb parent) ["script"; "style"; "button"; "a"]%string
          then None
          else let text := PyStr.strip elem in
               if PyStr.truthy text && (len text >? 5) then Some text else None)
       (text_nodes container).

Section WithUrljoin.

(* urllib.parse.urljoin; it raises ValueError on a malformed reference *)
Variable urljoin : string -> string -> result string.

(* for link in links:
     href = link.get('href', '')
     if href and not href.startswith('#') and not href.startswith('/'):
         article_link = href; break
     elif href and href.startswith('/'):
         article_link = urljoin(page_url, href) *)
Fixpoint link_loop (page_url : string) (hrefs : list string)
         (article_link : option string) : result (option string) :=
  match hrefs with
  | [] => Ok article_link
  | href :: rest =>
      if PyStr.truthy href && negb (PyStr.startswith href "#")
         && negb (PyStr.startswith href "/")
      then Ok (Some href)
      else if PyStr.truthy href && PyStr.startswith href "/"
      then u ← urljoin page_url href; link_loop page_url rest (Some u)
      else link_loop page_url rest article_link
  end.

(* the two tests of the loop *)
Definition is_outbound (href : string) : bool :=
  PyStr.truthy href && negb (PyStr.startswith href "#")
  && negb (PyStr.startswith href "/").

Definition is_rooted (href : string) : bool :=
  PyStr.truthy href && PyStr.startswith href "/".

(* link.get('href', '') for link in container.find_all('a', href=True) *)
Definition hrefs_of (container : Node) : list string :=
  map (fun a => default EmptyString (get "href" a))
      (find_all_with_attr ["a"%string] "href" container).

Definition extract_link (page_url : string) (container : Node) : result (option string) :=
  link_loop page_url (hrefs_of container) None.

Definition extract_image (page_url : string) (container : Node) : result (option string) :=
  match find ["img"%string] container with
  | None => Ok None
  | Some img_tag =>
      let image_url := py_or (get "src" img_tag) (get "data-src" img_tag) in
      match image_url with
      | Some u =>
          if PyStr.truthy u && negb (PyStr.startswith u "http")
          then u' ← urljoin page_url u; Ok (Some u')
          else Ok image_url
      | None => Ok None
      end
  end.

Definition extract_description (container : Node) : option string :=
  let desc_candidates :=
    find_all_class ["div"%string]
      (class_has_any ["line-clamp"; "description"; "summary"; "excerpt"]%string)
      container in
  match first_long_text 20 desc_candidates with
  | Some d => Some d
  | None => first_long_text 20 (find_all ["p"%string] container)
  end.

Definition extract_date (container : Node) : option string * option string :=
  date_loop
    (find_all_class ["span"%string]
       (fun x => PyStr.truthy x && PyStr.contains "date" (PyStr.lower x)) container)
    None None.

Definition extract_reading_time (container : Node) : option string :=
  (fun g => g +:+ " minute read") <$> search_reading_time (get_text container).

(* webscraper.py: ResponsibleScraper._parse_article_container *)
Definition _parse_article_container (container : Node) (page_url : string) (index : Z)
  : result (option Article) :=
  match extract_title container with
  | None => Ok None
  | Some title =>
      article_link ← extract_link page_url container;
      image_url ← extract_image page_url container;
      let description := extract_description container in
      let '(date_info, category) := extract_date container in
      let reading_time := extract_reading_time container in
      let article_id := _generate_article_id page_url title index in
      let body_text := PyStr.join " " (body_parts container) in
      Ok (Some (mkArticle article_id title article_link description body_text
                          image_url date_info category reading_time page_url index))
  end.

(* lamda_webscraper.py: LambdaScraper._parse_article_container *)
Definition lambda_parse_article_container (container : Node) (page_url : string)
           (index : Z) : result (option Article) :=
  match extract_title container with
  | None => Ok None
  | Some title =>
      article_link ← extract_link page_url container;
      image_url ← extract_image page_url container;
      let description := extract_description container in
      let body_text := PyStr.join " " (body_parts container) in
      let article_id := _generate_article_id page_url title index in
      Ok (Some (mkArticle article_id title article_link description body_text
                          image_url None None None page_url index))
  end.

(* the three candidate patterns, in the order the source applies them *)
Definition article_containers (soup : Node) : list Node :=
  find_all_class ["div"%string]
    (fun x => PyStr.truthy x && PyStr.contains "flex" x
              && existsb (fun p => PyStr.contains p x) ["flex-col"; "flex-row-reverse"]%string)
    soup
  ++ find_all ["article"%string] soup
  ++ find_all_class ["div"%string]
       (class_has_any ["article"; "post"; "story"; "item"]%string) soup.

(* container_html = str(container)[:200] *)
Definition fingerprint (container : Node) : string := PyStr.take 200 (decode container).

(* for container in article_containers:
     if container_html not in seen_containers:
         seen_containers.add(container_html); unique_containers.append(container) *)
Fixpoint dedup_loop (containers : list Node) (seen_containers : gset string)
         (unique_containers : list Node) : list Node :=
  match containers with
  | [] => unique_containers
  | container :: rest =>
      let container_html := fingerprint container in
      if decide (container_html ∈ seen_containers)
      then dedup_loop rest seen_containers unique_containers
      else dedup_loop rest ({[container_html]} ∪ seen_containers)
                      (unique_containers ++ [container])
  end.

Definition unique_containers (soup : Node) : list Node :=
  dedup_loop (article_containers soup) ∅ [].

(* for idx, container in enumerate(unique_containers):
     try:
         article = parse(container, page_url, idx)
         if article and article.get('title'): articles.append(article)
     except Exception: continue *)
Fixpoint parse_loop (parse : Node -> string -> Z -> result (option Article))
         (page_url : string) (idx : Z) (containers : list Node) : list Article :=
  match containers with
  | [] => []
  | container :: rest =>
      match parse container page_url idx with
      | Ok (Some article) =>
          if PyStr.truthy (title article)
          then article :: parse_loop parse page_url (idx + 1) rest
          else parse_loop parse page_url (idx + 1) rest
      | Ok None => parse_loop parse page_url (idx + 1) rest
      | Raise _ => parse_loop parse page_url (idx + 1) rest
      end
  end.

(* webscraper.py: ResponsibleScraper._extract_articles *)
Definition _extract_articles (soup : Node) (page_url : string) : list Article :=
  parse_loop _parse_article_container page_url 0 (unique_containers soup).

(* lamda_webscraper.py: LambdaScraper._extract_articles *)
Definition lambda_extract_articles (soup : Node) (page_url : string) : list Article :=
  parse_loop lambda_parse_article_container page_url 0 (unique_containers soup).

End WithUrljoin.

End Extract.

(* --------------------------------------------------------------------- *)
(* Dates: DateRangeGenerator                                             *)
(* --------------------------------------------------------------------- *)
(* A datetime at midnight is its proleptic Gregorian ordinal, as given by
   datetime.toordinal(); adding timedelta(days=1) adds one. *)

Module Dates.

Definition DAYS_IN_MONTH : list Z := [-1; 31; 28; 31; 30; 31; 30; 31; 31; 30; 31; 30; 31].

Definition DAYS_BEFORE_MONTH : list Z :=
  [-1; 0; 31; 59; 90; 120; 151; 181; 212; 243; 273; 304; 334].

Definition b2z (b : bool) : Z := if b then 1 else 0.

(* datetime._ord2ymd *)
Definition _ord2ymd (ordinal : Z) : Z * Z * Z :=
  let n := ordinal - 1 in
  let n400 := n / 146097 in
  let n := n mod 146097 in
  let year := n400 * 400 + 1 in
  let n100 := n / 36524 in
  let n := n mod 36524 in
  let n4 := n / 1461 in
  let n := n mod 1461 in
  let n1 := n / 365 in
  let n := n mod 365 in
  let year := year + n100 * 100 + n4 * 4 + n1 in
  if (n1 =? 4) || (n100 =? 4) then (year - 1, 12, 31)
  else
    let leapyear := (n1 =? 3) && (negb (n4 =? 24) || (n100 =? 3)) in
    let month := Z.shiftr (n + 50) 5 in
    let preceding := nth (Z.to_nat month) DAYS_BEFORE_MONTH 0
                     + b2z ((month >? 2) && leapyear) in
    if preceding >? n
    then
      let month := month - 1 in
      let preceding := preceding
                       - (nth (Z.to_nat month) DAYS_IN_MONTH 0
                          + b2z ((month =? 2) && leapyear)) in
      (year, month, n - preceding + 1)
    else (year, month, n - preceding + 1).

(* datetime.weekday(): Monday is 0 *)
Definition weekday (d : Z) : Z := (d + 6) mod 7.

(* the decimal digits of [n], padded with zeros on the left to [w]; it is
   what strftime gives for %m and %d with [w] = 2 *)
Definition zfill (w : nat) (n : Z) : string :=
  let s := PyStr.of_int n in
  Soup.concat_str (repeat "0"%string (w - String.length s)) +:+ s.

Definition year (d : Z) : Z := fst (fst (_ord2ymd d)).
Definition month (d : Z) : Z := snd (fst (_ord2ymd d)).
Definition day (d : Z) : Z := snd (_ord2ymd d).

(* date.strftime('%Y'): the C library writes the year without padding, so
   a year below 1000 has fewer than four digits *)
Definition strftime_Y (d : Z) : string := PyStr.of_int (year d).

(* date.strftime('%Y-%m-%d'): the ISO date from the year 1000 on *)
Definition isoformat (d : Z) : string :=
  strftime_Y d +:+ "-" +:+ zfill 2 (month d) +:+ "-" +:+ zfill 2 (day d).

(* datetime._is_leap, _days_before_year, _days_in_month, _ymd2ord *)
Definition _is_leap (year : Z) : bool :=
  (year mod 4 =? 0) && (negb (year mod 100 =? 0) || (year mod 400 =? 0)).

Definition _days_before_year (year : Z) : Z :=
  let y := year - 1 in y * 365 + y / 4 - y / 100 + y / 400.

Definition _days_in_month (year month : Z) : Z :=
  if (month =? 2) && _is_leap year then 29
  else nth (Z.to_nat month) DAYS_IN_MONTH 0.

Definition _ymd2ord (year month day : Z) : Z :=
  _days_before_year year
  + (nth (Z.to_nat month) DAYS_BEFORE_MONTH 0 + b2z ((month >? 2) && _is_leap year))
  + day.

(* date.max.toordinal(): 9999-12-31 *)
Definition MAXORDINAL : Z := 3652059.

Definition digit_of (c : ascii) : option Z :=
  let n := PyStr.code c in
  if (48 <=? n) && (n <=? 57) then Some (n - 48) else None.

(* two digits accepted by [ok] at the head of [s]: their value and the rest *)
Definition two_digits (ok : Z -> Z -> bool) (s : string) : option (Z * string) :=
  match s with
  | String a (String b rest) =>
      match digit_of a, digit_of b with
      | Some x, Some y => if ok x y then Some (10 * x + y, rest) else None
      | _, _ => None
      end
  | _ => None
  end.

(* one digit from 1 to 9 at the head of [s] *)
Definition one_digit (s : string) : option (Z * string) :=
  match s with
  | String a rest =>
      match digit_of a with
      | Some x => if 1 <=? x then Some (x, rest) else None
      | None => None
      end
  | EmptyString => None
  end.

(* the first of the alternatives that reads something *)
Fixpoint first_of (alternatives : list (string -> option (Z * string))) (s : string)
  : option (Z * string) :=
  match alternatives with
  | [] => None
  | alt :: rest =>
      match alt s with
      | Some v => Some v
      | None => first_of rest s
      end
  end.

(* %Y of strptime: \d\d\d\d *)
Definition read_Y (s : string) : option (Z * string) :=
  match two_digits (fun _ _ => true) s with
  | Some (hi, rest) =>
      match two_digits (fun _ _ => true) rest with
      | Some (lo, rest) => Some (100 * hi + lo, rest)
      | None => None
      end
  | None => None
  end.

(* %m of strptime: 1[0-2]|0[1-9]|[1-9] *)
Definition read_m : list (string -> option (Z * string)) :=
  [ two_digits (fun x y => (x =? 1) && (y <=? 2));
    two_digits (fun x y => (x =? 0) && (1 <=? y));
    one_digit ].

(* %d of strptime: 3[0-1]|[1-2]\d|0[1-9]|[1-9]| [1-9] *)
Definition read_d : list (string -> option (Z * string)) :=
  [ two_digits (fun x y => (x =? 3) && (y <=? 1));
    two_digits (fun x y => (1 <=? x) && (x <=? 2));
    two_digits (fun x y => (x =? 0) && (1 <=? y));
    one_digit;
    fun s => match s with
             | String c rest => if Ascii.eqb c " " then one_digit rest else None
             | EmptyString => None
             end ].

(* an alternative after which the text goes on with a hyphen (the regular
   expression falls back on the next alternative otherwise) *)
Definition then_hyphen (alt : string -> option (Z * string)) (s : string)
  : option (Z * string) :=
  match alt s with
  | Some (v, String c rest) => if Ascii.eqb c "-" then Some (v, rest) else None
  | _ => None
  end.

(* datetime.strptime(s, '%Y-%m-%d') as the ordinal of the date: the text
   must match all of year-month-day, the month and the day with one or two
   digits, and name a day of the calendar from the year 1 on *)
Definition strptime (s : string) : result Z :=
  match then_hyphen read_Y s with
  | Some (y, after_year) =>
      match first_of (map then_hyphen read_m) after_year with
      | Some (m, after_month) =>
          match first_of read_d after_month with
          | Some (d, EmptyString) =>
              if (1 <=? y) && (d <=? _days_in_month y m)
              then Ok (_ymd2ord y m d) else Raise ValueError
          | _ => Raise ValueError
          end
      | None => Raise ValueError
      end
  | None => Raise ValueError
  end.

(* while current <= end: skip a weekend day or yield, then add a day *)
Fixpoint date_range_loop (fuel : nat) (current end_date : Z) (skip_weekends : bool)
  : list Z :=
  match fuel with
  | O => []
  | S fuel' =>
      if current <=? end_date then
        if skip_weekends && (weekday current >=? 5)
        then date_range_loop fuel' (current + 1) end_date skip_weekends
        else current :: date_range_loop fuel' (current + 1) end_date skip_weekends
      else []
  end.

(* DateRangeGenerator.generate_date_range; every turn of the loop advances
   [current] by one day, so end - start + 1 turns reach the end.  The dates
   are those the generator yields; [end_date] is taken to lie before
   9999-12-31, the one day after which the step of the loop raises
   OverflowError. *)
Definition generate_date_range (start_date end_date : Z) (skip_weekends : bool) : list Z :=
  date_range_loop (Z.to_nat (end_date - start_date + 1)) start_date end_date skip_weekends.

(* s.replace(old, new), [old] not empty; [skip] characters of a match just
   replaced are still to be dropped *)
Fixpoint replace_aux (old new : string) (skip : nat) (s : string) : string :=
  match s with
  | EmptyString => EmptyString
  | String c r =>
      match skip with
      | S k => replace_aux old new k r
      | O =>
          if String.prefix old s
          then new +:+ replace_aux old new (String.length old - 1) r
          else String c (replace_aux old new O r)
      end
  end.

Definition replace (old new s : string) : string := replace_aux old new O s.

(* DateRangeGenerator.format_url_with_date: the placeholders are replaced
   one after the other, in the order of the dictionary *)
Definition format_url_with_date (url_template : string) (date : Z) : string :=
  fold_left (fun formatted_url pv => replace (fst pv) (snd pv) formatted_url)
    [ ("{YYYY}"%string, strftime_Y date);
      ("{MM}"%string, zfill 2 (month date));
      ("{DD}"%string, zfill 2 (day date));
      ("{YYYY-MM-DD}"%string, isoformat date);
      ("{M}"%string, PyStr.of_int (month date));
      ("{D}"%string, PyStr.of_int (day date)) ]
    url_template.

End Dates.

(* --------------------------------------------------------------------- *)
(* urllib.robotparser                                                    *)
(* --------------------------------------------------------------------- *)

Module Robots.

(* One record of a robots.txt file.  [applies_to] and [allowance] are the
   methods of robotparser.Entry; [allowance] takes the URL being asked
   about and covers the reduction of the URL to its quoted path. *)
Record Entry : Type := mkEntry {
  applies_to : string -> bool;
  allowance : string -> bool;
  delay : option Z
}.

Record RobotFileParser : Type := mkParser {
  entries : list Entry;
  default_entry : option Entry;
  disallow_all : bool;
  allow_all : bool;
  url : string;
  last_checked : Z
}.

(* rp = RobotFileParser(); rp.set_url(robots_url) *)
Definition new_parser (robots_url : string) : RobotFileParser :=
  mkParser [] None false false robots_url 0.

Fixpoint first_applicable (useragent : string) (es : list Entry) : option Entry :=
  match es with
  | [] => None
  | entry :: rest =>
      if applies_to entry useragent then Some entry else first_applicable useragent rest
  end.

(* RobotFileParser.can_fetch *)
Definition can_fetch (rp : RobotFileParser) (useragent url : string) : bool :=
  if disallow_all rp then false
  else if allow_all rp then true
  else if last_checked rp =? 0 then false
  else match first_applicable useragent (entries rp) with
       | Some entry => allowance entry url
       | None =>
           match default_entry rp with
           | Some entry => allowance entry url
           | None => true
           end
       end.

(* RobotFileParser.crawl_delay *)
Definition crawl_delay (rp : RobotFileParser) (useragent : string) : option Z :=
  if last_checked rp =? 0 then None
  else match first_applicable useragent (entries rp) with
       | Some entry => delay entry
       | None =>
           match default_entry rp with
           | Some entry => delay entry
           | None => None
           end
       end.

(* A robots.txt body: its text and the records RobotFileParser.parse
   reads from its lines. *)
Record RobotsTxt : Type := mkRobotsTxt {
  robots_text : string;
  parsed_entries : list Entry;
  parsed_default : option Entry
}.

(* RobotFileParser.parse at time [now]: modified() stamps the parser *)
Definition parse (rp : RobotFileParser) (body : RobotsTxt) (now : positive)
  : RobotFileParser :=
  mkParser (entries rp ++ parsed_entries body)
           (match default_entry rp with
            | Some e => Some e
            | None => parsed_default body
            end)
           (disallow_all rp) (allow_all rp) (url rp) (Z.pos now).

End Robots.

(* --------------------------------------------------------------------- *)
(* The outside world                                                     *)
(* --------------------------------------------------------------------- *)

Module World.

(* what the program does to the world, in the order it does it *)
Inductive Event : Type :=
| RequestsGet (robots_url : string)    (* requests.get(robots_url, timeout=10) *)
| Urlopen (robots_url : string)        (* urllib.request.urlopen in rp.read() *)
| SaveRobotsTxt (domain : string)      (* _save_robots_txt writes the file *)
| SessionGet (url : string)            (* self.session.get(url, timeout=...) *)
| SleepDelay (seconds : Q)             (* time.sleep(delay) *)
| SleepBackoff (seconds : Z)           (* time.sleep(2 ** attempt) *)
| PutObject (key : string).            (* s3.put_object(Key=key, ...) *)

(* an HTTP response to the page request; [resp_soup] is the document
   BeautifulSoup(response.content, 'html.parser') builds *)
Record Response : Type := mkResponse {
  resp_status : Z;
  resp_soup : Soup.Node;
  resp_text : string;
  resp_headers : list (string * string)
}.

Inductive PageOutcome : Type :=
| PageError                       (* ConnectionError, Timeout, ... *)
| PageResponse (r : Response).

Inductive RobotsOutcome : Type :=
| RobotsError                               (* requests.get raises *)
| RobotsResponse (status : Z) (body : Robots.RobotsTxt).

Inductive UrlopenOutcome : Type :=
| UrlopenBody (body : Robots.RobotsTxt)
| UrlopenHTTPError (code : Z)
| UrlopenError.                   (* URLError, or a body that is not UTF-8 *)

(* The answers of the world, each a function of what happened before. *)
Record Env : Type := mkEnv {
  requests_get : list Event -> string -> RobotsOutcome;
  urlopen : list Event -> string -> UrlopenOutcome;
  session_get : list Event -> string -> PageOutcome;
  random : list Event -> Q;           (* random.random() *)
  clock : list Event -> positive      (* time.time() *)
}.

(* random.uniform(a, b) *)
Definition uniform (env : Env) (tr : list Event) (range : Q * Q) : Q :=
  (fst range + (snd range - fst range) * random env tr)%Q.

(* response.raise_for_status() raises HTTPError for a 4xx or 5xx status *)
Definition raises_for_status (r : Response) : bool :=
  (400 <=? resp_status r) && (resp_status r <? 600).

(* the page request ends in a requests.RequestException *)
Definition page_fails (o : PageOutcome) : bool :=
  match o with
  | PageError => true
  | PageResponse r => raises_for_status r
  end.

(* robots.txt was not retrieved: no response, or a status other than 200 *)
Definition robots_fetch_failed (o : RobotsOutcome) : bool :=
  match o with
  | RobotsError => true
  | RobotsResponse status _ => negb (status =? 200)
  end.

(* readings of a history *)
Definition is_robots_event (e : Event) : bool :=
  match e with
  | RequestsGet _ | Urlopen _ | SaveRobotsTxt _ => true
  | _ => false
  end.

Definition is_retry_event (e : Event) : bool :=
  match e with
  | SessionGet _ | SleepBackoff _ => true
  | _ => false
  end.

(* the pages requested, in order *)
Definition fetched (tr : list Event) : list string :=
  omap (fun e => match e with SessionGet u => Some u | _ => None end) tr.

(* the backoff sleeps, in order *)
Definition backoffs (tr : list Event) : list Z :=
  omap (fun e => match e with SleepBackoff d => Some d | _ => None end) tr.

(* the page requests and the backoff sleeps, without the delays *)
Definition retry_view (tr : list Event) : list Event := List.filter is_retry_event tr.

(* [n] requests of [url], the first with index [attempt], and between two
   consecutive requests a sleep of 2 ** index of the earlier one *)
Fixpoint attempts_with_backoff (url : string) (attempt : Z) (n : nat) : list Event :=
  match n with
  | O => []
  | S n' =>
      SessionGet url
      :: match n' with
         | O => []
         | S _ => SleepBackoff (2 ^ attempt) :: attempts_with_backoff url (attempt + 1) n'
         end
  end.

End World.

(* --------------------------------------------------------------------- *)
(* webscraper.py                                                         *)
(* --------------------------------------------------------------------- *)

Module Webscraper.

Import World.

Record ScrapingConfig : Type := mkConfig {
  user_agent : string;
  delay_range : Q * Q;
  max_retries : Z;
  timeout : Z;
  respect_robots_txt : bool;
  max_pages_per_domain : Z;
  debug_mode : bool;
  save_robots_txt : bool;
  skip_weekends : bool;
  skip_missing_dates : bool;
  max_consecutive_failures : Z
}.

(* ScrapingConfig() *)
Definition default_config : ScrapingConfig :=
  mkConfig "TLDR-Scraper/1.0 (Research; datubyte@datubyte.com)" (1, 3)%Q 3 10
           true 100 false true false true 5.

(* RobotsTxtChecker, ResponsibleScraper and the history of the run.  The
   fields of the two objects are kept in one record. *)
Record State : Type := mkState {
  config : ScrapingConfig;
  robot_parsers : gmap string Robots.RobotFileParser;
  robots_content : gmap string string;
  saved_robots : gset string;
  domain_counters : gmap string Z;
  consecutive_failures : Z;
  trace : list Event
}.

(* ResponsibleScraper(config) *)
Definition new_scraper (cfg : ScrapingConfig) : State :=
  mkState cfg ∅ ∅ ∅ ∅ 0 [].

Definition log (e : Event) (s : State) : State :=
  mkState (config s) (robot_parsers s) (robots_content s) (saved_robots s)
          (domain_counters s) (consecutive_failures s) (trace s ++ [e]).

Definition set_parser (domain : string) (rp : Robots.RobotFileParser) (s : State) : State :=
  mkState (config s) (<[domain := rp]> (robot_parsers s)) (robots_content s)
          (saved_robots s) (domain_counters s) (consecutive_failures s) (trace s).

Definition set_content (domain text : string) (s : State) : State :=
  mkState (config s) (robot_parsers s) (<[domain := text]> (robots_content s))
          (saved_robots s) (domain_counters s) (consecutive_failures s) (trace s).

Definition add_saved (domain : string) (s : State) : State :=
  mkState (config s) (robot_parsers s) (robots_content s)
          ({[domain]} ∪ saved_robots s) (domain_counters s)
          (consecutive_failures s) (trace s).

Definition set_failures (n : Z) (s : State) : State :=
  mkState (config s) (robot_parsers s) (robots_content s) (saved_robots s)
          (domain_counters s) n (trace s).

Definition set_counter (domain : string) (n : Z) (s : State) : State :=
  mkState (config s) (robot_parsers s) (robots_content s) (saved_robots s)
          (<[domain := n]> (domain_counters s)) (consecutive_failures s) (trace s).

(* f"{urlparse(url).scheme}://{urlparse(url).netloc}" *)
Definition robots_domain (url : string) : string :=
  Url.scheme url +:+ "://" +:+ Url.netloc url.

(* urljoin(domain, '/robots.txt') *)
Definition robots_url_of (domain : string) : string := domain +:+ "/robots.txt".

(* the except branch of can_fetch: an unread parser is stored *)
Definition store_unread_parser (domain : string) (s : State) : State :=
  set_parser domain (Robots.new_parser (robots_url_of domain)) s.

(* rp.read() followed by self.robot_parsers[domain] = rp; an exception
   that is not an HTTPError leaves read() and reaches the except branch *)
Definition read_and_store (env : Env) (domain : string) (s : State) : State :=
  let robots_url := robots_url_of domain in
  let rp := Robots.new_parser robots_url in
  let answer := urlopen env (trace s) robots_url in
  let s := log (Urlopen robots_url) s in
  match answer with
  | UrlopenHTTPError code =>
      if (code =? 401) || (code =? 403)
      then set_parser domain
             (Robots.mkParser [] None true false robots_url 0) s
      else if (400 <=? code) && (code <? 500)
      then set_parser domain
             (Robots.mkParser [] None false true robots_url 0) s
      else set_parser domain rp s
  | UrlopenBody body =>
      set_parser domain (Robots.parse rp body (clock env (trace s))) s
  | UrlopenError => store_unread_parser domain s
  end.

(* the part of can_fetch that runs when the domain has no parser yet *)
Definition load_robots (env : Env) (domain : string) (s : State) : State :=
  let robots_url := robots_url_of domain in
  let answer := requests_get env (trace s) robots_url in
  let s := log (RequestsGet robots_url) s in
  match answer with
  | RobotsResponse status body =>
      if status =? 200 then
        let s := set_content domain (Robots.robots_text body) s in
        let s :=
          if save_robots_txt (config s) && negb (bool_decide (domain ∈ saved_robots s))
          then add_saved domain (log (SaveRobotsTxt domain) s)
          else s in
        read_and_store env domain s
      else store_unread_parser domain s
  | RobotsError => store_unread_parser domain s
  end.

(* RobotsTxtChecker.can_fetch *)
Definition can_fetch (env : Env) (url user_agent : string) (s : State) : bool * State :=
  let domain := robots_domain url in
  let s :=
    match robot_parsers s !! domain with
    | Some _ => s
    | None => load_robots env domain s
    end in
  match robot_parsers s !! domain with
  | Some rp => (Robots.can_fetch rp user_agent url, s)
  | None => (false, s)      (* never taken: the domain has a parser by now *)
  end.

(* RobotsTxtChecker.get_crawl_delay *)
Definition get_crawl_delay (url user_agent : string) (s : State) : option Z :=
  match robot_parsers s !! robots_domain url with
  | Some rp => Robots.crawl_delay rp user_agent
  | None => None
  end.

(* ResponsibleScraper._should_scrape_url *)
Definition _should_scrape_url (env : Env) (url : string) (s : State) : bool * State :=
  let domain := Url.netloc url in
  let over_quota :=
    match domain_counters s !! domain with
    | Some n => n >=? max_pages_per_domain (config s)
    | None => false
    end in
  if over_quota then (false, s)
  else if respect_robots_txt (config s) then
    let '(allowed, s) := can_fetch env url (user_agent (config s)) s in
    if negb allowed then (false, s) else (true, s)
  else (true, s).

(* max(a, b): the first argument unless the second is greater *)
Definition qmax (a b : Q) : Q := if Qle_bool b a then a else b.

(* ResponsibleScraper._get_delay *)
Definition _get_delay (env : Env) (url : string) (s : State) : Q :=
  let robots_delay := get_crawl_delay url (user_agent (config s)) s in
  match robots_delay with
  | Some d =>
      if d =? 0 then uniform env (trace s) (delay_range (config s))
      else qmax (inject_Z d) (uniform env (trace s) (delay_range (config s)))
  | None => uniform env (trace s) (delay_range (config s))
  end.

(* The page dictionary scrape_url returns.  raw_html and response_headers
   are present in debug mode only; scraped_date is added by
   scrape_date_range (its date_from_url entry is not carried). *)
Record PageResult : Type := mkPage {
  url : string;
  title : string;
  content : string;
  meta_description : string;
  headings : list (string * string);
  links : list string;
  articles : list Extract.Article;
  article_count : Z;
  status_code : Z;
  content_type : string;
  scraped_at : Z;
  raw_html : option string;
  response_headers : option (list (string * string));
  scraped_date : option string
}.

Definition with_scraped_date (d : string) (p : PageResult) : PageResult :=
  mkPage (url p) (title p) (content p) (meta_description p) (headings p) (links p)
         (articles p) (article_count p) (status_code p) (content_type p)
         (scraped_at p) (raw_html p) (response_headers p) (Some d).

(* _extract_title *)
Definition _extract_title (soup : Soup.Node) : string :=
  match Soup.find ["title"%string] soup with
  | Some title_tag => PyStr.strip (Soup.get_text title_tag)
  | None => EmptyString
  end.

Definition has_class (token : string) (n : Soup.Node) : bool :=
  match Soup.get "class" n with
  | Some v => existsb (String.eqb token) (PyStr.words v)
  | None => false
  end.

Definition has_id (ident : string) (n : Soup.Node) : bool :=
  match Soup.get "id" n with
  | Some v => String.eqb v ident
  | None => false
  end.

(* the selectors of _extract_content, in their order *)
Definition content_selectors : list (Soup.Node -> bool) :=
  [ Soup.is_named ["main"%string]; Soup.is_named ["article"%string];
    has_class "content"; has_id "content"; has_class "post-content";
    has_class "entry-content"; has_class "article-body" ].

(* soup.select_one(selector) *)
Definition select_one (selector : Soup.Node -> bool) (soup : Soup.Node)
  : option Soup.Node :=
  head (List.filter (fun n => bool_decide (is_Some (Soup.name_of n)) && selector n)
                    (Soup.descendants soup)).

Fixpoint first_selected (selectors : list (Soup.Node -> bool)) (soup : Soup.Node)
  : option Soup.Node :=
  match selectors with
  | [] => None
  | selector :: rest =>
      match select_one selector soup with
      | Some c => Some c
      | None => first_selected rest soup
      end
  end.

(* _extract_content, on the document left by the removal of script and style *)
Definition _extract_content (soup : Soup.Node) : string :=
  match first_selected content_selectors soup with
  | Some c => Soup.get_text_stripped c
  | None =>
      match Soup.find ["body"%string] soup with
      | Some b => Soup.get_text_stripped b
      | None => Soup.get_text_stripped soup
      end
  end.

(* _extract_meta_description *)
Definition _extract_meta_description (soup : Soup.Node) : string :=
  match head (List.filter
                (fun n => match Soup.get "name" n with
                          | Some v => String.eqb v "description"
                          | None => false
                          end)
                (Soup.find_all ["meta"%string] soup)) with
  | Some meta_desc => PyStr.strip (default EmptyString (Soup.get "content" meta_desc))
  | None => EmptyString
  end.

(* _extract_headings *)
Definition _extract_headings (soup : Soup.Node) : list (string * string) :=
  map (fun h => (default EmptyString (Soup.name_of h), PyStr.strip (Soup.get_text h)))
      (Soup.find_all Extract.heading_names soup).

(* response.headers.get(key, ''): the keys compare without regard to case *)
Definition header (key : string) (hs : list (string * string)) : string :=
  match List.find (fun kv => String.eqb (PyStr.lower (fst kv)) key) hs with
  | Some kv => snd kv
  | None => EmptyString
  end.

Section WithUrljoin.

Variable urljoin : string -> string -> result string.

(* _extract_links *)
Fixpoint join_links (base_url : string) (hrefs : list string) : result (list string) :=
  match hrefs with
  | [] => Ok []
  | href :: rest =>
      absolute_url ← urljoin base_url href;
      others ← join_links base_url rest;
      Ok (absolute_url :: others)
  end.

Definition _extract_links (soup : Soup.Node) (base_url : string) : result (list string) :=
  join_links base_url (Extract.hrefs_of soup).

(* the body of the try block of scrape_url after the counters are updated:
   the dictionary built from the response *)
Definition build_data (env : Env) (url : string) (response : Response) (s : State)
  : result PageResult :=
  let soup := resp_soup response in
  let articles := Extract._extract_articles urljoin soup url in
  let title := _extract_title soup in
  let soup := Soup.decompose ["script"; "style"]%string soup in
  let content := _extract_content soup in
  let meta := _extract_meta_description soup in
  let headings := _extract_headings soup in
  links ← _extract_links soup url;
  Ok (mkPage url title content meta headings links articles
             (Z.of_nat (length articles)) (resp_status response)
             (header "content-type" (resp_headers response))
             (Z.pos (clock env (trace s)))
             (if debug_mode (config s) then Some (resp_text response) else None)
             (if debug_mode (config s) then Some (resp_headers response) else None)
             None).

(* except requests.RequestException: time.sleep(2 ** attempt) unless this
   was the last attempt *)
Definition backoff (attempt : Z) (s : State) : State :=
  if attempt <? max_retries (config s) - 1
  then log (SleepBackoff (2 ^ attempt)) s else s.

(* after a response that does not raise: the counters, then the data *)
Definition succeed (env : Env) (url : string) (response : Response) (s : State)
  : result (option PageResult) * State :=
  let domain := Url.netloc url in
  let s := set_counter domain (default 0 (domain_counters s !! domain) + 1) s in
  let s := set_failures 0 s in
  match build_data env url response s with
  | Ok data => (Ok (Some data), s)
  | Raise e => (Raise e, s)
  end.

(* for attempt in range(max_retries): ... ; [attempt] is the loop variable
   and [remaining] the number of values range() has still to give; when
   the loop runs out the failure is counted and None returned *)
Fixpoint attempt_loop (env : Env) (url : string) (attempt : Z) (remaining : nat)
         (s : State) : result (option PageResult) * State :=
  match remaining with
  | O => (Ok None, set_failures (consecutive_failures s + 1) s)
  | S remaining' =>
      let delay := _get_delay env url s in
      let s := log (SleepDelay delay) s in
      let answer := session_get env (trace s) url in
      let s := log (SessionGet url) s in
      match answer with
      | PageResponse response =>
          if raises_for_status response
          then attempt_loop env url (attempt + 1) remaining' (backoff attempt s)
          else succeed env url response s
      | PageError => attempt_loop env url (attempt + 1) remaining' (backoff attempt s)
      end
  end.

(* ResponsibleScraper.scrape_url *)
Definition scrape_url (env : Env) (url : string) (s : State)
  : result (option PageResult) * State :=
  let '(go, s) := _should_scrape_url env url s in
  if negb go then (Ok None, s)
  else attempt_loop env url 0 (Z.to_nat (max_retries (config s))) s.

(* the loop of scrape_date_range over the generated dates *)
Fixpoint date_loop (env : Env) (url_template : string) (dates : list Z)
         (results : list PageResult) (s : State) : result (list PageResult) * State :=
  match dates with
  | [] => (Ok results, s)
  | date :: rest =>
      let url := Dates.format_url_with_date url_template date in
      if consecutive_failures s >=? max_consecutive_failures (config s)
      then (Ok results, s)
      else
        match scrape_url env url s with
        | (Ok (Some data), s) =>
            date_loop env url_template rest
              (results ++ [with_scraped_date (Dates.isoformat date) data]) s
        | (Ok None, s) => date_loop env url_template rest results s
        | (Raise e, s) => (Raise e, s)
        end
  end.

(* ResponsibleScraper.scrape_date_range; [start_date] and [end_date] are
   the datetimes strptime reads from its two arguments *)
Definition scrape_date_range (env : Env) (url_template : string)
           (start_date end_date : Z) (s : State) : result (list PageResult) * State :=
  date_loop env url_template
    (Dates.generate_date_range start_date end_date (skip_weekends (config s))) [] s.

End WithUrljoin.

(* [s'] comes from [s] by robots.txt traffic alone: the configuration and
   the counters are the same, the history grew by robots events only, and
   the parsers already stored are still there *)
Definition robots_only (s s' : State) : Prop :=
  config s' = config s
  /\ domain_counters s' = domain_counters s
  /\ consecutive_failures s' = consecutive_failures s
  /\ (exists new, trace s' = trace s ++ new /\ forallb is_robots_event new = true)
  /\ (forall d p, robot_parsers s !! d = Some p -> robot_parsers s' !! d = Some p).

End Webscraper.

(* --------------------------------------------------------------------- *)
(* lamda_webscraper.py                                                   *)
(* --------------------------------------------------------------------- *)

Module Lambda.

Import World.

Record ScrapingConfig : Type := mkConfig {
  user_agent : string;
  delay_range : Q * Q;
  max_retries : Z;
  timeout : Z;
  respect_robots_txt : bool;
  max_consecutive_failures : Z
}.

(* RobotsTxtChecker, LambdaScraper and the history of the run *)
Record State : Type := mkState {
  config : ScrapingConfig;
  robot_parsers : gmap string Robots.RobotFileParser;
  consecutive_failures : Z;
  trace : list Event
}.

(* LambdaScraper(config) *)
Definition new_scraper (cfg : ScrapingConfig) : State := mkState cfg ∅ 0 [].

Definition log (e : Event) (s : State) : State :=
  mkState (config s) (robot_parsers s) (consecutive_failures s) (trace s ++ [e]).

Definition set_parser (domain : string) (rp : Robots.RobotFileParser) (s : State) : State :=
  mkState (config s) (<[domain := rp]> (robot_parsers s)) (consecutive_failures s) (trace s).

Definition set_failures (n : Z) (s : State) : State :=
  mkState (config s) (robot_parsers s) n (trace s).

(* the part of can_fetch that runs when the domain has no parser yet *)
Definition load_robots (env : Env) (domain : string) (s : State) : State :=
  let robots_url := Webscraper.robots_url_of domain in
  let rp := Robots.new_parser robots_url in
  let answer := requests_get env (trace s) robots_url in
  let s := log (RequestsGet robots_url) s in
  match answer with
  | RobotsResponse status body =>
      if status =? 200
      then set_parser domain (Robots.parse rp body (clock env (trace s))) s
      else set_parser domain (Robots.new_parser robots_url) s
  | RobotsError => set_parser domain (Robots.new_parser robots_url) s
  end.

(* RobotsTxtChecker.can_fetch *)
Definition can_fetch (env : Env) (url user_agent : string) (s : State) : bool * State :=
  let domain := Webscraper.robots_domain url in
  let s :=
    match robot_parsers s !! domain with
    | Some _ => s
    | None => load_robots env domain s
    end in
  match robot_parsers s !! domain with
  | Some rp => (Robots.can_fetch rp user_agent url, s)
  | None => (false, s)      (* never taken: the domain has a parser by now *)
  end.

(* RobotsTxtChecker.get_crawl_delay *)
Definition get_crawl_delay (url user_agent : string) (s : State) : option Z :=
  match robot_parsers s !! Webscraper.robots_domain url with
  | Some rp => Robots.crawl_delay rp user_agent
  | None => None
  end.

(* LambdaScraper._should_scrape_url *)
Definition _should_scrape_url (env : Env) (url : string) (s : State) : bool * State :=
  if respect_robots_txt (config s) then
    let '(allowed, s) := can_fetch env url (user_agent (config s)) s in
    if negb allowed then (false, s) else (true, s)
  else (true, s).

(* LambdaScraper._get_delay *)
Definition _get_delay (env : Env) (url : string) (s : State) : Q :=
  match get_crawl_delay url (user_agent (config s)) s with
  | Some d =>
      if d =? 0 then uniform env (trace s) (delay_range (config s))
      else Webscraper.qmax (inject_Z d) (uniform env (trace s) (delay_range (config s)))
  | None => uniform env (trace s) (delay_range (config s))
  end.

(* the page dictionary; scraped_date and category are added by the handler *)
Record PageResult : Type := mkPage {
  url : string;
  title : string;
  content : string;
  meta_description : string;
  headings : list (string * string);
  articles : list Extract.Article;
  article_count : Z;
  status_code : Z;
  scraped_at : Z;
  scraped_date : option string;
  category : option string
}.

Section WithUrljoin.

Variable urljoin : string -> string -> result string.

Definition build_data (env : Env) (url : string) (response : Response) (s : State)
  : PageResult :=
  let soup := resp_soup response in
  let articles := Extract.lambda_extract_articles urljoin soup url in
  let title := Webscraper._extract_title soup in
  let soup := Soup.decompose ["script"; "style"]%string soup in
  mkPage url title (Webscraper._extract_content soup)
         (Webscraper._extract_meta_description soup)
         (Webscraper._extract_headings soup) articles
         (Z.of_nat (length articles)) (resp_status response)
         (Z.pos (clock env (trace s))) None None.

Definition backoff (attempt : Z) (s : State) : State :=
  if attempt <? max_retries (config s) - 1
  then log (SleepBackoff (2 ^ attempt)) s else s.

Fixpoint attempt_loop (env : Env) (url : string) (attempt : Z) (remaining : nat)
         (s : State) : option PageResult * State :=
  match remaining with
  | O => (None, set_failures (consecutive_failures s + 1) s)
  | S remaining' =>
      let delay := _get_delay env url s in
      let s := log (SleepDelay delay) s in
      let answer := session_get env (trace s) url in
      let s := log (SessionGet url) s in
      match answer with
      | PageResponse response =>
          if raises_for_status response
          then attempt_loop env url (attempt + 1) remaining' (backoff attempt s)
          else let s := set_failures 0 s in
               (Some (build_data env url response s), s)
      | PageError => attempt_loop env url (attempt + 1) remaining' (backoff attempt s)
      end
  end.

(* LambdaScraper.scrape_url *)
Definition scrape_url (env : Env) (url : string) (s : State)
  : option PageResult * State :=
  let '(go, s) := _should_scrape_url env url s in
  if negb go then (None, s)
  else attempt_loop env url 0 (Z.to_nat (max_retries (config s))) s.

(* lamda_webscraper.py: generate_date_range(start, end); the list is built
   before it is returned, so the step past 9999-12-31 raises in place of
   the result *)
Definition generate_date_range (start end_ : string) : result (list string) :=
  start_dt ← Dates.strptime start;
  end_dt ← Dates.strptime end_;
  if (start_dt <=? end_dt) && (end_dt =? Dates.MAXORDINAL) then Raise OverflowError
  else Ok (map Dates.isoformat (Dates.generate_date_range start_dt end_dt false)).

(* lamda_webscraper.py: format_url_with_date(url_template, date_str) *)
Definition format_url_with_date (url_template date_str : string) : result string :=
  date ← Dates.strptime date_str;
  Ok (Dates.format_url_with_date url_template date).

(* one entry of the list lambda_handler returns; full_data_key,
   articles_key and article_count are absent from a failed entry *)
Inductive Status : Type := success | failed.

Record ResultEntry : Type := mkEntry {
  entry_date : string;
  entry_category : string;
  entry_url : string;
  entry_full_data_key : option string;
  entry_articles_key : option string;
  entry_article_count : option Z;
  entry_status : Status
}.

(* for date_str in dates: ... of lambda_handler, for one URL template.  The
   date is the string of the event: format_url_with_date reads it, and the
   entry and the keys carry it as it is.  An exception leaves the loop and
   the handler; the result is then [Some] of it, with the entries built
   until then. *)
Fixpoint handler_dates (env : Env) (url_template category : string) (dates : list string)
         (category_results : list ResultEntry) (s : State)
  : (list ResultEntry * option exn) * State :=
  match dates with
  | [] => ((category_results, None), s)
  | date_str :: rest =>
      match format_url_with_date url_template date_str with
      | Raise e => ((category_results, Some e), s)
      | Ok url =>
          match scrape_url env url s with
          | (Some data, s) =>
              let full_key :=
                "scraped_data/" +:+ category +:+ "/full/" +:+ date_str +:+ ".json" in
              let s := log (PutObject full_key) s in
              let '(articles_key, s) :=
                match articles data with
                | [] => (None, s)
                | _ :: _ =>
                    let k := "scraped_data/" +:+ category +:+ "/articles/" +:+ date_str
                             +:+ ".json" in
                    (Some k, log (PutObject k) s)
                end in
              handler_dates env url_template category rest
                (category_results
                   ++ [mkEntry date_str category url (Some full_key) articles_key
                               (Some (Z.of_nat (length (articles data)))) success]) s
          | (None, s) =>
              handler_dates env url_template category rest
                (category_results ++ [mkEntry date_str category url None None None failed]) s
          end
      end
  end.

(* for url_info in url_templates: ... of lambda_handler; [url_templates]
   and [dates] are what the handler reads from the event.  When an
   exception ends the run, the entries are those of all_results and of the
   category_results of the category at hand. *)
Fixpoint lambda_handler (env : Env) (url_templates : list (string * string))
         (dates : list string) (all_results : list ResultEntry) (s : State)
  : (list ResultEntry * option exn) * State :=
  match url_templates with
  | [] => ((all_results, None), s)
  | (url_template, category) :: rest =>
      let '((category_results, raised), s) :=
        handler_dates env url_template category dates [] s in
      match raised with
      | Some e => ((all_results ++ category_results, Some e), s)
      | None => lambda_handler env rest dates (all_results ++ category_results) s
      end
  end.

End WithUrljoin.

Definition robots_only (s s' : State) : Prop :=
  config s' = config s
  /\ consecutive_failures s' = consecutive_failures s
  /\ (exists new, trace s' = trace s ++ new /\ forallb is_robots_event new = true)
  /\ (forall d p, robot_parsers s !! d = Some p -> robot_parsers s' !! d = Some p).

End Lambda.

(* --------------------------------------------------------------------- *)
(* lamda_webscraper.py: lambda_handler                                   *)
(* --------------------------------------------------------------------- *)

Module Handler.

Import World.

(* The event: a key that is absent is [None]. *)
Record Payload : Type := mkPayload {
  category : option string;
  categories : option (list string);
  url_template : option string;
  date : option string;
  start_date : option string;
  end_date : option string;
  user_agent : option string;
  delay_range : option (Q * Q);
  max_retries : option Z
}.

Definition TLDR_CATEGORIES : list (string * string) :=
  [ ("tech", "https://tldr.tech/tech/{YYYY-MM-DD}");
    ("ai", "https://tldr.tech/ai/{YYYY-MM-DD}");
    ("devops", "https://tldr.tech/devops/{YYYY-MM-DD}");
    ("crypto", "https://tldr.tech/crypto/{YYYY-MM-DD}");
    ("design", "https://tldr.tech/design/{YYYY-MM-DD}");
    ("marketing", "https://tldr.tech/marketing/{YYYY-MM-DD}");
    ("founders", "https://tldr.tech/founders/{YYYY-MM-DD}");
    ("webdev", "https://tldr.tech/webdev/{YYYY-MM-DD}");
    ("infosec", "https://tldr.tech/infosec/{YYYY-MM-DD}");
    ("product", "https://tldr.tech/product/{YYYY-MM-DD}") ]%string.

(* TLDR_CATEGORIES[category], when category in TLDR_CATEGORIES *)
Definition known_template (category : string) : option string :=
  snd <$> List.find (fun kv => String.eqb (fst kv) category) TLDR_CATEGORIES.

(* the entry appended to url_templates for one category of the event *)
Definition template_for (category : string) : string * string :=
  let category := PyStr.lower category in
  match known_template category with
  | Some template => (template, category)
  | None => ("https://tldr.tech/" +:+ category +:+ "/{YYYY-MM-DD}", category)
  end.

(* url_templates: category, else categories, else url_template, else tech *)
Definition url_templates_of (event : Payload) : list (string * string) :=
  match category event with
  | Some c => [template_for c]
  | None =>
      match categories event with
      | Some cs => map template_for cs
      | None =>
          match url_template event with
          | Some t => [(t, "custom"%string)]
          | None => [("https://tldr.tech/tech/{YYYY-MM-DD}"%string, "tech"%string)]
          end
      end
  end.

(* dates: date, else start_date..end_date, else yesterday; [today] is the
   day of datetime.now() *)
Definition dates_of (event : Payload) (today : Z) : result (list string) :=
  match date event with
  | Some d => Ok [d]
  | None =>
      match start_date event, end_date event with
      | Some a, Some b => Lambda.generate_date_range a b
      | _, _ => Ok [Dates.isoformat (today - 1)]
      end
  end.

(* ScrapingConfig(user_agent=..., delay_range=..., max_retries=...) *)
Definition config_of (USER_AGENT : string) (event : Payload) : Lambda.ScrapingConfig :=
  Lambda.mkConfig (default USER_AGENT (user_agent event))
                  (default (1, 3)%Q (delay_range event))
                  (default 3 (max_retries event)) 10 true 5.

Record Summary : Type := mkSummary {
  total_urls_processed : Z;
  successful : Z;
  failed : Z;
  total_articles : Z;
  categories_processed : gset string;
  dates_processed : gset string
}.

Definition is_success (r : Lambda.ResultEntry) : bool :=
  match Lambda.entry_status r with Lambda.success => true | Lambda.failed => false end.

Definition is_failed (r : Lambda.ResultEntry) : bool :=
  match Lambda.entry_status r with Lambda.success => false | Lambda.failed => true end.

(* sum(r.get('article_count', 0) for r in all_results) *)
Fixpoint sum_article_counts (rs : list Lambda.ResultEntry) : Z :=
  match rs with
  | [] => 0
  | r :: rest => default 0 (Lambda.entry_article_count r) + sum_article_counts rest
  end.

Definition summarize (all_results : list Lambda.ResultEntry) : Summary :=
  mkSummary (Z.of_nat (length all_results))
            (Z.of_nat (length (List.filter is_success all_results)))
            (Z.of_nat (length (List.filter is_failed all_results)))
            (sum_article_counts all_results)
            (list_to_set (Lambda.entry_category <$> all_results))
            (list_to_set (Lambda.entry_date <$> all_results)).

(* what lambda_handler returns, or the exception that leaves it *)
Inductive Answer : Type :=
| Status500                                         (* S3_BUCKET is not set *)
| Status200 (summary : Summary) (results : list Lambda.ResultEntry)
| Raised (e : exn).

(* lambda_handler(event, context); [bucket] is os.environ.get('S3_BUCKET') *)
Definition handle (urljoin : string -> string -> result string) (env : Env)
           (USER_AGENT : string) (bucket : option string) (today : Z) (event : Payload)
  : Answer * list Event :=
  if PyStr.truthy (default EmptyString bucket) then
    match dates_of event today with
    | Raise e => (Raised e, [])
    | Ok dates =>
        let scraper := Lambda.new_scraper (config_of USER_AGENT event) in
        let '((all_results, raised), s) :=
          Lambda.lambda_handler urljoin env (url_templates_of event) dates [] scraper in
        match raised with
        | Some e => (Raised e, Lambda.trace s)
        | None => (Status200 (summarize all_results) all_results, Lambda.trace s)
        end
    end
  else (Status500, []).

End Handler.

(* --------------------------------------------------------------------- *)
(* webscraper.py: the files written                                      *)
(* --------------------------------------------------------------------- *)

Module Outputs.

(* urlparse(url).path *)
Definition path (url : string) : string := Url.path url.

Fixpoint lstrip_char (c : ascii) (s : string) : string :=
  match s with
  | EmptyString => EmptyString
  | String x r => if Ascii.eqb x c then lstrip_char c r else s
  end.

Fixpoint rstrip_char (c : ascii) (s : string) : string :=
  match s with
  | EmptyString => EmptyString
  | String x r =>
      match rstrip_char c r with
      | EmptyString => if Ascii.eqb x c then EmptyString else String x EmptyString
      | r' => String x r'
      end
  end.

(* s.strip(c) for one character *)
Definition strip_char (c : ascii) (s : string) : string := rstrip_char c (lstrip_char c s).

(* the file name save_scraped_data makes from the URL and the time *)
Definition page_filename (url : string) (scraped_at : Z) : string :=
  let filename := strip_char "_" (Dates.replace "/" "_" (path url)) in
  let filename := if PyStr.truthy filename then filename else Url.netloc url in
  filename +:+ "_" +:+ PyStr.of_int scraped_at.

(* the file name of _save_robots_txt *)
Definition robots_filename (domain : string) : string :=
  "robots_"
  +:+ Dates.replace "/" "_"
        (Dates.replace "http://" EmptyString (Dates.replace "https://" EmptyString domain))
  +:+ ".txt".

(* a file written below the output directory *)
Inductive FileWrite : Type :=
| WriteText (file content : string)
| WriteJson (file : string) (article_count : Z) (articles : list Extract.Article)
| WriteCsv (file : string) (articles : list Extract.Article)
| WriteHtml (file html : string)
| WriteHeaders (file : string) (headers : list (string * string)).

Definition file_of (w : FileWrite) : string :=
  match w with
  | WriteText f _ | WriteJson f _ _ | WriteCsv f _ | WriteHtml f _ | WriteHeaders f _ => f
  end.

Definition newline : string := String (PyStr.chr 10) EmptyString.

(* the text written for the vector database *)
Definition page_text (data : Webscraper.PageResult) : string :=
  "URL: " +:+ Webscraper.url data +:+ newline
  +:+ "Title: " +:+ Webscraper.title data +:+ newline
  +:+ "Meta Description: " +:+ Webscraper.meta_description data +:+ newline +:+ newline
  +:+ "Content:" +:+ newline +:+ Webscraper.content data +:+ newline +:+ newline
  +:+ "Headings:" +:+ newline
  +:+ PyStr.join newline
        (map (fun h : string * string => fst h +:+ ": " +:+ snd h) (Webscraper.headings data))
  +:+ newline.

(* save_articles_csv: nothing is written for an empty list *)
Definition save_articles_csv (articles : list Extract.Article) (filename_prefix : string)
  : list FileWrite :=
  match articles with
  | [] => []
  | _ :: _ => [WriteCsv ("articles_csv/" +:+ filename_prefix +:+ "_articles.csv") articles]
  end.

(* save_scraped_data(data, debug_mode=...) *)
Definition save_scraped_data (data : Webscraper.PageResult) (debug_mode : bool)
  : list FileWrite :=
  let filename := page_filename (Webscraper.url data) (Webscraper.scraped_at data) in
  [WriteText (filename +:+ ".txt") (page_text data)]
  ++ match Webscraper.articles data with
     | [] => []
     | _ :: _ =>
         WriteJson ("articles_json/" +:+ filename +:+ "_articles.json")
                   (Webscraper.article_count data) (Webscraper.articles data)
         :: save_articles_csv (Webscraper.articles data) filename
     end
  ++ match Webscraper.raw_html data with
     | Some html =>
         if debug_mode
         then [WriteHtml ("debug_html/" +:+ filename +:+ ".html") html;
               WriteHeaders ("debug_html/" +:+ filename +:+ "_headers.txt")
                            (default [] (Webscraper.response_headers data))]
         else []
     | None => []
     end.

(* all_articles of save_all_articles_combined *)
Fixpoint all_articles (all_results : list Webscraper.PageResult) : list Extract.Article :=
  match all_results with
  | [] => []
  | r :: rest =>
      match Webscraper.articles r with
      | [] => all_articles rest
      | _ :: _ => Webscraper.articles r ++ all_articles rest
      end
  end.

(* save_all_articles_combined: the JSON with its total_articles and the
   CSV, or nothing when there is no article *)
Definition save_all_articles_combined (all_results : list Webscraper.PageResult)
  : list FileWrite :=
  match all_articles all_results with
  | [] => []
  | arts =>
      [WriteJson "combined_all_articles.json" (Z.of_nat (length arts)) arts;
       WriteCsv "combined_all_articles.csv" arts]
  end.

End Outputs.

(* --------------------------------------------------------------------- *)
(* Predicates used to state properties                                   *)
(* --------------------------------------------------------------------- *)

Module Checks.

(* every character is one of 0..9 *)
Fixpoint all_digits (s : string) : bool :=
  match s with
  | EmptyString => true
  | String c r => Extract.isdigit c && all_digits r
  end.

(* the character occurs in the string *)
Fixpoint has_char (c : ascii) (s : string) : bool :=
  match s with
  | EmptyString => false
  | String x r => Ascii.eqb x c || has_char c r
  end.

(* the keys put into S3, in order *)
Definition put_keys (tr : list World.Event) : list string :=
  omap (fun e => match e with World.PutObject k => Some k | _ => None end) tr.

(* an article without the keys lamda_webscraper.py does not produce *)
Definition without_date_fields (a : Extract.Article) : Extract.Article :=
  Extract.mkArticle (Extract.record_id a) (Extract.title a) (Extract.link a)
                    (Extract.description a) (Extract.body a) (Extract.image_url a)
                    None None None (Extract.source_page a) (Extract.extraction_index a).

(* the S3 keys an entry of the handler's results names *)
Definition entry_keys (r : Lambda.ResultEntry) : list string :=
  match Lambda.entry_full_data_key r with Some k => [k] | None => [] end
  ++ match Lambda.entry_articles_key r with Some k => [k] | None => [] end.

(* the sum of the article_count fields of a list of pages *)
Fixpoint sum_counts (rs : list Webscraper.PageResult) : Z :=
  match rs with
  | [] => 0
  | r :: rest => Webscraper.article_count r + sum_counts rest
  end.

(* every domain counter is at most the quota *)
Definition within_quota (s : Webscraper.State) : Prop :=
  forall (d : string) (n : Z),
    Webscraper.domain_counters s !! d = Some n ->
    n <= Webscraper.max_pages_per_domain (Webscraper.config s).

(* every page request comes right after a delay of [floor] seconds or
   more; [prev] is the delay just slept, when the last event was one *)
Fixpoint paced (floor : Q) (prev : option Q) (tr : list World.Event) : Prop :=
  match tr with
  | [] => True
  | World.SessionGet _ :: rest =>
      match prev with
      | Some q => (floor <= q)%Q
      | None => False
      end /\ paced floor None rest
  | World.SleepDelay q :: rest => paced floor (Some q) rest
  | _ :: rest => paced floor None rest
  end.

End Checks.

(* ===================================================================== *)
(* Sample inputs                                                         *)
(* ===================================================================== *)

Module Samples.

Import Soup.

Definition page : string := "https://tldr.tech/tech/2025-01-10".

Definition heading (text : string) : Node := Tag "h2" [] [NavigableString text].

Definition anchor (href : string) : Node :=
  Tag "a" [("href"%string, href)] [NavigableString "read"].

Definition card (children : list Node) : Node :=
  Tag "div" [("class", "post")]%string children.

Definition document (children : list Node) : Node := Tag "[document]" [] children.

(* a heading of exactly 10 characters, and one of 11 *)
Definition short_card : Node := card [heading " 0123456789 "].
Definition long_card : Node := card [heading " 0123456789A "].

(* a card whose link makes urljoin raise ValueError *)
Definition broken_card : Node :=
  card [heading "A title that is long enough"; anchor "//[oops/x"].

Definition gap_doc : Node := document [short_card; broken_card; long_card].

(* only root-relative links *)
Definition rooted_card : Node :=
  card [heading "A title that is long enough"; anchor "/a"; anchor "/b"].

(* an empty href before an outbound link *)
Definition empty_href_card : Node :=
  card [heading "A title that is long enough"; anchor EmptyString;
        anchor "https://example.com/post"].

(* a root-relative href that urljoin refuses, before an outbound link *)
Definition refused_href_card : Node :=
  card [heading "A title that is long enough"; anchor "//[oops/x";
        anchor "https://example.com/post"].

Definition mixed_card : Node :=
  card [heading "A title that is long enough"; anchor "#top"; anchor "/a";
        anchor "https://example.com/post"; anchor "/b"].

Fixpoint repeat_char (c : ascii) (n : nat) : string :=
  match n with
  | O => EmptyString
  | S n' => String c (repeat_char c n')
  end.

(* two cards whose markup is the same for 200 characters and more, and
   differs afterwards *)
Definition wide_card (ending : string) : Node :=
  card [heading "A title that is long enough";
        Tag "p" [] [NavigableString (repeat_char "a" 250 +:+ ending)]].

Definition wide_doc : Node := document [wide_card "X"; wide_card "Y"].

(* the same card under two different parents *)
Definition two_parents_doc : Node :=
  document [Tag "section" [] [long_card]; Tag "aside" [] [long_card]].

(* a robots.txt without records *)
Definition empty_robots : Robots.RobotsTxt := Robots.mkRobotsTxt EmptyString [] None.

(* a robots.txt that disallows everything to everyone *)
Definition closed_robots : Robots.RobotsTxt :=
  Robots.mkRobotsTxt "User-agent: *"
    [] (Some (Robots.mkEntry (fun _ => true) (fun _ => false) None)).

Definition html_response (soup : Node) : World.Response :=
  World.mkResponse 200 soup EmptyString [("Content-Type", "text/html")]%string.

(* robots.txt answers 503 and every page request times out *)
Definition env_down : World.Env :=
  World.mkEnv (fun _ _ => World.RobotsResponse 503 empty_robots)
              (fun _ _ => World.UrlopenError)
              (fun _ _ => World.PageError)
              (fun _ => 1 # 2)%Q (fun _ => 1736500000%positive).

(* robots.txt allows everything and every page is [soup] *)
Definition env_up (soup : Node) : World.Env :=
  World.mkEnv (fun _ _ => World.RobotsResponse 200 empty_robots)
              (fun _ _ => World.UrlopenBody empty_robots)
              (fun _ _ => World.PageResponse (html_response soup))
              (fun _ => 1 # 2)%Q (fun _ => 1736500000%positive).

(* robots.txt disallows everything *)
Definition env_closed (soup : Node) : World.Env :=
  World.mkEnv (fun _ _ => World.RobotsResponse 200 closed_robots)
              (fun _ _ => World.UrlopenBody closed_robots)
              (fun _ _ => World.PageResponse (html_response soup))
              (fun _ => 1 # 2)%Q (fun _ => 1736500000%positive).

(* the first two requests of a page fail, the third is answered *)
Definition env_flaky (soup : Node) : World.Env :=
  World.mkEnv (fun _ _ => World.RobotsResponse 200 empty_robots)
              (fun _ _ => World.UrlopenBody empty_robots)
              (fun tr _ => if (length (World.fetched tr) <? 2)%nat
                           then World.PageError
                           else World.PageResponse (html_response soup))
              (fun _ => 1 # 2)%Q (fun _ => 1736500000%positive).

Definition config_with (respect_robots : bool) (retries failures : Z)
  : Webscraper.ScrapingConfig :=
  Webscraper.mkConfig "TLDR-Scraper/1.0" (1, 3)%Q retries 10 respect_robots 100
                      false true false true failures.

(* a scraper that has already taken its 100 pages of tldr.tech *)
Definition at_quota : Webscraper.State :=
  Webscraper.mkState Webscraper.default_config ∅ ∅ ∅ {[ "tldr.tech"%string := 100 ]} 0 [].

Definition lambda_config (respect_robots : bool) (retries : Z) : Lambda.ScrapingConfig :=
  Lambda.mkConfig "TLDR-Scraper/1.0" (1, 3)%Q retries 10 respect_robots 5.

(* the same title around different content *)
Definition other_card : Node :=
  card [heading "A title that is long enough"; anchor "https://example.com/other";
        Tag "p" [] [NavigableString "A paragraph that the first card does not have."]].

(* robots.txt is answered with rules that close the site, and the second
   download of it, by the parser, with a 404 *)
Definition env_two_answers (soup : Node) : World.Env :=
  World.mkEnv (fun _ _ => World.RobotsResponse 200 closed_robots)
              (fun _ _ => World.UrlopenHTTPError 404)
              (fun _ _ => World.PageResponse (html_response soup))
              (fun _ => 1 # 2)%Q (fun _ => 1736500000%positive).

(* debug mode on: the raw HTML and the headers are kept with the page *)
Definition debug_config : Webscraper.ScrapingConfig :=
  Webscraper.mkConfig "TLDR-Scraper/1.0" (1, 3)%Q 3 10 true 100 true true false true 5.

(* a quota of no page at all, robots.txt not consulted *)
Definition no_quota_config : Webscraper.ScrapingConfig :=
  Webscraper.mkConfig "TLDR-Scraper/1.0" (1, 3)%Q 3 10 false 0 false true false true 5.

(* a heading of 10 characters followed, inside the heading, by a script
   and a comment *)
Definition scripted_heading_card : Node :=
  card [Tag "h2" [] [NavigableString "0123456789";
                     Tag "script" [] [SubclassString Script "var title;"];
                     SubclassString Comment "a comment"]].

(* the same attributes written in two orders *)
Definition id_class_card : Node :=
  Tag "div" [("id", "x"); ("class", "post")]%string [heading "A title that is long enough"].
Definition class_id_card : Node :=
  Tag "div" [("class", "post"); ("id", "x")]%string [heading "A title that is long enough"].

Definition attr_order_doc : Node := document [id_class_card; class_id_card].

(* an article before a main, and a script inside the main *)
Definition selectors_doc : Node :=
  document [Tag "body" []
              [Tag "article" [] [Tag "p" [] [NavigableString "in article"]];
               Tag "main" [("class", "content")]%string
                   [Tag "p" [] [NavigableString "in main"];
                    Tag "script" [] [SubclassString Script "var x = 1;"]]]].

(* an element with the id content before one with the class content *)
Definition class_before_id_doc : Node :=
  document [Tag "body" []
              [Tag "div" [("id", "content")]%string [NavigableString "by id"];
               Tag "div" [("class", "wide content")]%string [NavigableString "by class"]]].

(* a body with a script between two paragraphs *)
Definition script_doc : Node :=
  document [Tag "body" []
              [Tag "p" [] [NavigableString "Read this"];
               Tag "script" [] [SubclassString Script "var x = 1;"];
               Tag "p" [] [NavigableString "now"]]].

End Samples.

(* ===================================================================== *)
(* Properties                                                            *)
(* ===================================================================== *)

(* --------------------------------------------------------------------- *)
(* The library models agree with Python on known values                  *)
(* --------------------------------------------------------------------- *)

Example strip_ex : PyStr.strip "  a b
 " = "a b"%string.
Proof. reflexivity. Qed.

Example of_int_ex : PyStr.of_int 1203 = "1203"%string /\ PyStr.of_int 0 = "0"%string
                    /\ PyStr.of_int (-45) = "-45"%string.
Proof. repeat split. Qed.

Example split_ex : PyStr.split "|" "Jan 3 | Tech" = ["Jan 3 "; " Tech"]%string.
Proof. reflexivity. Qed.

Example words_ex : PyStr.words " flex  flex-col " = ["flex"; "flex-col"]%string.
Proof. reflexivity. Qed.

Example md5_empty : MD5.hexdigest (MD5.encode EmptyString) = "d41d8cd98f00b204e9800998ecf8427e"%string.
Proof. vm_compute. reflexivity. Qed.

Example md5_abc : MD5.hexdigest (MD5.encode "abc") = "900150983cd24fb0d6963f7d28e17f72"%string.
Proof. vm_compute. reflexivity. Qed.

Example md5_two_blocks :
  MD5.hexdigest (repeat 97 70) = "0f5c6c4e740bfcc08c3c26ccb2673d46"%string.
Proof. vm_compute. reflexivity. Qed.

Example md5_latin1 :
  MD5.hexdigest (MD5.encode (String (PyStr.chr 233) EmptyString))
  = "66ddcd97cfdeabb2f6fb8a999b4bc76f"%string.
Proof. vm_compute. reflexivity. Qed.

Example urljoin_rooted :
  Url.urljoin "https://tldr.tech/tech/2025-01-10" "/sponsor" = Ok "https://tldr.tech/sponsor"%string.
Proof. reflexivity. Qed.

Example netloc_ex :
  Url.scheme "https://tldr.tech/tech/2025-01-10" = "https"%string
  /\ Url.netloc "https://tldr.tech/tech/2025-01-10" = "tldr.tech"%string.
Proof. split; reflexivity. Qed.

Example ord2ymd_ex :
  Dates._ord2ymd 739254 = (2025, 1, 3) /\ Dates._ord2ymd 738945 = (2024, 2, 29)
  /\ Dates._ord2ymd 739251 = (2024, 12, 31) /\ Dates.weekday 739254 = 4.
Proof. repeat split. Qed.

(** The placeholders {YYYY}, {MM}, {DD} and {YYYY-MM-DD} of a URL template
    are replaced by the padded year, month and day of the date. *)
Example format_url_ex :
  Dates.format_url_with_date "https://x.test/{YYYY}/{MM}/{DD}" 739317
  = "https://x.test/2025/03/07"%string
  /\ Dates.format_url_with_date "https://tldr.tech/tech/{YYYY-MM-DD}" 739254
     = "https://tldr.tech/tech/2025-01-03"%string.
Proof. split; reflexivity. Qed.

(** From Friday 2025-01-03 to Monday 2025-01-06 with skip_weekends set the
    range holds the Friday and the Monday only. *)
Example skip_weekends_ex :
  Dates.generate_date_range 739254 739257 true = [739254; 739257].
Proof. reflexivity. Qed.

(* --------------------------------------------------------------------- *)
(* Titles                                                                *)
(* --------------------------------------------------------------------- *)

Section Titles.

Import Soup Extract.



Lemma long_text_test (n : Z) (t : string) :
  0 <= n -> PyStr.truthy t && (len t >? n) = true <-> n < len t.
Proof.
  intros Hn. rewrite andb_true_iff. unfold len. split.
  - intros [_ H]. lia.
  - intros H. split; [| lia]. destruct t; [simpl in H; lia | reflexivity].
Qed.

Lemma first_long_text_none (n : Z) (tags : list Node) :
  0 <= n ->
  first_long_text n tags = None <-> Forall (fun h => len (stripped_text h) <= n) tags.
Proof.
  intros Hn. induction tags as [| tag rest IH]; simpl.
  - split; [constructor | reflexivity].
  - fold (stripped_text tag).
    destruct (PyStr.truthy (stripped_text tag) && (len (stripped_text tag) >? n)) eqn:E.
    + apply long_text_test in E; [| exact Hn]. split; [discriminate |].
      intros H. inversion H; subst. lia.
    + rewrite IH. split.
      * intros H. constructor; [| exact H].
        destruct (Z_lt_le_dec n (len (stripped_text tag))) as [Hlt | Hle]; [| exact Hle].
        apply (long_text_test n _ Hn) in Hlt. congruence.
      * intros H. inversion H; assumption.
Qed.

Lemma first_long_text_some (n : Z) (tags : list Node) (t : string) :
  0 <= n ->
  first_long_text n tags = Some t <->
  exists pre h post,
    tags = pre ++ h :: post /\ stripped_text h = t /\ n < len t
    /\ Forall (fun h' => len (stripped_text h') <= n) pre.
Proof.
  intros Hn. revert t. induction tags as [| tag rest IH]; intros t; simpl.
  - split; [discriminate |]. intros (pre & h & post & H & _). destruct pre; discriminate.
  - fold (stripped_text tag).
    destruct (PyStr.truthy (stripped_text tag) && (len (stripped_text tag) >? n)) eqn:E.
    + apply long_text_test in E; [| exact Hn]. split.
      * intros [= <-]. exists [], tag, rest. repeat split; [exact E | constructor].
      * intros (pre & h & post & H & Ht & Hlen & Hpre).
        destruct pre as [| p pre]; simpl in H; injection H as -> ->.
        -- congruence.
        -- inversion Hpre; subst. lia.
    + rewrite IH. split.
      * intros (pre & h & post & -> & Ht & Hlen & Hpre).
        exists (tag :: pre), h, post. repeat split; try assumption.
        constructor; [| exact Hpre].
        destruct (Z_lt_le_dec n (len (stripped_text tag))) as [Hlt | Hle]; [| exact Hle].
        apply (long_text_test n _ Hn) in Hlt. congruence.
      * intros (pre & h & post & H & Ht & Hlen & Hpre).
        destruct pre as [| p pre]; simpl in H; injection H as -> ->.
        -- subst t. apply (long_text_test n _ Hn) in Hlen. congruence.
        -- inversion Hpre; subst. exists pre, h, post. repeat split; assumption.
Qed.

End Titles.

(* --------------------------------------------------------------------- *)
(* What a parsed container holds                                         *)
(* --------------------------------------------------------------------- *)

Section Containers.

Import Soup Extract.

Variable urljoin : string -> string -> result string.

Lemma parse_container_fields (c : Node) (page : string) (idx : Z) (a : Article) :
  _parse_article_container urljoin c page idx = Ok (Some a) ->
  extract_title c = Some (title a)
  /\ extract_link urljoin page c = Ok (link a)
  /\ record_id a = _generate_article_id page (title a) idx
  /\ source_page a = page
  /\ extraction_index a = idx.
Proof.
  unfold _parse_article_container.
  destruct (extract_title c) as [t |]; [| discriminate].
  destruct (extract_link urljoin page c) as [l | e]; simpl; [| discriminate].
  destruct (extract_image urljoin page c) as [i | e]; simpl; [| discriminate].
  destruct (extract_date c) as [d g].
  intros [= <-]. simpl. repeat split; reflexivity.
Qed.

Lemma lambda_parse_container_fields (c : Node) (page : string) (idx : Z) (a : Article) :
  lambda_parse_article_container urljoin c page idx = Ok (Some a) ->
  extract_title c = Some (title a)
  /\ extract_link urljoin page c = Ok (link a)
  /\ record_id a = _generate_article_id page (title a) idx
  /\ source_page a = page
  /\ extraction_index a = idx.
Proof.
  unfold lambda_parse_article_container.
  destruct (extract_title c) as [t |]; [| discriminate].
  destruct (extract_link urljoin page c) as [l | e]; simpl; [| discriminate].
  destruct (extract_image urljoin page c) as [i | e]; simpl; [| discriminate].
  intros [= <-]. simpl. repeat split; reflexivity.
Qed.

(* a container with a title parses to a record with that title, unless
   the resolution of its link or of its image raises *)
Lemma parse_container_titled (c : Node) (page : string) (idx : Z) (t : string) :
  extract_title c = Some t ->
  match _parse_article_container urljoin c page idx with
  | Ok (Some a) => title a = t
  | Ok None => False
  | Raise e =>
      extract_link urljoin page c = Raise e \/ extract_image urljoin page c = Raise e
  end
  /\ match lambda_parse_article_container urljoin c page idx with
     | Ok (Some a) => title a = t
     | Ok None => False
     | Raise e =>
         extract_link urljoin page c = Raise e \/ extract_image urljoin page c = Raise e
     end.
Proof.
  intros Ht. unfold _parse_article_container, lambda_parse_article_container. rewrite Ht.
  destruct (extract_link urljoin page c) as [l | e]; simpl;
    [| split; left; reflexivity].
  destruct (extract_image urljoin page c) as [i | e]; simpl;
    [| split; right; reflexivity].
  destruct (extract_date c) as [d g]. split; reflexivity.
Qed.

(* the loop keeps the record of every container that parses to a record
   with a title *)
Lemma parse_loop_member (parse : Node -> string -> Z -> result (option Article))
      (page : string) (cs : list Node) :
  forall (i : Z) (j : nat) (c : Node) (a : Article),
    cs !! j = Some c ->
    parse c page (i + Z.of_nat j) = Ok (Some a) ->
    PyStr.truthy (title a) = true ->
    In a (parse_loop parse page i cs).
Proof.
  induction cs as [| c0 rest IH]; intros i j c a Hj Hp Ht; [discriminate |].
  destruct j as [| j]; simpl in Hj.
  - injection Hj as ->. simpl. replace (i + Z.of_nat 0) with i in Hp by lia.
    rewrite Hp, Ht. left. reflexivity.
  - assert (Hin : In a (parse_loop parse page (i + 1) rest)).
    { apply (IH (i + 1) j c a Hj); [| exact Ht]. rewrite <- Hp. f_equal. lia. }
    simpl. destruct (parse c0 page i) as [[a0 |] | e]; try exact Hin.
    destruct (PyStr.truthy (title a0)); [right |]; exact Hin.
Qed.

Lemma parse_container_untitled (c : Node) (page : string) (idx : Z) :
  extract_title c = None -> _parse_article_container urljoin c page idx = Ok None.
Proof. unfold _parse_article_container. intros ->. reflexivity. Qed.

(* Every record of the loop comes from the container at the position its
   place in the output cannot exceed. *)
Lemma parse_loop_lookup (parse : Node -> string -> Z -> result (option Article))
      (page : string) (cs : list Node) :
  forall (i : Z) (k : nat) (a : Article),
    parse_loop parse page i cs !! k = Some a ->
    exists (j : nat) (c : Node),
      (k <= j)%nat /\ cs !! j = Some c /\ parse c page (i + Z.of_nat j) = Ok (Some a).
Proof.
  induction cs as [| c rest IH]; intros i k a; simpl; [discriminate |].
  assert (Hskip : parse_loop parse page (i + 1) rest !! k = Some a ->
                  exists (j : nat) (c' : Node),
                    (k <= j)%nat /\ (c :: rest) !! j = Some c'
                    /\ parse c' page (i + Z.of_nat j) = Ok (Some a)).
  { intros H. destruct (IH _ _ _ H) as (j & c' & Hk & Hj & Hp).
    exists (S j), c'. repeat split; [lia | exact Hj |].
    rewrite <- Hp. f_equal. lia. }
  destruct (parse c page i) as [[art |] | e] eqn:E; try exact Hskip.
  destruct (PyStr.truthy (title art)); [| exact Hskip].
  destruct k as [| k]; simpl.
  - intros [= <-]. exists O, c. repeat split; [lia |].
    rewrite <- E. f_equal. lia.
  - intros H. destruct (IH _ _ _ H) as (j & c' & Hk & Hj & Hp).
    exists (S j), c'. repeat split; [lia | exact Hj |].
    rewrite <- Hp. f_equal. lia.
Qed.

Lemma parse_loop_sorted (parse : Node -> string -> Z -> result (option Article))
      (page : string) (cs : list Node) :
  (forall c p i a, parse c p i = Ok (Some a) -> extraction_index a = i) ->
  forall i : Z,
    Forall (fun a => i <= extraction_index a) (parse_loop parse page i cs)
    /\ StronglySorted Z.lt (extraction_index <$> parse_loop parse page i cs).
Proof.
  intros Hidx. induction cs as [| c rest IH]; intros i; simpl.
  - split; constructor.
  - destruct (IH (i + 1)) as [Hge Hs].
    assert (Hge' : Forall (fun a => i <= extraction_index a)
                          (parse_loop parse page (i + 1) rest)).
    { eapply Forall_impl; [exact Hge |]. simpl. intros; lia. }
    destruct (parse c page i) as [[art |] | e] eqn:E; try (split; assumption).
    destruct (PyStr.truthy (title art)); [| split; assumption].
    apply Hidx in E. split.
    + constructor; [lia | exact Hge'].
    + rewrite fmap_cons. constructor; [exact Hs |].
      rewrite Forall_fmap. eapply Forall_impl; [exact Hge |].
      simpl. intros; lia.
Qed.

End Containers.

Section TitleClaim.

Import Soup Extract.

Example short_heading_rejected : extract_title Samples.short_card = None.
Proof. reflexivity. Qed.

Example long_heading_accepted :
  extract_title Samples.long_card = Some "0123456789A"%string.
Proof. reflexivity. Qed.

Example heading_text_leaves_out_scripts_and_comments :
  stripped_text (Tag "h2" [] [NavigableString "0123456789";
                              Tag "script" [] [SubclassString Script "var title;"];
                              SubclassString Comment "a comment"])
  = "0123456789"%string.
Proof. reflexivity. Qed.

(** C5: the title of a container is the stripped text of its first heading
    (h1..h6, document order) that is longer than 10 characters; a heading
    of exactly 10 characters is passed over and one of 11 is taken; a
    container without such a heading parses to nothing and no record of
    the extraction comes from it; a container with such a heading parses
    to a record that has this text as title (unless the resolution of its
    link or image raises), and that record is in the result of the
    extraction.  The text of a heading is what get_text gives: scripts,
    styles and comments inside the heading do not count. *)
Theorem title_is_first_heading_longer_than_10 :
  forall (urljoin : string -> string -> result string)
         (container : Node) (page : string) (idx : Z),
    (forall t : string,
        extract_title container = Some t <->
        exists pre h post,
          find_all heading_names container = pre ++ h :: post
          /\ stripped_text h = t /\ 10 < len t
          /\ Forall (fun h' => len (stripped_text h') <= 10) pre)
    /\ (extract_title container = None <->
        Forall (fun h => len (stripped_text h) <= 10) (find_all heading_names container))
    /\ (forall (h : Node) (rest : list Node),
           (len (stripped_text h) = 10 ->
            first_long_text 10 (h :: rest) = first_long_text 10 rest)
           /\ (len (stripped_text h) = 11 ->
               first_long_text 10 (h :: rest) = Some (stripped_text h)))
    /\ (forall a : Article,
           _parse_article_container urljoin container page idx = Ok (Some a) ->
           extract_title container = Some (title a))
    /\ (extract_title container = None ->
        _parse_article_container urljoin container page idx = Ok None
        /\ lambda_parse_article_container urljoin container page idx = Ok None)
    /\ (forall (soup : Node) (k : nat) (a : Article),
           _extract_articles urljoin soup page !! k = Some a ->
           exists c : Node,
             unique_containers soup !! Z.to_nat (extraction_index a) = Some c
             /\ extract_title c = Some (title a))
    /\ (forall t : string,
           extract_title container = Some t ->
           match _parse_article_container urljoin container page idx with
           | Ok (Some a) => title a = t
           | Ok None => False
           | Raise e =>
               extract_link urljoin page container = Raise e
               \/ extract_image urljoin page container = Raise e
           end
           /\ match lambda_parse_article_container urljoin container page idx with
              | Ok (Some a) => title a = t
              | Ok None => False
              | Raise e =>
                  extract_link urljoin page container = Raise e
                  \/ extract_image urljoin page container = Raise e
              end)
    /\ (forall (soup : Node) (j : nat) (c : Node) (t : string),
           unique_containers soup !! j = Some c ->
           extract_title c = Some t ->
           ((forall e : exn,
                _parse_article_container urljoin c page (Z.of_nat j) <> Raise e) ->
            exists a : Article,
              In a (_extract_articles urljoin soup page)
              /\ title a = t /\ extraction_index a = Z.of_nat j)
           /\ ((forall e : exn,
                   lambda_parse_article_container urljoin c page (Z.of_nat j) <> Raise e) ->
               exists a : Article,
                 In a (lambda_extract_articles urljoin soup page)
                 /\ title a = t /\ extraction_index a = Z.of_nat j))
    /\ (extract_title Samples.scripted_heading_card = None
        /\ _extract_articles urljoin
             (Samples.document [Samples.scripted_heading_card; Samples.long_card]) page
           = match _parse_article_container urljoin Samples.long_card page 1 with
             | Ok (Some a) => [a]
             | _ => []
             end
        /\ match _parse_article_container urljoin Samples.long_card page 1 with
           | Ok (Some a) => title a = "0123456789A"%string
           | _ => False
           end).
Proof.
  intros urljoin container page idx.
  split; [| split; [| split; [| split; [| split; [| split; [| split; [| split]]]]]]].
  - intros t. apply first_long_text_some. lia.
  - apply first_long_text_none. lia.
  - intros h rest. split; intros Hlen; simpl.
    + destruct (PyStr.truthy (stripped_text h) && (len (stripped_text h) >? 10)) eqn:E;
        [| reflexivity].
      apply long_text_test in E; lia.
    + destruct (PyStr.truthy (stripped_text h) && (len (stripped_text h) >? 10)) eqn:E;
        [reflexivity |].
      assert (H : 10 < len (stripped_text h)) by lia.
      apply (long_text_test 10) in H; [congruence | lia].
  - intros a H. apply parse_container_fields in H. tauto.
  - intros H. split.
    + apply parse_container_untitled. exact H.
    + unfold lambda_parse_article_container. rewrite H. reflexivity.
  - intros soup k a H. unfold _extract_articles in H.
    apply parse_loop_lookup in H. destruct H as (j & c & _ & Hj & Hp).
    apply parse_container_fields in Hp. destruct Hp as (Ht & _ & _ & _ & Hi).
    exists c. rewrite Hi. split; [| exact Ht].
    replace (Z.to_nat (0 + Z.of_nat j)) with j by lia. exact Hj.
  - intros t Ht. apply parse_container_titled. exact Ht.
  - intros soup j c t Hj Ht.
    assert (Hlong : PyStr.truthy t = true).
    { apply (first_long_text_some 10) in Ht; [| lia].
      destruct Ht as (pre & h & post & _ & _ & Hlen & _).
      destruct t; [simpl in Hlen; unfold len in Hlen; simpl in Hlen; lia | reflexivity]. }
    destruct (parse_container_titled urljoin c page (Z.of_nat j) t Ht) as [Hw Hl].
    split; intros Hok.
    + destruct (_parse_article_container urljoin c page (Z.of_nat j))
        as [[a |] | e] eqn:E; [| destruct Hw | exfalso; apply (Hok e); reflexivity].
      exists a. split; [| split; [exact Hw |]].
      * unfold _extract_articles.
        apply (parse_loop_member _ page _ 0 j c a Hj); [exact E | rewrite Hw; exact Hlong].
      * apply parse_container_fields in E. apply E.
    + destruct (lambda_parse_article_container urljoin c page (Z.of_nat j))
        as [[a |] | e] eqn:E; [| destruct Hl | exfalso; apply (Hok e); reflexivity].
      exists a. split; [| split; [exact Hl |]].
      * unfold lambda_extract_articles.
        apply (parse_loop_member _ page _ 0 j c a Hj); [exact E | rewrite Hl; exact Hlong].
      * apply lambda_parse_container_fields in E. apply E.
  - split; [reflexivity |].
    assert (Hu : unique_containers
                   (Samples.document [Samples.scripted_heading_card; Samples.long_card])
                 = [Samples.scripted_heading_card; Samples.long_card])
      by (vm_compute; reflexivity).
    assert (Hlong : extract_title Samples.long_card = Some "0123456789A"%string)
      by reflexivity.
    assert (Hnone : _parse_article_container urljoin Samples.scripted_heading_card page 0
                    = Ok None)
      by (apply parse_container_untitled; reflexivity).
    destruct (parse_container_titled urljoin Samples.long_card page 1 _ Hlong) as [Hw _].
    unfold _extract_articles. rewrite Hu.
    cbn [parse_loop]. rewrite Hnone. change (0 + 1) with 1.
    destruct (_parse_article_container urljoin Samples.long_card page 1)
      as [[a |] | e]; [| destruct Hw |].
    + rewrite Hw. split; reflexivity.
    + split; [reflexivity |].
      (* the sample links and images of long_card cannot raise: it has none *)
      exfalso. destruct Hw as [Hw | Hw]; vm_compute in Hw; discriminate Hw.
Qed.

End TitleClaim.

Section IndexClaim.

Import Soup Extract.

Example gap_doc_articles :
  map (fun a => (title a, extraction_index a))
      (_extract_articles Url.urljoin Samples.gap_doc Samples.page)
  = [("0123456789A"%string, 2)].
Proof. vm_compute. reflexivity. Qed.

(** C10: every record of _extract_articles carries as extraction_index the
    position of its container in the deduplicated container list; the
    indices increase strictly along the result and a record's index is at
    least its place in the result, and can be larger when an earlier
    container had no title or failed to parse. *)
Theorem extraction_index_is_container_position :
  (forall (urljoin : string -> string -> result string) (soup : Node) (page : string),
      (forall (k : nat) (a : Article),
          _extract_articles urljoin soup page !! k = Some a ->
          0 <= extraction_index a
          /\ Z.of_nat k <= extraction_index a
          /\ exists c : Node,
              unique_containers soup !! Z.to_nat (extraction_index a) = Some c
              /\ _parse_article_container urljoin c page (extraction_index a)
                 = Ok (Some a))
      /\ StronglySorted Z.lt
           (extraction_index <$> _extract_articles urljoin soup page))
  /\ (exists a : Article,
         unique_containers Samples.gap_doc
         = [Samples.short_card; Samples.broken_card; Samples.long_card]
         /\ _extract_articles Url.urljoin Samples.gap_doc Samples.page = [a]
         /\ _parse_article_container Url.urljoin Samples.short_card Samples.page 0
            = Ok None
         /\ _parse_article_container Url.urljoin Samples.broken_card Samples.page 1
            = Raise ValueError
         /\ extraction_index a = 2).
Proof.
  split.
  - intros urljoin soup page. split.
    + intros k a H. unfold _extract_articles in H.
      apply parse_loop_lookup in H. destruct H as (j & c & Hk & Hj & Hp).
      pose proof (parse_container_fields _ _ _ _ _ Hp) as (_ & _ & _ & _ & Hi).
      rewrite Hi. repeat split; [lia | lia |].
      exists c. split; [| exact Hp].
      replace (Z.to_nat (0 + Z.of_nat j)) with j by lia. exact Hj.
    + apply parse_loop_sorted. intros c p i a H.
      apply parse_container_fields in H. tauto.
  - eexists. repeat split; vm_compute; reflexivity.
Qed.

End IndexClaim.

(* --------------------------------------------------------------------- *)
(* Links                                                                 *)
(* --------------------------------------------------------------------- *)

Section Links.

Import Soup Extract.

Lemma link_loop_spec (urljoin : string -> string -> result string) (page : string)
      (hrefs : list string) :
  Forall (fun h => is_rooted h = true -> exists u, urljoin page h = Ok u) hrefs ->
  forall article_link : option string,
    link_loop urljoin page hrefs article_link
    = match List.find is_outbound hrefs with
      | Some h => Ok (Some h)
      | None =>
          match last (List.filter is_rooted hrefs) with
          | Some h => u ← urljoin page h; Ok (Some u)
          | None => Ok article_link
          end
      end.
Proof.
  induction 1 as [| h rest Hh Hrest IH]; intros article_link; [reflexivity |].
  simpl. fold (is_outbound h). fold (is_rooted h).
  destruct (is_outbound h) eqn:Eo; [reflexivity |].
  destruct (is_rooted h) eqn:Er.
  - destruct (Hh eq_refl) as [u Hu]. rewrite Hu. simpl. rewrite IH.
    destruct (List.find is_outbound rest); [reflexivity |].
    destruct (List.filter is_rooted rest) as [| r rs] eqn:Ef.
    + simpl. rewrite Hu. reflexivity.
    + change (last (h :: r :: rs)) with (last (r :: rs)).
      destruct (last (r :: rs)) eqn:El; [reflexivity |].
      apply last_None in El. discriminate.
  - rewrite IH. reflexivity.
Qed.

Lemma find_outbound_none (hrefs : list string) :
  Forall (fun x => is_outbound x = false) hrefs -> List.find is_outbound hrefs = None.
Proof.
  induction 1 as [| h rest Hh _ IH]; [reflexivity |]. simpl. rewrite Hh. exact IH.
Qed.

Lemma rooted_not_outbound (h : string) : is_rooted h = true -> is_outbound h = false.
Proof.
  unfold is_rooted, is_outbound.
  destruct (PyStr.truthy h), (PyStr.startswith h "#"), (PyStr.startswith h "/");
    simpl; congruence.
Qed.

(* the hrefs before the first qualifying one only change the link found so
   far, as long as their resolutions return *)
Lemma link_loop_skips (urljoin : string -> string -> result string) (page : string)
      (pre rest : list string) :
  Forall (fun x => is_outbound x = false) pre ->
  Forall (fun x => is_rooted x = true -> exists u, urljoin page x = Ok u) pre ->
  forall article_link : option string,
    exists article_link' : option string,
      link_loop urljoin page (pre ++ rest) article_link
      = link_loop urljoin page rest article_link'.
Proof.
  induction pre as [| h pre IH]; intros Hno Hres article_link.
  - exists article_link. reflexivity.
  - inversion Hno as [| ? ? Hh Hno']; subst. inversion Hres as [| ? ? Hr Hres']; subst.
    simpl. fold (is_outbound h). fold (is_rooted h). rewrite Hh.
    destruct (is_rooted h) eqn:Er.
    + destruct (Hr eq_refl) as [u Hu]. rewrite Hu. simpl. apply IH; assumption.
    + apply IH; assumption.
Qed.

(** C2 (counterexample): in a container whose hrefs are all root-relative
    the link is the last of them resolved against the page, not the first;
    and an empty href, which is neither a fragment nor root-relative, is
    passed over. *)
Lemma link_is_not_first_rooted :
  hrefs_of Samples.rooted_card = ["/a"; "/b"]%string
  /\ Url.urljoin Samples.page "/a" = Ok "https://tldr.tech/a"%string
  /\ extract_link Url.urljoin Samples.page Samples.rooted_card
     = Ok (Some "https://tldr.tech/b"%string)
  /\ extract_link Url.urljoin Samples.page Samples.rooted_card
     <> Ok (Some "https://tldr.tech/a"%string)
  /\ hrefs_of Samples.empty_href_card = [EmptyString; "https://example.com/post"%string]
  /\ extract_link Url.urljoin Samples.page Samples.empty_href_card
     <> Ok (Some EmptyString).
Proof.
  repeat split; try (vm_compute; reflexivity); vm_compute; discriminate.
Qed.

(** C2 (amended): link extraction scans the hrefs of the anchors in
    document order and returns, verbatim, the first non-empty href that
    starts neither with '#' nor with '/'; when no href qualifies it
    returns the last root-relative href resolved against the page URL,
    and no link when there is none.  The root-relative hrefs met before
    the first qualifying href are resolved on the way: when one of these
    resolutions raises, link extraction raises the same error, the parse
    of a titled container raises it too and the container gives no
    record. *)
Theorem link_is_first_outbound_else_last_rooted :
  forall (urljoin : string -> string -> result string) (page : string)
         (container : Node),
    (forall (pre : list string) (h : string) (post : list string),
        hrefs_of container = pre ++ h :: post ->
        is_outbound h = true ->
        Forall (fun x => is_outbound x = false) pre ->
        Forall (fun x => is_rooted x = true -> exists u, urljoin page x = Ok u) pre ->
        extract_link urljoin page container = Ok (Some h))
    /\ (Forall (fun x => is_outbound x = false) (hrefs_of container) ->
        Forall (fun x => is_rooted x = true -> exists u, urljoin page x = Ok u)
               (hrefs_of container) ->
        extract_link urljoin page container
        = match last (List.filter is_rooted (hrefs_of container)) with
          | Some h => u ← urljoin page h; Ok (Some u)
          | None => Ok None
          end)
    /\ (forall (pre : list string) (h : string) (post : list string) (e : exn),
           hrefs_of container = pre ++ h :: post ->
           Forall (fun x => is_outbound x = false) pre ->
           Forall (fun x => is_rooted x = true -> exists u, urljoin page x = Ok u) pre ->
           is_rooted h = true ->
           urljoin page h = Raise e ->
           extract_link urljoin page container = Raise e
           /\ (forall (idx : Z) (t : string),
                  extract_title container = Some t ->
                  _parse_article_container urljoin container page idx = Raise e
                  /\ lambda_parse_article_container urljoin container page idx = Raise e)
           /\ (forall (soup : Node) (j : nat) (a : Article),
                  unique_containers soup !! j = Some container ->
                  In a (_extract_articles urljoin soup page) ->
                  extraction_index a <> Z.of_nat j)).
Proof.
  intros urljoin page container. split; [| split].
  - intros pre h post Hh Ho Hpre Hres. unfold extract_link. rewrite Hh.
    destruct (link_loop_skips urljoin page pre (h :: post) Hpre Hres None) as [acc ->].
    simpl. fold (is_outbound h). rewrite Ho. reflexivity.
  - intros Hno Hres. unfold extract_link. rewrite (link_loop_spec _ _ _ Hres).
    rewrite (find_outbound_none _ Hno). reflexivity.
  - intros pre h post e Hh Hpre Hres Hr He.
    assert (Hl : extract_link urljoin page container = Raise e).
    { unfold extract_link. rewrite Hh.
      destruct (link_loop_skips urljoin page pre (h :: post) Hpre Hres None) as [acc ->].
      simpl. fold (is_outbound h). fold (is_rooted h).
      rewrite (rooted_not_outbound h Hr), Hr, He. reflexivity. }
    assert (Hp : forall (idx : Z) (t : string),
               extract_title container = Some t ->
               _parse_article_container urljoin container page idx = Raise e
               /\ lambda_parse_article_container urljoin container page idx = Raise e).
    { intros idx t Ht. unfold _parse_article_container, lambda_parse_article_container.
      rewrite Ht, Hl. split; reflexivity. }
    split; [exact Hl |]. split; [exact Hp |].
    intros soup j a Hj Hin Hidx. unfold _extract_articles in Hin.
    apply list_elem_of_In, list_elem_of_lookup in Hin. destruct Hin as [k Hk].
    apply parse_loop_lookup in Hk. destruct Hk as (j' & c & _ & Hj' & Hparse).
    pose proof Hparse as Hf. apply parse_container_fields in Hf.
    destruct Hf as (Ht & _ & _ & _ & Hi).
    assert (j' = j) by lia. subst j'. rewrite Hj in Hj'. injection Hj' as <-.
    destruct (Hp (0 + Z.of_nat j) _ Ht) as [Hraise _]. congruence.
Qed.

Lemma link_is_first_outbound_else_last_rooted_witness :
  extract_link Url.urljoin Samples.page Samples.mixed_card
  = Ok (Some "https://example.com/post"%string)
  /\ extract_link Url.urljoin Samples.page Samples.rooted_card
     = Ok (Some "https://tldr.tech/b"%string)
  /\ extract_link Url.urljoin Samples.page Samples.refused_href_card = Raise ValueError
  /\ _parse_article_container Url.urljoin Samples.refused_href_card Samples.page 0
     = Raise ValueError.
Proof.
  split; [| split; [| split]].
  - destruct (link_is_first_outbound_else_last_rooted Url.urljoin Samples.page
                Samples.mixed_card) as (H & _ & _).
    apply (H ["#top"; "/a"]%string "https://example.com/post"%string ["/b"%string]).
    + reflexivity.
    + reflexivity.
    + repeat (constructor; [reflexivity |]). constructor.
    + repeat (constructor; [intros _; eexists; reflexivity |]). constructor.
  - destruct (link_is_first_outbound_else_last_rooted Url.urljoin Samples.page
                Samples.rooted_card) as (_ & H & _).
    rewrite H.
    + reflexivity.
    + repeat (constructor; [reflexivity |]). constructor.
    + repeat (constructor; [intros _; eexists; reflexivity |]). constructor.
  - destruct (link_is_first_outbound_else_last_rooted Url.urljoin Samples.page
                Samples.refused_href_card) as (_ & _ & H).
    apply (H [] "//[oops/x"%string ["https://example.com/post"%string] ValueError);
      [reflexivity | constructor | constructor | reflexivity | reflexivity].
  - destruct (link_is_first_outbound_else_last_rooted Url.urljoin Samples.page
                Samples.refused_href_card) as (_ & _ & H).
    destruct (H [] "//[oops/x"%string ["https://example.com/post"%string] ValueError)
      as (_ & Hp & _);
      [reflexivity | constructor | constructor | reflexivity | reflexivity |].
    apply (Hp 0 "A title that is long enough"%string). reflexivity.
Defined.

End Links.

(* --------------------------------------------------------------------- *)
(* Deduplication                                                         *)
(* --------------------------------------------------------------------- *)

Section Dedup.

Import Soup Extract.

Lemma dedup_loop_acc (cs : list Node) :
  forall (seen : gset string) (acc : list Node),
    dedup_loop cs seen acc = acc ++ dedup_loop cs seen [].
Proof.
  induction cs as [| c rest IH]; intros seen acc; simpl.
  - rewrite app_nil_r. reflexivity.
  - destruct (decide (fingerprint c ∈ seen)); [apply IH |].
    rewrite (IH _ (acc ++ [c])), (IH _ [c]), <- app_assoc. reflexivity.
Qed.

Lemma dedup_loop_app (l1 : list Node) :
  forall (l2 : list Node) (seen : gset string) (acc : list Node),
    dedup_loop (l1 ++ l2) seen acc
    = dedup_loop l2 (seen ∪ list_to_set (fingerprint <$> l1)) (dedup_loop l1 seen acc).
Proof.
  induction l1 as [| c rest IH]; intros l2 seen acc; simpl.
  - f_equal. set_solver.
  - destruct (decide (fingerprint c ∈ seen)) as [Hin | Hout].
    + rewrite IH. f_equal. set_solver.
    + rewrite IH. f_equal. set_solver.
Qed.

Lemma dedup_loop_sublist (cs : list Node) :
  forall seen : gset string, sublist (dedup_loop cs seen []) cs.
Proof.
  induction cs as [| c rest IH]; intros seen; simpl; [constructor |].
  destruct (decide (fingerprint c ∈ seen)).
  - apply sublist_cons, IH.
  - rewrite dedup_loop_acc. simpl. apply sublist_skip, IH.
Qed.

Lemma dedup_loop_fresh (cs : list Node) :
  forall (seen : gset string) (c : Node),
    c ∈ dedup_loop cs seen [] -> fingerprint c ∉ seen.
Proof.
  induction cs as [| c0 rest IH]; intros seen c; simpl.
  - intros H. inversion H.
  - destruct (decide (fingerprint c0 ∈ seen)) as [Hin | Hout]; [apply IH |].
    rewrite dedup_loop_acc. simpl. rewrite elem_of_cons. intros [-> | H]; [exact Hout |].
    apply IH in H. set_solver.
Qed.

Lemma dedup_loop_nodup (cs : list Node) :
  forall seen : gset string, NoDup (fingerprint <$> dedup_loop cs seen []).
Proof.
  induction cs as [| c rest IH]; intros seen; simpl; [constructor |].
  destruct (decide (fingerprint c ∈ seen)); [apply IH |].
  rewrite dedup_loop_acc. simpl. constructor; [| apply IH].
  rewrite list_elem_of_fmap. intros (c' & Heq & Hc'). apply dedup_loop_fresh in Hc'.
  rewrite <- Heq in Hc'. set_solver.
Qed.

Lemma dedup_loop_covers (cs : list Node) :
  forall (seen : gset string) (c : Node),
    c ∈ cs ->
    fingerprint c ∈ seen \/ fingerprint c ∈ fingerprint <$> dedup_loop cs seen [].
Proof.
  induction cs as [| c0 rest IH]; intros seen c; simpl.
  - intros H. inversion H.
  - rewrite elem_of_cons. intros [-> | H].
    + destruct (decide (fingerprint c0 ∈ seen)); [left; assumption |].
      right. rewrite dedup_loop_acc. simpl. left.
    + destruct (decide (fingerprint c0 ∈ seen)); [apply IH, H |].
      rewrite dedup_loop_acc. simpl.
      destruct (IH ({[fingerprint c0]} ∪ seen) c H) as [Hs | Hr].
      * apply elem_of_union in Hs. destruct Hs as [Hs | Hs]; [| left; exact Hs].
        apply elem_of_singleton in Hs. right. rewrite Hs. left.
      * right. right. exact Hr.
Qed.

Lemma dedup_loop_snoc (l : list Node) (c : Node) :
  dedup_loop (l ++ [c]) ∅ []
  = if decide (fingerprint c ∈ fingerprint <$> l)
    then dedup_loop l ∅ [] else dedup_loop l ∅ [] ++ [c].
Proof.
  rewrite dedup_loop_app. simpl.
  destruct (decide (fingerprint c ∈ ∅ ∪ list_to_set (fingerprint <$> l))) as [Hin | Hout];
    destruct (decide (fingerprint c ∈ fingerprint <$> l)) as [Hin' | Hout'];
    try reflexivity; exfalso.
  - apply Hout'. set_solver.
  - apply Hout. set_solver.
Qed.

Lemma take_agrees (n : nat) :
  forall s s' : string,
    PyStr.take n s = PyStr.take n s'
    <-> forall i : nat, (i < n)%nat -> String.get i s = String.get i s'.
Proof.
  induction n as [| n IH]; intros s s'.
  - split; [intros _ i Hi; lia | reflexivity].
  - destruct s as [| c r], s' as [| c' r']; simpl.
    + split; [reflexivity | reflexivity].
    + split; [discriminate |]. intros H. specialize (H 0%nat ltac:(lia)). discriminate H.
    + split; [discriminate |]. intros H. specialize (H 0%nat ltac:(lia)). discriminate H.
    + split.
      * intros H. injection H as -> H. rewrite IH in H.
        intros [| i] Hi; [reflexivity |]. simpl. apply H. lia.
      * intros H. pose proof (H 0%nat ltac:(lia)) as H0. simpl in H0.
        injection H0 as ->. f_equal. apply IH. intros i Hi.
        apply (H (S i)). lia.
Qed.

Lemma attr_le_trans : Transitive attr_le.
Proof. intros a b c. unfold attr_le. apply transitivity. Qed.

Lemma attr_le_total : Total attr_le.
Proof. intros a b. unfold attr_le. apply total, _. Qed.

(* the order in which the attributes of a tag were written does not show
   in its markup *)
Lemma sorted_attrs_permutation (attrs attrs' : list (string * string)) :
  NoDup (map fst attrs) -> attrs ≡ₚ attrs' -> sorted_attrs attrs = sorted_attrs attrs'.
Proof.
  intros Hnd Hp. unfold sorted_attrs.
  pose proof attr_le_trans as Htrans. pose proof attr_le_total as Htotal.
  apply (StronglySorted_unique_strong attr_le).
  - intros [k1 v1] [k2 v2] H1 H2 H12 H21. unfold attr_le in H12, H21. simpl in *.
    assert (Hk : k1 = k2) by (apply (anti_symm String.le); assumption). subst k2.
    f_equal.
    rewrite merge_sort_Permutation in H1. rewrite merge_sort_Permutation, <- Hp in H2.
    clear - Hnd H1 H2. induction attrs as [| [k v] rest IH]; [inversion H1 |].
    simpl in Hnd. apply NoDup_cons in Hnd. destruct Hnd as [Hk Hnd].
    apply elem_of_cons in H1. apply elem_of_cons in H2.
    destruct H1 as [H1 | H1], H2 as [H2 | H2].
    + congruence.
    + injection H1 as -> ->. exfalso. apply Hk.
      apply list_elem_of_In, in_map_iff. exists (k, v2). split; [reflexivity |].
      apply list_elem_of_In. exact H2.
    + injection H2 as -> ->. exfalso. apply Hk.
      apply list_elem_of_In, in_map_iff. exists (k, v1). split; [reflexivity |].
      apply list_elem_of_In. exact H1.
    + apply IH; assumption.
  - apply StronglySorted_merge_sort; apply _.
  - apply StronglySorted_merge_sort; apply _.
  - rewrite !merge_sort_Permutation. exact Hp.
Qed.

Lemma decode_attr_order (nm : string) (attrs attrs' : list (string * string))
      (cs : list Node) :
  NoDup (map fst attrs) -> attrs ≡ₚ attrs' ->
  decode (Tag nm attrs cs) = decode (Tag nm attrs' cs).
Proof.
  intros Hnd Hp. unfold decode. cbn [decode_in]. unfold decode_attrs.
  rewrite (sorted_attrs_permutation attrs attrs' Hnd Hp). reflexivity.
Qed.

Lemma dedup_pair (c c' : Node) :
  (fingerprint c = fingerprint c' -> dedup_loop [c; c'] ∅ [] = [c])
  /\ (fingerprint c <> fingerprint c' -> dedup_loop [c; c'] ∅ [] = [c; c']).
Proof.
  change [c; c'] with ([c] ++ [c']). rewrite dedup_loop_snoc.
  assert (Hone : dedup_loop [c] ∅ [] = [c]).
  { simpl. destruct (decide (fingerprint c ∈ (∅ : gset string))) as [H | H];
      [set_solver | reflexivity]. }
  rewrite Hone. split; intros H.
  - destruct (decide (fingerprint c' ∈ fingerprint <$> [c])) as [Hin | Hout];
      [reflexivity |].
    exfalso. apply Hout. rewrite <- H. simpl. left.
  - destruct (decide (fingerprint c' ∈ fingerprint <$> [c])) as [Hin | Hout];
      [| reflexivity].
    exfalso. simpl in Hin. apply list_elem_of_singleton in Hin. congruence.
Qed.

Example wide_cards_collapse :
  decode (Samples.wide_card "X") <> decode (Samples.wide_card "Y")
  /\ fingerprint (Samples.wide_card "X") = fingerprint (Samples.wide_card "Y")
  /\ unique_containers Samples.wide_doc = [Samples.wide_card "X"].
Proof.
  split; [vm_compute; discriminate |]. split; vm_compute; reflexivity.
Qed.

Example same_card_two_parents :
  article_containers Samples.two_parents_doc = [Samples.long_card; Samples.long_card]
  /\ unique_containers Samples.two_parents_doc = [Samples.long_card].
Proof. split; vm_compute; reflexivity. Qed.

Example different_cards_both_kept :
  unique_containers Samples.gap_doc
  = [Samples.short_card; Samples.broken_card; Samples.long_card].
Proof. vm_compute. reflexivity. Qed.

(** C6: deduplication fingerprints a candidate by the first 200 characters
    of its markup, str(container)[:200], and keeps the first candidate of
    each fingerprint in discovery order: a candidate is kept exactly when
    no earlier candidate has its fingerprint, so of two candidates that
    agree on the first 200 characters the later one is dropped (the result
    is the one of the list without it), whatever follows or surrounds
    them, and two that differ there are both kept.  Two candidates have
    one fingerprint exactly when their markups have the same character at
    each of the positions 0..199; the markup has the attributes of a tag
    in the order of their names, so that the order in which they were
    written does not tell two candidates apart; two cards that differ
    only after the 200th character are one candidate. *)
Theorem dedup_keeps_first_of_each_fingerprint :
  forall cs : list Node,
    (forall c c' : Node,
        fingerprint c = fingerprint c'
        <-> forall i : nat,
            (i < 200)%nat -> String.get i (decode c) = String.get i (decode c'))
    /\ sublist (dedup_loop cs ∅ []) cs
    /\ NoDup (fingerprint <$> dedup_loop cs ∅ [])
    /\ (forall c : Node, c ∈ cs -> fingerprint c ∈ fingerprint <$> dedup_loop cs ∅ [])
    /\ (forall c : Node,
           dedup_loop (cs ++ [c]) ∅ []
           = if decide (fingerprint c ∈ fingerprint <$> cs)
             then dedup_loop cs ∅ [] else dedup_loop cs ∅ [] ++ [c])
    /\ (forall later : list Node,
           dedup_loop cs ∅ [] `prefix_of` dedup_loop (cs ++ later) ∅ [])
    /\ (forall (c c' : Node) (between later : list Node),
           fingerprint c = fingerprint c' ->
           dedup_loop (cs ++ c :: between ++ c' :: later) ∅ []
           = dedup_loop (cs ++ c :: between ++ later) ∅ [])
    /\ (forall c c' : Node,
           (fingerprint c = fingerprint c' -> dedup_loop [c; c'] ∅ [] = [c])
           /\ (fingerprint c <> fingerprint c' -> dedup_loop [c; c'] ∅ [] = [c; c']))
    /\ (forall (nm : string) (attrs attrs' : list (string * string))
               (children : list Node),
           NoDup (map fst attrs) -> attrs ≡ₚ attrs' ->
           decode (Tag nm attrs children) = decode (Tag nm attrs' children)
           /\ dedup_loop [Tag nm attrs children; Tag nm attrs' children] ∅ []
              = [Tag nm attrs children])
    /\ (fingerprint Samples.long_card
        = "<div class=" +:+ dquote +:+ "post" +:+ dquote
          +:+ "><h2> 0123456789A </h2></div>"
        /\ decode Samples.id_class_card
           = "<div class=" +:+ dquote +:+ "post" +:+ dquote +:+ " id=" +:+ dquote
             +:+ "x" +:+ dquote +:+ "><h2>A title that is long enough</h2></div>"
        /\ decode Samples.class_id_card = decode Samples.id_class_card
        /\ unique_containers Samples.attr_order_doc = [Samples.id_class_card])
    /\ (String.length (fingerprint (Samples.wide_card "X")) = 200%nat
        /\ String.get 307 (decode (Samples.wide_card "X")) = Some "X"%char
        /\ String.get 307 (decode (Samples.wide_card "Y")) = Some "Y"%char
        /\ fingerprint (Samples.wide_card "X") = fingerprint (Samples.wide_card "Y")
        /\ article_containers Samples.wide_doc
           = [Samples.wide_card "X"; Samples.wide_card "Y"]
        /\ unique_containers Samples.wide_doc = [Samples.wide_card "X"]).
Proof.
  intros cs.
  split; [| split; [| split; [| split; [| split; [| split; [| split;
    [| split; [| split; [| split]]]]]]]]].
  - intros c c'. unfold fingerprint. apply take_agrees.
  - apply dedup_loop_sublist.
  - apply dedup_loop_nodup.
  - intros c Hc. destruct (dedup_loop_covers cs ∅ c Hc) as [H | H]; [| exact H].
    set_solver.
  - intros c. apply dedup_loop_snoc.
  - intros later. rewrite dedup_loop_app, (dedup_loop_acc later).
    eexists. reflexivity.
  - intros c c' between later Heq.
    replace (cs ++ c :: between ++ c' :: later)
      with ((cs ++ c :: between) ++ c' :: later) by (rewrite <- app_assoc; reflexivity).
    replace (cs ++ c :: between ++ later)
      with ((cs ++ c :: between) ++ later) by (rewrite <- app_assoc; reflexivity).
    rewrite !(dedup_loop_app (cs ++ c :: between)). simpl.
    destruct (decide (fingerprint c'
                        ∈ ∅ ∪ list_to_set (fingerprint <$> cs ++ c :: between)))
      as [Hin | Hout]; [reflexivity |].
    exfalso. apply Hout. rewrite fmap_app, fmap_cons, Heq. set_solver.
  - intros c c'. apply dedup_pair.
  - intros nm attrs attrs' children Hnd Hp.
    pose proof (decode_attr_order nm attrs attrs' children Hnd Hp) as Hd.
    split; [exact Hd |]. apply dedup_pair. unfold fingerprint. rewrite Hd. reflexivity.
  - split; [| split; [| split]]; vm_compute; reflexivity.
  - split; [| split; [| split; [| split; [| split]]]]; vm_compute; reflexivity.
Qed.

End Dedup.

(* --------------------------------------------------------------------- *)
(* Record identifiers                                                    *)
(* --------------------------------------------------------------------- *)

Section RecordIds.

Import Soup Extract.

Lemma le_bytes_length (n : nat) : forall x : Z, length (MD5.le_bytes n x) = n.
Proof. induction n as [| n IH]; intros x; simpl; [reflexivity | rewrite IH; reflexivity]. Qed.

Lemma le_bytes_range (n : nat) :
  forall x : Z, Forall (fun b => 0 <= b < 256) (MD5.le_bytes n x).
Proof.
  induction n as [| n IH]; intros x; simpl; constructor; [| apply IH].
  apply Z.mod_pos_bound. lia.
Qed.

Lemma digest_length (msg : list Z) : length (MD5.digest msg) = 16%nat.
Proof. unfold MD5.digest. rewrite !length_app, !le_bytes_length. reflexivity. Qed.

Lemma digest_range (msg : list Z) : Forall (fun b => 0 <= b < 256) (MD5.digest msg).
Proof. unfold MD5.digest. rewrite !Forall_app. repeat split; apply le_bytes_range. Qed.

Lemma hex_length (bs : list Z) : String.length (MD5.hex bs) = (2 * length bs)%nat.
Proof. induction bs as [| b r IH]; simpl; [reflexivity | rewrite IH; lia]. Qed.

Lemma hex_digit_is_hex (d : Z) : 0 <= d < 16 -> MD5.is_hex (MD5.hex_digit d) = true.
Proof.
  intros H. replace d with (Z.of_nat (Z.to_nat d)) by lia.
  assert (Hk : (Z.to_nat d < 16)%nat) by lia.
  revert Hk. generalize (Z.to_nat d). intros k Hk.
  do 16 (destruct k as [| k]; [reflexivity |]). lia.
Qed.

Lemma hex_all_hex (bs : list Z) :
  Forall (fun b => 0 <= b < 256) bs -> MD5.all_hex (MD5.hex bs) = true.
Proof.
  induction 1 as [| b r Hb Hr IH]; simpl; [reflexivity |].
  rewrite IH, !hex_digit_is_hex; [reflexivity | |].
  - apply Z.mod_pos_bound. lia.
  - split; [apply Z.div_pos; lia | apply Z.div_lt_upper_bound; lia].
Qed.

Lemma take_length (n : nat) :
  forall s : string, String.length (PyStr.take n s) = Nat.min n (String.length s).
Proof.
  induction n as [| n IH]; intros s; [reflexivity |].
  destruct s as [| c r]; simpl; [reflexivity | rewrite IH; reflexivity].
Qed.

Lemma take_all_hex (n : nat) :
  forall s : string, MD5.all_hex s = true -> MD5.all_hex (PyStr.take n s) = true.
Proof.
  induction n as [| n IH]; intros s; [reflexivity |].
  destruct s as [| c r]; simpl; [reflexivity |].
  rewrite !andb_true_iff. intros [Hc Hr]. split; [exact Hc | apply IH, Hr].
Qed.

Lemma article_id_shape (page t : string) (i : Z) :
  String.length (_generate_article_id page t i) = 16%nat
  /\ MD5.all_hex (_generate_article_id page t i) = true.
Proof.
  unfold _generate_article_id, MD5.hexdigest. split.
  - rewrite take_length, hex_length, digest_length. reflexivity.
  - apply take_all_hex, hex_all_hex, digest_range.
Qed.

Example article_id_value :
  _generate_article_id "https://tldr.tech/tech/2025-01-10" "A long enough title" 0
  = "3c447da4a89ebfe1"%string.
Proof. vm_compute. reflexivity. Qed.

Example same_title_same_id :
  (fun r => match r with Ok (Some a) => Some (record_id a, link a) | _ => None end)
    <$> [ _parse_article_container Url.urljoin Samples.rooted_card Samples.page 4;
          _parse_article_container Url.urljoin Samples.other_card Samples.page 4 ]
  = [ Some ("b9caea684b44be08"%string, Some "https://tldr.tech/b"%string);
      Some ("b9caea684b44be08"%string, Some "https://example.com/other"%string) ].
Proof. vm_compute. reflexivity. Qed.

(** C7: record_id is the first 16 hexadecimal digits of the MD5 digest of
    the string pageUrl|title|index, so it is determined by that triple:
    every record holds the id of its own source page, title and extraction
    index, two containers that give the same title at the same index of
    the same page get the same id whatever else they contain, and
    extracting a page again gives the same ids. *)
Theorem record_id_is_function_of_page_title_index :
  forall (urljoin : string -> string -> result string),
    (forall (page t : string) (i : Z),
        _generate_article_id page t i
        = PyStr.take 16
            (MD5.hexdigest
               (MD5.encode (page +:+ "|" +:+ t +:+ "|" +:+ PyStr.of_int i)))
        /\ String.length (_generate_article_id page t i) = 16%nat
        /\ MD5.all_hex (_generate_article_id page t i) = true)
    /\ (forall (c : Node) (page : string) (i : Z) (a : Article),
           _parse_article_container urljoin c page i = Ok (Some a)
           \/ lambda_parse_article_container urljoin c page i = Ok (Some a) ->
           record_id a = _generate_article_id page (title a) i
           /\ source_page a = page /\ extraction_index a = i)
    /\ (forall (c1 c2 : Node) (page : string) (i : Z) (a1 a2 : Article),
           _parse_article_container urljoin c1 page i = Ok (Some a1) ->
           _parse_article_container urljoin c2 page i = Ok (Some a2) ->
           title a1 = title a2 -> record_id a1 = record_id a2)
    /\ (forall (soup : Node) (page : string) (k : nat) (a : Article),
           _extract_articles urljoin soup page !! k = Some a ->
           record_id a = _generate_article_id page (title a) (extraction_index a))
    /\ (forall (soup1 soup2 : Node) (page : string) (k1 k2 : nat) (a1 a2 : Article),
           _extract_articles urljoin soup1 page !! k1 = Some a1 ->
           _extract_articles urljoin soup2 page !! k2 = Some a2 ->
           title a1 = title a2 -> extraction_index a1 = extraction_index a2 ->
           record_id a1 = record_id a2).
Proof.
  intros urljoin. split; [| split; [| split; [| split]]].
  - intros page t i. split; [reflexivity | apply article_id_shape].
  - intros c page i a [H | H].
    + apply parse_container_fields in H. tauto.
    + apply lambda_parse_container_fields in H. tauto.
  - intros c1 c2 page i a1 a2 H1 H2 Ht.
    apply parse_container_fields in H1, H2.
    destruct H1 as (_ & _ & -> & _), H2 as (_ & _ & -> & _). rewrite Ht. reflexivity.
  - intros soup page k a H. unfold _extract_articles in H.
    apply parse_loop_lookup in H. destruct H as (j & c & _ & _ & Hp).
    apply parse_container_fields in Hp. destruct Hp as (_ & _ & Hid & _ & Hi).
    rewrite Hi. exact Hid.
  - intros soup1 soup2 page k1 k2 a1 a2 H1 H2 Ht Hi.
    unfold _extract_articles in H1, H2.
    apply parse_loop_lookup in H1, H2.
    destruct H1 as (j1 & c1 & _ & _ & Hp1), H2 as (j2 & c2 & _ & _ & Hp2).
    apply parse_container_fields in Hp1, Hp2.
    destruct Hp1 as (_ & _ & Hid1 & _ & Hi1), Hp2 as (_ & _ & Hid2 & _ & Hi2).
    rewrite Hid1, Hid2, Ht. f_equal. congruence.
Qed.

End RecordIds.

(* --------------------------------------------------------------------- *)
(* The robots check                                                      *)
(* --------------------------------------------------------------------- *)

Section RobotsCheck.

Import World Webscraper.

Lemma robots_only_refl (s : State) : robots_only s s.
Proof.
  repeat split; try reflexivity; [| auto].
  exists []. rewrite app_nil_r. split; reflexivity.
Qed.

Lemma robots_only_trans (s1 s2 s3 : State) :
  robots_only s1 s2 -> robots_only s2 s3 -> robots_only s1 s3.
Proof.
  intros (Hc & Hd & Hf & (n1 & Ht1 & Hn1) & Hp) (Hc' & Hd' & Hf' & (n2 & Ht2 & Hn2) & Hp').
  repeat split; try congruence; [| auto].
  exists (n1 ++ n2). rewrite Ht2, Ht1, app_assoc. split; [reflexivity |].
  rewrite forallb_app, Hn1, Hn2. reflexivity.
Qed.

Lemma robots_only_log (e : Event) (s : State) :
  is_robots_event e = true -> robots_only s (log e s).
Proof.
  intros He. repeat split; try reflexivity; [| auto].
  exists [e]. split; [reflexivity |]. simpl. rewrite He. reflexivity.
Qed.

Lemma robots_only_set_parser (d : string) (rp : Robots.RobotFileParser) (s : State) :
  robot_parsers s !! d = None -> robots_only s (set_parser d rp s).
Proof.
  intros Hd. repeat split; try reflexivity.
  - exists []. rewrite app_nil_r. split; reflexivity.
  - intros d' p Hp. simpl. rewrite lookup_insert_ne; [exact Hp | congruence].
Qed.

Lemma robots_only_set_content (d t : string) (s : State) :
  robots_only s (set_content d t s).
Proof.
  repeat split; try reflexivity; [| auto].
  exists []. rewrite app_nil_r. split; reflexivity.
Qed.

Lemma robots_only_add_saved (d : string) (s : State) : robots_only s (add_saved d s).
Proof.
  repeat split; try reflexivity; [| auto].
  exists []. rewrite app_nil_r. split; reflexivity.
Qed.

Lemma read_and_store_frame (env : Env) (d : string) (s : State) :
  robot_parsers s !! d = None ->
  robots_only s (read_and_store env d s)
  /\ is_Some (robot_parsers (read_and_store env d s) !! d).
Proof.
  intros Hd. unfold read_and_store, store_unread_parser.
  assert (Hlog : robots_only s (log (Urlopen (robots_url_of d)) s))
    by (apply robots_only_log; reflexivity).
  assert (Hd' : robot_parsers (log (Urlopen (robots_url_of d)) s) !! d = None) by exact Hd.
  destruct (urlopen env (trace s) (robots_url_of d)) as [body | code |];
    [| destruct ((code =? 401) || (code =? 403));
       [| destruct ((400 <=? code) && (code <? 500))] |];
    (split;
     [ eapply robots_only_trans; [exact Hlog | apply robots_only_set_parser; exact Hd']
     | simpl; rewrite lookup_insert_eq; eexists; reflexivity ]).
Qed.

Lemma load_robots_frame (env : Env) (d : string) (s : State) :
  robot_parsers s !! d = None ->
  robots_only s (load_robots env d s)
  /\ is_Some (robot_parsers (load_robots env d s) !! d).
Proof.
  intros Hd. unfold load_robots, store_unread_parser.
  assert (Hlog : robots_only s (log (RequestsGet (robots_url_of d)) s))
    by (apply robots_only_log; reflexivity).
  assert (Hd' : robot_parsers (log (RequestsGet (robots_url_of d)) s) !! d = None)
    by exact Hd.
  destruct (requests_get env (trace s) (robots_url_of d)) as [| status body].
  - split; [| simpl; rewrite lookup_insert_eq; eexists; reflexivity].
    eapply robots_only_trans; [exact Hlog | apply robots_only_set_parser; exact Hd'].
  - destruct (status =? 200).
    + match goal with
      | |- context [read_and_store env d ?s0] =>
          assert (H0 : robots_only s s0 /\ robot_parsers s0 !! d = None)
      end.
      { match goal with
        | |- context [if ?b then _ else _] => destruct b
        end; (split; [| exact Hd]).
        - eapply robots_only_trans; [| apply robots_only_add_saved].
          eapply robots_only_trans; [| apply robots_only_log; reflexivity].
          eapply robots_only_trans; [exact Hlog | apply robots_only_set_content].
        - eapply robots_only_trans; [exact Hlog | apply robots_only_set_content]. }
      destruct H0 as [H0 H1].
      destruct (read_and_store_frame env d _ H1) as [H2 H3].
      split; [eapply robots_only_trans; eassumption | exact H3].
    + split; [| simpl; rewrite lookup_insert_eq; eexists; reflexivity].
      eapply robots_only_trans; [exact Hlog | apply robots_only_set_parser; exact Hd'].
Qed.

(* can_fetch answers with the parser of the domain, which it has stored
   by then: its last branch is never taken *)
Lemma can_fetch_frame (env : Env) (url ua : string) (s : State) :
  exists (rp : Robots.RobotFileParser) (s' : State),
    can_fetch env url ua s = (Robots.can_fetch rp ua url, s')
    /\ robot_parsers s' !! robots_domain url = Some rp
    /\ robots_only s s'.
Proof.
  unfold can_fetch.
  destruct (robot_parsers s !! robots_domain url) as [rp |] eqn:E.
  - rewrite E. exists rp, s.
    split; [reflexivity | split; [exact E | apply robots_only_refl]].
  - destruct (load_robots_frame env _ _ E) as [Hf [rp Hrp]].
    rewrite Hrp. exists rp, (load_robots env (robots_domain url) s).
    split; [reflexivity | split; assumption].
Qed.

Lemma can_fetch_cached (env : Env) (url ua : string) (s : State)
      (rp : Robots.RobotFileParser) :
  robot_parsers s !! robots_domain url = Some rp ->
  can_fetch env url ua s = (Robots.can_fetch rp ua url, s).
Proof. intros H. unfold can_fetch. rewrite H, H. reflexivity. Qed.

Lemma should_scrape_frame (env : Env) (url : string) (s : State) :
  robots_only s (snd (_should_scrape_url env url s)).
Proof.
  unfold _should_scrape_url.
  destruct (match domain_counters s !! Url.netloc url with
            | Some n => n >=? max_pages_per_domain (config s)
            | None => false
            end); [apply robots_only_refl |].
  destruct (respect_robots_txt (config s)); [| apply robots_only_refl].
  destruct (can_fetch_frame env url (user_agent (config s)) s) as (rp & s' & -> & _ & H).
  destruct (Robots.can_fetch rp (user_agent (config s)) url); exact H.
Qed.

End RobotsCheck.

(* --------------------------------------------------------------------- *)
(* Reading a history                                                     *)
(* --------------------------------------------------------------------- *)

Section Histories.

Import World.

Lemma fetched_app (l1 l2 : list Event) : fetched (l1 ++ l2) = fetched l1 ++ fetched l2.
Proof. apply omap_app. Qed.

Lemma backoffs_app (l1 l2 : list Event) : backoffs (l1 ++ l2) = backoffs l1 ++ backoffs l2.
Proof. apply omap_app. Qed.

Lemma retry_view_app (l1 l2 : list Event) :
  retry_view (l1 ++ l2) = retry_view l1 ++ retry_view l2.
Proof. apply List.filter_app. Qed.

Lemma fetched_retry_view (l : list Event) : fetched (retry_view l) = fetched l.
Proof.
  induction l as [| e r IH]; [reflexivity |].
  destruct e; simpl; try exact IH. f_equal. exact IH.
Qed.

Lemma backoffs_retry_view (l : list Event) : backoffs (retry_view l) = backoffs l.
Proof.
  induction l as [| e r IH]; [reflexivity |].
  destruct e; simpl; try exact IH. f_equal. exact IH.
Qed.

Lemma robots_events_are_silent (l : list Event) :
  forallb is_robots_event l = true -> retry_view l = [].
Proof.
  induction l as [| e r IH]; [reflexivity |]. simpl.
  destruct e; simpl; try discriminate; exact IH.
Qed.




Example five_attempts :
  attempts_with_backoff "u" 0 5
  = [SessionGet "u"; SleepBackoff 1; SessionGet "u"; SleepBackoff 2; SessionGet "u";
     SleepBackoff 4; SessionGet "u"; SleepBackoff 8; SessionGet "u"].
Proof. reflexivity. Qed.

End Histories.

(* --------------------------------------------------------------------- *)
(* One URL: the attempts                                                 *)
(* --------------------------------------------------------------------- *)

Section Attempts.

Import World Webscraper.

Variable urljoin : string -> string -> result string.

Lemma build_data_count (env : Env) (url : string) (response : Response) (s : State)
      (data : PageResult) :
  build_data urljoin env url response s = Ok data ->
  article_count data = Z.of_nat (length (articles data)) /\ Webscraper.url data = url.
Proof.
  unfold build_data.
  destruct (_extract_links urljoin _ url) as [ls | e]; simpl; [| discriminate].
  intros [= <-]. split; reflexivity.
Qed.

Lemma attempt_loop_spec (env : Env) (url : string) (n : nat) :
  forall (a : Z) (s : State),
    ((0 < n)%nat -> a + Z.of_nat n = max_retries (config s)) ->
    exists (r : result (option PageResult)) (s' : State) (j : nat) (new : list Event),
      attempt_loop urljoin env url a n s = (r, s')
      /\ trace s' = trace s ++ new
      /\ retry_view new = attempts_with_backoff url a j
      /\ (j <= n)%nat /\ ((0 < n)%nat -> (0 < j)%nat)
      /\ config s' = config s /\ robot_parsers s' = robot_parsers s
      /\ match r with
         | Ok None =>
             j = n /\ consecutive_failures s' = consecutive_failures s + 1
             /\ domain_counters s' = domain_counters s
         | Ok (Some data) =>
             (0 < j)%nat /\ consecutive_failures s' = 0
             /\ article_count data = Z.of_nat (length (articles data))
         | Raise _ => (0 < j)%nat /\ consecutive_failures s' = 0
         end
      /\ ((forall tr, page_fails (session_get env tr url) = true) -> r = Ok None).
Proof.
  induction n as [| n IH]; intros a s Hmax.
  - exists (Ok None), (set_failures (consecutive_failures s + 1) s), O, [].
    simpl. rewrite app_nil_r. repeat split; try reflexivity; lia.
  - simpl.
    set (s1 := log (SleepDelay (_get_delay env url s)) s).
    set (s2 := log (SessionGet url) s1).
    assert (Hfail :
      exists (r : result (option PageResult)) (s' : State) (j : nat) (new : list Event),
        attempt_loop urljoin env url (a + 1) n (backoff a s2) = (r, s')
        /\ trace s' = trace s ++ new
        /\ retry_view new = attempts_with_backoff url a j
        /\ (j <= S n)%nat /\ ((0 < S n)%nat -> (0 < j)%nat)
        /\ config s' = config s /\ robot_parsers s' = robot_parsers s
        /\ match r with
           | Ok None =>
               j = S n /\ consecutive_failures s' = consecutive_failures s + 1
               /\ domain_counters s' = domain_counters s
           | Ok (Some data) =>
               (0 < j)%nat /\ consecutive_failures s' = 0
               /\ article_count data = Z.of_nat (length (articles data))
           | Raise _ => (0 < j)%nat /\ consecutive_failures s' = 0
           end
        /\ ((forall tr, page_fails (session_get env tr url) = true) -> r = Ok None)).
    { assert (Hb : exists b : list Event,
                 trace (backoff a s2) = trace s ++ [SleepDelay (_get_delay env url s);
                                                    SessionGet url] ++ b
                 /\ config (backoff a s2) = config s
                 /\ robot_parsers (backoff a s2) = robot_parsers s
                 /\ consecutive_failures (backoff a s2) = consecutive_failures s
                 /\ domain_counters (backoff a s2) = domain_counters s
                 /\ b = if a <? max_retries (config s) - 1
                        then [SleepBackoff (2 ^ a)] else []).
      { unfold backoff. change (config s2) with (config s).
        destruct (a <? max_retries (config s) - 1).
        - exists [SleepBackoff (2 ^ a)]. simpl. rewrite <- !app_assoc. repeat split.
        - exists []. simpl. rewrite <- !app_assoc. repeat split. }
      destruct Hb as (b & Hbt & Hbc & Hbp & Hbf & Hbd & Hbv).
      destruct (IH (a + 1) (backoff a s2)) as (r & s' & j & new & He & Ht & Hv & Hj & Hpos
                                                & Hc & Hp & Hr & Hall).
      { intros Hn. rewrite Hbc. assert (Hn0 : (0 < S n)%nat) by lia.
        specialize (Hmax Hn0). lia. }
      exists r, s', (S j),
        ([SleepDelay (_get_delay env url s); SessionGet url] ++ b ++ new).
      split; [exact He |].
      split; [rewrite Ht, Hbt, <- !app_assoc; reflexivity |].
      split.
      { rewrite !retry_view_app, Hv. simpl.
        destruct n as [| n].
        - assert (j = O) by lia. subst j.
          assert (Hn0 : (0 < 1)%nat) by lia. specialize (Hmax Hn0).
          assert (Hlt : (a <? max_retries (config s) - 1) = false) by lia.
          rewrite Hlt in Hbv. subst b. reflexivity.
        - assert (Hn0 : (0 < S n)%nat) by lia. specialize (Hpos Hn0).
          assert (Hn1 : (0 < S (S n))%nat) by lia. specialize (Hmax Hn1).
          assert (Hlt : (a <? max_retries (config s) - 1) = true) by lia.
          rewrite Hlt in Hbv. subst b.
          destruct j as [| j]; [lia |]. reflexivity. }
      split; [lia |]. split; [lia |].
      split; [congruence |]. split; [congruence |].
      split; [| exact Hall].
      destruct r as [[data |] | e].
      - destruct Hr as (_ & Hr). split; [lia | exact Hr].
      - destruct Hr as (-> & Hf & Hd). repeat split; congruence.
      - destruct Hr as (_ & Hr). split; [lia | exact Hr]. }
    match goal with
    | |- context [session_get env ?t url] => set (tr1 := t)
    end.
    destruct (session_get env tr1 url) as [| response] eqn:Ea; [exact Hfail |].
    destruct (raises_for_status response) eqn:Es; [exact Hfail |].
    unfold succeed.
    match goal with
    | |- context [build_data urljoin env url response ?s0] =>
        destruct (build_data urljoin env url response s0) as [data | e] eqn:Eb
    end.
    + exists (Ok (Some data)), (set_failures 0
               (set_counter (Url.netloc url)
                  (default 0 (domain_counters s2 !! Url.netloc url) + 1) s2)),
        1%nat, [SleepDelay (_get_delay env url s); SessionGet url].
      split; [reflexivity |]. split; [simpl; rewrite <- app_assoc; reflexivity |].
      split; [reflexivity |]. split; [lia |]. split; [lia |].
      split; [reflexivity |]. split; [reflexivity |].
      split; [split; [lia | split; [reflexivity | apply (build_data_count _ _ _ _ _ Eb)]] |].
      intros Hall. specialize (Hall tr1). rewrite Ea in Hall. simpl in Hall.
      congruence.
    + exists (Raise e), (set_failures 0
               (set_counter (Url.netloc url)
                  (default 0 (domain_counters s2 !! Url.netloc url) + 1) s2)),
        1%nat, [SleepDelay (_get_delay env url s); SessionGet url].
      split; [reflexivity |]. split; [simpl; rewrite <- app_assoc; reflexivity |].
      split; [reflexivity |]. split; [lia |]. split; [lia |].
      split; [reflexivity |]. split; [reflexivity |].
      split; [split; [lia | reflexivity] |].
      intros Hall. specialize (Hall tr1). rewrite Ea in Hall. simpl in Hall.
      congruence.
Qed.

End Attempts.

(* --------------------------------------------------------------------- *)
(* One URL: scrape_url                                                   *)
(* --------------------------------------------------------------------- *)

Section ScrapeUrl.

Import World Webscraper.

Variable urljoin : string -> string -> result string.

Lemma scrape_url_blocked (env : Env) (url : string) (s : State) :
  fst (_should_scrape_url env url s) = false ->
  scrape_url urljoin env url s = (Ok None, snd (_should_scrape_url env url s)).
Proof.
  unfold scrape_url. destruct (_should_scrape_url env url s) as [go s'].
  simpl. intros ->. reflexivity.
Qed.

Lemma scrape_url_allowed (env : Env) (url : string) (s : State) :
  fst (_should_scrape_url env url s) = true ->
  scrape_url urljoin env url s
  = attempt_loop urljoin env url 0 (Z.to_nat (max_retries (config s)))
                 (snd (_should_scrape_url env url s)).
Proof.
  unfold scrape_url. pose proof (should_scrape_frame env url s) as (Hc & _).
  destruct (_should_scrape_url env url s) as [go s']. simpl in *.
  intros ->. rewrite Hc. reflexivity.
Qed.

Lemma attempts_from_zero (env : Env) (url : string) (s : State) :
  (0 < Z.to_nat (max_retries (config s)))%nat ->
  0 + Z.of_nat (Z.to_nat (max_retries (config s))) = max_retries (config s).
Proof. lia. Qed.

Lemma scrape_url_keeps_parsers (env : Env) (url : string) (s : State)
      (d : string) (p : Robots.RobotFileParser) :
  robot_parsers s !! d = Some p ->
  robot_parsers (snd (scrape_url urljoin env url s)) !! d = Some p.
Proof.
  intros Hp. pose proof (should_scrape_frame env url s) as (Hc & _ & _ & _ & Hk).
  destruct (fst (_should_scrape_url env url s)) eqn:Ego.
  - rewrite (scrape_url_allowed _ _ _ Ego).
    destruct (attempt_loop_spec urljoin env url (Z.to_nat (max_retries (config s))) 0
                (snd (_should_scrape_url env url s)))
      as (r & s' & j & new & He & _ & _ & _ & _ & _ & Hrp & _).
    { rewrite Hc. apply attempts_from_zero; assumption. }
    rewrite He. simpl. rewrite Hrp. apply Hk, Hp.
  - rewrite (scrape_url_blocked _ _ _ Ego). simpl. apply Hk, Hp.
Qed.

Lemma robots_events_add_no_fetch (s s' : State) :
  robots_only s s' ->
  fetched (trace s') = fetched (trace s) /\ backoffs (trace s') = backoffs (trace s)
  /\ retry_view (trace s') = retry_view (trace s).
Proof.
  intros (_ & _ & _ & (new & -> & Hnew) & _).
  apply robots_events_are_silent in Hnew.
  rewrite <- (fetched_retry_view (trace s ++ new)), <- (backoffs_retry_view (trace s ++ new)).
  rewrite retry_view_app, Hnew, app_nil_r, fetched_retry_view, backoffs_retry_view.
  repeat split.
Qed.

End ScrapeUrl.

Section RobotsFailure.

Import World Webscraper.

Lemma failed_fetch_stores_unread_parser (env : Env) (d : string) (s : State) :
  robots_fetch_failed (requests_get env (trace s) (robots_url_of d)) = true ->
  load_robots env d s
  = store_unread_parser d (log (RequestsGet (robots_url_of d)) s).
Proof.
  unfold load_robots.
  destruct (requests_get env (trace s) (robots_url_of d)) as [| status body];
    [reflexivity |].
  simpl. destruct (status =? 200); [discriminate | reflexivity].
Qed.

(** C1 (the code does the opposite): when robots.txt of a domain cannot be
    retrieved (no response, or a status other than 200) can_fetch stores a
    parser that was never read, and RobotFileParser.can_fetch answers False
    for such a parser: every URL of the domain is refused, scrape_url
    returns None for it without requesting the page, and the refusal lasts
    for the rest of the run. *)
Theorem failed_robots_fetch_blocks_the_domain :
  forall (env : Env) (url ua : string) (s : State),
    robot_parsers s !! robots_domain url = None ->
    robots_fetch_failed
      (requests_get env (trace s) (robots_url_of (robots_domain url))) = true ->
    exists s' : State,
      can_fetch env url ua s = (false, s')
      /\ robot_parsers s' !! robots_domain url
         = Some (Robots.new_parser (robots_url_of (robots_domain url)))
      /\ (forall urljoin : string -> string -> result string,
             respect_robots_txt (config s) = true ->
             domain_counters s !! Url.netloc url = None ->
             scrape_url urljoin env url s = (Ok None, s')
             /\ fetched (trace s') = fetched (trace s))
      /\ (forall (t : State) (env' : Env) (url' ua' : string),
             robot_parsers t !! robots_domain url
             = Some (Robots.new_parser (robots_url_of (robots_domain url))) ->
             robots_domain url' = robots_domain url ->
             can_fetch env' url' ua' t = (false, t))
      /\ (forall (urljoin : string -> string -> result string) (t : State)
                 (env' : Env) (url' : string),
             robot_parsers t !! robots_domain url
             = Some (Robots.new_parser (robots_url_of (robots_domain url))) ->
             robot_parsers (snd (scrape_url urljoin env' url' t)) !! robots_domain url
             = Some (Robots.new_parser (robots_url_of (robots_domain url)))).
Proof.
  intros env url ua s Hnone Hfail.
  set (d := robots_domain url) in *.
  set (s' := store_unread_parser d (log (RequestsGet (robots_url_of d)) s)).
  assert (Hs' : robot_parsers s' !! d = Some (Robots.new_parser (robots_url_of d))).
  { unfold s', store_unread_parser. simpl. apply lookup_insert_eq. }
  assert (Hcf : forall ua0, can_fetch env url ua0 s = (false, s')).
  { intros ua0. unfold can_fetch. fold d. rewrite Hnone.
    rewrite (failed_fetch_stores_unread_parser env d s Hfail). fold s'.
    rewrite Hs'. reflexivity. }
  exists s'. split; [apply Hcf |]. split; [exact Hs' |].
  split; [| split].
  - intros urljoin Hrespect Hquota.
    assert (Hshould : _should_scrape_url env url s = (false, s')).
    { unfold _should_scrape_url. rewrite Hquota, Hrespect, Hcf. reflexivity. }
    split.
    + rewrite scrape_url_blocked; rewrite Hshould; reflexivity.
    + pose proof (should_scrape_frame env url s) as Hframe. rewrite Hshould in Hframe.
      apply robots_events_add_no_fetch in Hframe. tauto.
  - intros t env' url' ua' Ht Hd.
    rewrite (can_fetch_cached env' url' ua' t (Robots.new_parser (robots_url_of d)));
      [reflexivity |].
    rewrite Hd. exact Ht.
  - intros urljoin t env' url' Ht. apply scrape_url_keeps_parsers. exact Ht.
Qed.

Lemma failed_robots_fetch_blocks_the_domain_witness :
  exists s' : State,
    can_fetch Samples.env_down Samples.page "TLDR-Scraper/1.0"
              (new_scraper default_config) = (false, s')
    /\ scrape_url Url.urljoin Samples.env_down Samples.page (new_scraper default_config)
       = (Ok None, s')
    /\ fetched (trace s') = [].
Proof.
  destruct (failed_robots_fetch_blocks_the_domain Samples.env_down Samples.page
              "TLDR-Scraper/1.0" (new_scraper default_config))
    as (s' & Hcf & _ & Hscrape & _).
  - reflexivity.
  - reflexivity.
  - exists s'. split; [exact Hcf |].
    destruct (Hscrape Url.urljoin) as [H1 H2]; [reflexivity | reflexivity |].
    split; [exact H1 | exact H2].
Defined.

End RobotsFailure.

Section PolicyBlock.

Import World Webscraper.

Lemma over_quota_is_refused (env : Env) (url : string) (s : State) (n : Z) :
  domain_counters s !! Url.netloc url = Some n ->
  max_pages_per_domain (config s) <= n ->
  _should_scrape_url env url s = (false, s).
Proof.
  intros Hn Hmax. unfold _should_scrape_url. rewrite Hn.
  replace (n >=? max_pages_per_domain (config s)) with true by lia. reflexivity.
Qed.

Lemma robots_disallow_is_refused (env : Env) (url : string) (s : State) :
  respect_robots_txt (config s) = true ->
  fst (can_fetch env url (user_agent (config s)) s) = false ->
  fst (_should_scrape_url env url s) = false.
Proof.
  intros Hr Hcf. unfold _should_scrape_url. rewrite Hr.
  destruct (match domain_counters s !! Url.netloc url with
            | Some n => n >=? max_pages_per_domain (config s)
            | None => false
            end); [reflexivity |].
  destruct (can_fetch env url (user_agent (config s)) s) as [allowed s'].
  simpl in Hcf. subst allowed. reflexivity.
Qed.

(** C8: a URL blocked by policy, because the page quota of its domain is
    reached or because robots.txt disallows it, makes scrape_url return
    None without requesting the page and without any retry or sleep; the
    consecutive-failure counter and the domain counters are left as they
    were (only robots.txt traffic can have been added to the history). *)
Theorem policy_blocked_url_is_skipped :
  forall (urljoin : string -> string -> result string) (env : Env) (url : string)
         (s : State),
    (exists n : Z,
        domain_counters s !! Url.netloc url = Some n
        /\ max_pages_per_domain (config s) <= n)
    \/ (respect_robots_txt (config s) = true
        /\ fst (can_fetch env url (user_agent (config s)) s) = false) ->
    exists s' : State,
      scrape_url urljoin env url s = (Ok None, s')
      /\ consecutive_failures s' = consecutive_failures s
      /\ domain_counters s' = domain_counters s
      /\ (exists new : list Event,
             trace s' = trace s ++ new /\ forallb is_robots_event new = true)
      /\ fetched (trace s') = fetched (trace s)
      /\ backoffs (trace s') = backoffs (trace s).
Proof.
  intros urljoin env url s Hblocked.
  assert (Hgo : fst (_should_scrape_url env url s) = false).
  { destruct Hblocked as [(n & Hn & Hmax) | [Hr Hcf]].
    - rewrite (over_quota_is_refused env url s n Hn Hmax). reflexivity.
    - apply robots_disallow_is_refused; assumption. }
  exists (snd (_should_scrape_url env url s)).
  split; [apply scrape_url_blocked, Hgo |].
  pose proof (should_scrape_frame env url s) as Hframe.
  pose proof (robots_events_add_no_fetch _ _ Hframe) as (Hf & Hb & _).
  destruct Hframe as (_ & Hd & Hc & Hnew & _).
  repeat split; assumption.
Qed.

Lemma policy_blocked_url_is_skipped_witness :
  (exists s' : State,
      scrape_url Url.urljoin (Samples.env_up Samples.gap_doc) Samples.page Samples.at_quota
      = (Ok None, s')
      /\ consecutive_failures s' = 0
      /\ domain_counters s' = {[ "tldr.tech"%string := 100 ]}
      /\ trace s' = [])
  /\ (exists s' : State,
         scrape_url Url.urljoin (Samples.env_closed Samples.gap_doc) Samples.page
                    (new_scraper default_config) = (Ok None, s')
         /\ consecutive_failures s' = 0
         /\ domain_counters s' = ∅
         /\ fetched (trace s') = []).
Proof.
  split.
  - destruct (policy_blocked_url_is_skipped Url.urljoin (Samples.env_up Samples.gap_doc)
                Samples.page Samples.at_quota)
      as (s' & He & Hc & Hd & (new & Ht & Hnew) & _).
    + left. exists 100. split; [vm_compute; reflexivity | vm_compute; discriminate].
    + exists s'. split; [exact He |]. split; [exact Hc |]. split; [exact Hd |].
      assert (E : scrape_url Url.urljoin (Samples.env_up Samples.gap_doc) Samples.page
                             Samples.at_quota = (Ok None, Samples.at_quota))
        by (vm_compute; reflexivity).
      rewrite E in He. injection He as <-. reflexivity.
  - destruct (policy_blocked_url_is_skipped Url.urljoin
                (Samples.env_closed Samples.gap_doc) Samples.page
                (new_scraper default_config))
      as (s' & He & Hc & Hd & _ & Hf & _).
    + right. split; vm_compute; reflexivity.
    + exists s'. split; [exact He |]. split; [exact Hc |]. split; [exact Hd |].
      exact Hf.
Defined.

End PolicyBlock.

Section PageResults.

Import World Webscraper.

(** C9: the page dictionary of a successful scrape has article_count equal
    to the number of entries of its articles list, zero when the list is
    empty. *)
Theorem article_count_is_number_of_articles :
  forall (urljoin : string -> string -> result string) (env : Env) (url : string)
         (s s' : State) (data : PageResult),
    scrape_url urljoin env url s = (Ok (Some data), s') ->
    article_count data = Z.of_nat (length (articles data))
    /\ (articles data = [] -> article_count data = 0).
Proof.
  intros urljoin env url s s' data H.
  assert (Hcount : article_count data = Z.of_nat (length (articles data))).
  { destruct (fst (_should_scrape_url env url s)) eqn:Ego.
    - rewrite (scrape_url_allowed _ _ _ _ Ego) in H.
      pose proof (should_scrape_frame env url s) as (Hc & _).
      destruct (attempt_loop_spec urljoin env url (Z.to_nat (max_retries (config s))) 0
                  (snd (_should_scrape_url env url s)))
        as (r & s1 & j & new & He & _ & _ & _ & _ & _ & _ & Hr & _).
      { rewrite Hc. apply attempts_from_zero; assumption. }
      rewrite He in H. injection H as -> ->. tauto.
    - rewrite (scrape_url_blocked _ _ _ _ Ego) in H. discriminate. }
  split; [exact Hcount |]. intros Hnil. rewrite Hcount, Hnil. reflexivity.
Qed.

Lemma article_count_is_number_of_articles_witness :
  match fst (scrape_url Url.urljoin
               (Samples.env_up (Samples.document [Samples.short_card; Samples.long_card;
                                                  Samples.rooted_card]))
               Samples.page (new_scraper default_config)) with
  | Ok (Some data) =>
      length (articles data) = 2%nat
      /\ article_count data = Z.of_nat (length (articles data))
  | _ => False
  end.
Proof.
  destruct (scrape_url Url.urljoin
              (Samples.env_up (Samples.document [Samples.short_card; Samples.long_card;
                                                 Samples.rooted_card]))
              Samples.page (new_scraper default_config))
    as [[[data |] | e] s'] eqn:E; simpl.
  - split.
    + vm_compute in E. injection E as <- _. reflexivity.
    + apply (article_count_is_number_of_articles _ _ _ _ _ _ E).
  - vm_compute in E. discriminate.
  - vm_compute in E. discriminate.
Defined.

Example no_articles_is_an_empty_list :
  (fun r => match r with Ok (Some data) => Some (articles data, article_count data)
                    | _ => None end)
    (fst (scrape_url Url.urljoin (Samples.env_up (Samples.document [Samples.short_card]))
                     Samples.page (new_scraper default_config)))
  = Some ([], 0).
Proof. vm_compute. reflexivity. Qed.

End PageResults.

Section Retry.

Import World Webscraper.






Example third_attempt_succeeds :
  (fun rs : result (option PageResult) * State =>
     (match fst rs with Ok (Some data) => Some (article_count data) | _ => None end,
      consecutive_failures (snd rs), retry_view (trace (snd rs))))
    (scrape_url Url.urljoin (Samples.env_flaky (Samples.document [Samples.rooted_card]))
                Samples.page (new_scraper (Samples.config_with false 5 5)))
  = (Some 1, 0,
     [SessionGet Samples.page; SleepBackoff 1; SessionGet Samples.page; SleepBackoff 2;
      SessionGet Samples.page]).
Proof. vm_compute. reflexivity. Qed.

End Retry.

(* --------------------------------------------------------------------- *)
(* The date range                                                        *)
(* --------------------------------------------------------------------- *)

Section DateRange.

Import World Webscraper.


Variable urljoin : string -> string -> result string.







End DateRange.

(* --------------------------------------------------------------------- *)
(* lamda_webscraper.py                                                   *)
(* --------------------------------------------------------------------- *)

Section LambdaScraper.

Import World.

Lemma lambda_load_robots_frame (env : Env) (d : string) (s : Lambda.State) :
  Lambda.robot_parsers s !! d = None ->
  Lambda.robots_only s (Lambda.load_robots env d s)
  /\ is_Some (Lambda.robot_parsers (Lambda.load_robots env d s) !! d).
Proof.
  intros Hd. unfold Lambda.load_robots.
  assert (Hgen : forall rp : Robots.RobotFileParser,
             Lambda.robots_only s
               (Lambda.set_parser d rp
                  (Lambda.log (RequestsGet (Webscraper.robots_url_of d)) s))
             /\ is_Some (Lambda.robot_parsers
                           (Lambda.set_parser d rp
                              (Lambda.log (RequestsGet (Webscraper.robots_url_of d)) s))
                         !! d)).
  { intros rp. split.
    - repeat split; try reflexivity.
      + exists [RequestsGet (Webscraper.robots_url_of d)]. split; reflexivity.
      + intros d' p Hp. simpl. rewrite lookup_insert_ne; [exact Hp | congruence].
    - simpl. rewrite lookup_insert_eq. eexists; reflexivity. }
  destruct (requests_get env (Lambda.trace s) (Webscraper.robots_url_of d))
    as [| status body]; [apply Hgen |].
  destruct (status =? 200); apply Hgen.
Qed.

Lemma lambda_should_scrape_frame (env : Env) (url : string) (s : Lambda.State) :
  Lambda.robots_only s (snd (Lambda._should_scrape_url env url s)).
Proof.
  assert (Hrefl : Lambda.robots_only s s).
  { repeat split; try reflexivity; [| auto].
    exists []. rewrite app_nil_r. split; reflexivity. }
  unfold Lambda._should_scrape_url.
  destruct (Lambda.respect_robots_txt (Lambda.config s)); [| exact Hrefl].
  unfold Lambda.can_fetch.
  destruct (Lambda.robot_parsers s !! Webscraper.robots_domain url) as [rp |] eqn:E.
  - rewrite E. destruct (Robots.can_fetch rp _ url); exact Hrefl.
  - destruct (lambda_load_robots_frame env _ _ E) as [Hf [rp Hrp]].
    rewrite Hrp. destruct (Robots.can_fetch rp _ url); exact Hf.
Qed.

(* the sibling of the robots check of webscraper.py: same except branch,
   same refusal *)
Lemma lambda_failed_robots_fetch_blocks (env : Env) (url ua : string) (s : Lambda.State) :
  Lambda.robot_parsers s !! Webscraper.robots_domain url = None ->
  robots_fetch_failed
    (requests_get env (Lambda.trace s)
                  (Webscraper.robots_url_of (Webscraper.robots_domain url))) = true ->
  fst (Lambda.can_fetch env url ua s) = false
  /\ Lambda.robot_parsers (snd (Lambda.can_fetch env url ua s))
       !! Webscraper.robots_domain url
     = Some (Robots.new_parser (Webscraper.robots_url_of (Webscraper.robots_domain url))).
Proof.
  intros Hnone Hfail. unfold Lambda.can_fetch. rewrite Hnone.
  assert (Hl : Lambda.load_robots env (Webscraper.robots_domain url) s
               = Lambda.set_parser (Webscraper.robots_domain url)
                   (Robots.new_parser
                      (Webscraper.robots_url_of (Webscraper.robots_domain url)))
                   (Lambda.log (RequestsGet
                                  (Webscraper.robots_url_of
                                     (Webscraper.robots_domain url))) s)).
  { unfold Lambda.load_robots.
    destruct (requests_get env (Lambda.trace s)
                (Webscraper.robots_url_of (Webscraper.robots_domain url)))
      as [| status body]; [reflexivity |].
    simpl in Hfail. destruct (status =? 200); [discriminate | reflexivity]. }
  rewrite Hl. simpl. rewrite lookup_insert_eq. simpl.
  split; [reflexivity | apply lookup_insert_eq].
Qed.

Variable urljoin : string -> string -> result string.

(* a URL that robots.txt disallows: None, no page request, counter kept *)
Lemma lambda_blocked_url_is_skipped (env : Env) (url : string) (s : Lambda.State) :
  fst (Lambda._should_scrape_url env url s) = false ->
  exists s' : Lambda.State,
    Lambda.scrape_url urljoin env url s = (None, s')
    /\ Lambda.consecutive_failures s' = Lambda.consecutive_failures s
    /\ fetched (Lambda.trace s') = fetched (Lambda.trace s).
Proof.
  intros Hgo. pose proof (lambda_should_scrape_frame env url s) as Hframe.
  unfold Lambda.scrape_url.
  destruct (Lambda._should_scrape_url env url s) as [go s']. simpl in *. subst go.
  exists s'. split; [reflexivity |].
  destruct Hframe as (_ & Hc & (new & Ht & Hnew) & _). split; [exact Hc |].
  rewrite Ht, fetched_app, <- (fetched_retry_view new),
    (robots_events_are_silent new Hnew), app_nil_r.
  reflexivity.
Qed.

Lemma lambda_attempt_loop_count (env : Env) (url : string) (n : nat) :
  forall (a : Z) (s s' : Lambda.State) (data : Lambda.PageResult),
    Lambda.attempt_loop urljoin env url a n s = (Some data, s') ->
    Lambda.article_count data = Z.of_nat (length (Lambda.articles data))
    /\ Lambda.consecutive_failures s' = 0.
Proof.
  induction n as [| n IH]; intros a s s' data; simpl; [discriminate |].
  match goal with
  | |- context [session_get env ?t url] => destruct (session_get env t url) as [| response]
  end; [apply IH |].
  destruct (raises_for_status response); [apply IH |].
  intros [= <- <-]. split; reflexivity.
Qed.

Lemma lambda_article_count (env : Env) (url : string) (s s' : Lambda.State)
      (data : Lambda.PageResult) :
  Lambda.scrape_url urljoin env url s = (Some data, s') ->
  Lambda.article_count data = Z.of_nat (length (Lambda.articles data)).
Proof.
  unfold Lambda.scrape_url.
  destruct (Lambda._should_scrape_url env url s) as [go s1].
  destruct go; simpl; [| discriminate].
  intros H. apply lambda_attempt_loop_count in H. tauto.
Qed.

End LambdaScraper.

Example lambda_unread_parser_refuses :
  fst (Lambda.can_fetch Samples.env_down Samples.page "TLDR-Scraper/1.0"
                        (Lambda.new_scraper (Samples.lambda_config true 3))) = false
  /\ (fun rs : option Lambda.PageResult * Lambda.State =>
        (match fst rs with Some _ => true | None => false end,
         Lambda.consecutive_failures (snd rs), World.fetched (Lambda.trace (snd rs))))
       (Lambda.scrape_url Url.urljoin Samples.env_down Samples.page
                          (Lambda.new_scraper (Samples.lambda_config true 3)))
     = (false, 0, []).
Proof. split; vm_compute; reflexivity. Qed.

(* lambda_handler has no circuit breaker: with every date failing it
   requests all six dates and returns a failed entry for each *)
Example lambda_handler_visits_every_date :
  Lambda.generate_date_range "2025-01-06" "2025-01-11"
  = Ok ["2025-01-06"; "2025-01-07"; "2025-01-08"; "2025-01-09"; "2025-01-10";
        "2025-01-11"]%string
  /\ (fun rs : (list Lambda.ResultEntry * option exn) * Lambda.State =>
        (map (fun e => (Lambda.entry_date e, Lambda.entry_status e)) (fst (fst rs)),
         snd (fst rs), Lambda.consecutive_failures (snd rs),
         length (World.fetched (Lambda.trace (snd rs)))))
       (Lambda.lambda_handler Url.urljoin Samples.env_down
          [("https://tldr.tech/tech/{YYYY-MM-DD}", "tech")]%string
          ["2025-01-06"; "2025-01-07"; "2025-01-08"; "2025-01-09"; "2025-01-10";
           "2025-01-11"]%string []
          (Lambda.new_scraper (Samples.lambda_config false 1)))
     = ([("2025-01-06", Lambda.failed); ("2025-01-07", Lambda.failed);
         ("2025-01-08", Lambda.failed); ("2025-01-09", Lambda.failed);
         ("2025-01-10", Lambda.failed); ("2025-01-11", Lambda.failed)]%string,
        None, 6, 6%nat).
Proof. split; vm_compute; reflexivity. Qed.

Example lambda_backoff_sleeps :
  World.backoffs
    (Lambda.trace (snd (Lambda.scrape_url Url.urljoin Samples.env_down Samples.page
                          (Lambda.new_scraper (Samples.lambda_config false 5)))))
  = [1; 2; 4; 8].
Proof. vm_compute. reflexivity. Qed.

(* --------------------------------------------------------------------- *)
(* Further properties of the specification                               *)
(* --------------------------------------------------------------------- *)

Section Further.

Import World Webscraper.



Lemma date_range_loop_days (end_date : Z) (w : bool) (fuel : nat) :
  forall current : Z,
    Z.of_nat fuel = Z.max 0 (end_date - current + 1) ->
    Dates.date_range_loop fuel current end_date w
    = List.filter (fun d => negb (w && (Dates.weekday d >=? 5)))
                  (map (fun i => current + Z.of_nat i) (seq 0 fuel)).
Proof.
  induction fuel as [| fuel IH]; intros current Hfuel; [reflexivity |].
  simpl. replace (current <=? end_date) with true by lia.
  rewrite Z.add_0_r, <- seq_shift, map_map.
  rewrite (IH (current + 1)) by lia.
  assert (Hmap : map (fun i => current + 1 + Z.of_nat i) (seq 0 fuel)
                 = map (fun i => current + Z.of_nat (S i)) (seq 0 fuel)).
  { apply map_ext. intros i. lia. }
  rewrite Hmap. destruct (w && (Dates.weekday current >=? 5)); reflexivity.
Qed.

(** X2: generate_date_range gives every calendar day from the start to the end,
    both included, in ascending order, and leaves out Saturdays and
    Sundays when skip_weekends is set. *)
Theorem date_range_is_every_day_in_order :
  forall (start_date end_date : Z) (skip_weekends : bool),
    Dates.generate_date_range start_date end_date skip_weekends
    = List.filter (fun d => negb (skip_weekends && (Dates.weekday d >=? 5)))
        (map (fun i => start_date + Z.of_nat i)
             (seq 0 (Z.to_nat (end_date - start_date + 1)))).
Proof.
  intros a b w. unfold Dates.generate_date_range. apply date_range_loop_days. lia.
Qed.

End Further.

(* ===================================================================== *)
(* Properties of the other functions                                     *)
(* ===================================================================== *)

(* --------------------------------------------------------------------- *)
(* Stripped text                                                         *)
(* --------------------------------------------------------------------- *)

Section Stripping.

Lemma lstrip_length (s : string) :
  (String.length (PyStr.lstrip s) <= String.length s)%nat.
Proof.
  induction s as [| c r IH]; simpl; [lia |].
  destruct (PyStr.isspace c); simpl; lia.
Qed.

Lemma lstrip_fixed_head (c : ascii) (r : string) :
  PyStr.lstrip (String c r) = String c r -> PyStr.isspace c = false.
Proof.
  simpl. destruct (PyStr.isspace c); [| reflexivity].
  intros H. pose proof (lstrip_length r) as Hl. rewrite H in Hl. simpl in Hl. lia.
Qed.

Lemma lstrip_idempotent (s : string) : PyStr.lstrip (PyStr.lstrip s) = PyStr.lstrip s.
Proof.
  induction s as [| c r IH]; [reflexivity |]. simpl.
  destruct (PyStr.isspace c) eqn:E; [exact IH |]. simpl. rewrite E. reflexivity.
Qed.

Lemma rstrip_idempotent (s : string) : PyStr.rstrip (PyStr.rstrip s) = PyStr.rstrip s.
Proof.
  induction s as [| c r IH]; [reflexivity |]. simpl.
  destruct (PyStr.rstrip r) as [| x y] eqn:E.
  - destruct (PyStr.isspace c) eqn:Ec; [reflexivity |]. simpl. rewrite Ec. reflexivity.
  - change (PyStr.rstrip (String c (String x y)))
      with (match PyStr.rstrip (String x y) with
            | EmptyString => if PyStr.isspace c then EmptyString else String c EmptyString
            | r' => String c r'
            end).
    rewrite IH. reflexivity.
Qed.

Lemma rstrip_keeps_head (t : string) :
  PyStr.lstrip t = t -> PyStr.lstrip (PyStr.rstrip t) = PyStr.rstrip t.
Proof.
  destruct t as [| c r]; [reflexivity |]. intros H.
  apply lstrip_fixed_head in H. simpl.
  destruct (PyStr.rstrip r); [rewrite H |]; simpl; rewrite H; reflexivity.
Qed.

Lemma strip_idempotent (s : string) : PyStr.strip (PyStr.strip s) = PyStr.strip s.
Proof.
  unfold PyStr.strip.
  rewrite (rstrip_keeps_head (PyStr.lstrip s) (lstrip_idempotent s)).
  apply rstrip_idempotent.
Qed.

End Stripping.

(* --------------------------------------------------------------------- *)
(* What the records of a page hold                                       *)
(* --------------------------------------------------------------------- *)

Section RecordContents.

Import Soup Extract.

Variable urljoin : string -> string -> result string.

Lemma first_long_text_is_stripped (n : Z) (tags : list Node) (t : string) :
  0 <= n -> first_long_text n tags = Some t -> n < len t /\ PyStr.strip t = t.
Proof.
  intros Hn H. apply first_long_text_some in H; [| exact Hn].
  destruct H as (pre & h & post & _ & <- & Hlen & _).
  split; [exact Hlen | apply strip_idempotent].
Qed.

Lemma parse_container_texts (c : Node) (page : string) (idx : Z) (a : Article) :
  _parse_article_container urljoin c page idx = Ok (Some a) ->
  description a = extract_description c
  /\ reading_time a = extract_reading_time c
  /\ body a = PyStr.join " " (body_parts c)
  /\ (date a, category a) = extract_date c.
Proof.
  unfold _parse_article_container.
  destruct (extract_title c) as [t |]; [| discriminate].
  destruct (extract_link urljoin page c) as [l | e]; simpl; [| discriminate].
  destruct (extract_image urljoin page c) as [i | e]; simpl; [| discriminate].
  destruct (extract_date c) as [d g].
  intros [= <-]. simpl. repeat split; reflexivity.
Qed.

Lemma parse_loop_forall (P : Article -> Prop) (page : string) (cs : list Node) :
  (forall c i a, _parse_article_container urljoin c page i = Ok (Some a) -> P a) ->
  forall i : Z, Forall P (parse_loop (_parse_article_container urljoin) page i cs).
Proof.
  intros HP. induction cs as [| c rest IH]; intros i; simpl; [constructor |].
  destruct (_parse_article_container urljoin c page i) as [[a |] | e] eqn:E; try apply IH.
  destruct (PyStr.truthy (title a)); [| apply IH].
  constructor; [eapply HP; exact E | apply IH].
Qed.

(** X4: Every record of a page has a title of more than 10 characters without
    leading or trailing white space, and its description, when it has one,
    has more than 20 characters and is stripped too. *)
Theorem record_texts_are_stripped_and_long :
  forall (soup : Node) (page : string),
    Forall (fun a =>
              10 < len (title a) /\ PyStr.strip (title a) = title a
              /\ match description a with
                 | Some d => 20 < len d /\ PyStr.strip d = d
                 | None => True
                 end)
           (_extract_articles urljoin soup page).
Proof.
  intros soup page. apply parse_loop_forall. intros c i a H.
  pose proof (parse_container_fields _ _ _ _ _ H) as (Ht & _).
  pose proof (parse_container_texts _ _ _ _ H) as (Hd & _).
  unfold extract_title in Ht.
  destruct (first_long_text_is_stripped 10 _ _ ltac:(lia) Ht) as [H1 H2].
  split; [exact H1 |]. split; [exact H2 |].
  rewrite Hd. unfold extract_description.
  destruct (first_long_text 20 (find_all_class _ _ c)) as [d |] eqn:E1.
  - apply (first_long_text_is_stripped 20 _ _ ltac:(lia) E1).
  - destruct (first_long_text 20 (find_all ["p"%string] c)) as [d |] eqn:E2; [| exact I].
    apply (first_long_text_is_stripped 20 _ _ ltac:(lia) E2).
Qed.

Lemma span_digits_all_digits (s : string) :
  Checks.all_digits (fst (span_digits s)) = true.
Proof.
  induction s as [| c r IH]; [reflexivity |]. simpl.
  destruct (isdigit c) eqn:E; [| reflexivity].
  destruct (span_digits r) as [ds rest]. simpl in *. rewrite E, IH. reflexivity.
Qed.

Lemma match_reading_time_digits (s g : string) :
  match_reading_time s = Some g -> g <> EmptyString /\ Checks.all_digits g = true.
Proof.
  unfold match_reading_time, mbind, option_bind.
  pose proof (span_digits_all_digits s) as Hd.
  destruct (span_digits s) as [ds rest]. simpl in Hd.
  destruct ds as [| c ds']; [discriminate |].
  change (PyStr.truthy (String c ds')) with true. cbv iota.
  destruct (match_ci "minute" (PyStr.lstrip rest)) as [r |]; [| discriminate].
  destruct (match_ci "read" (PyStr.lstrip r)); [| discriminate].
  intros [= <-]. split; [discriminate | exact Hd].
Qed.

Lemma search_reading_time_digits (s g : string) :
  search_reading_time s = Some g -> g <> EmptyString /\ Checks.all_digits g = true.
Proof.
  induction s as [| c r IH]; [discriminate |].
  cbn [search_reading_time].
  destruct (match_reading_time (String c r)) eqn:E; [| exact IH].
  intros [= <-]. apply (match_reading_time_digits _ _ E).
Qed.

(** X5: The reading time of a record is not the phrase as the page writes it:
    it is always the digits found, followed by " minute read" in lower case
    with single spaces. *)
Theorem reading_time_is_normalised :
  forall (soup : Node) (page : string),
    Forall (fun a =>
              match reading_time a with
              | Some r =>
                  exists ds : string,
                    r = ds +:+ " minute read" /\ ds <> EmptyString
                    /\ Checks.all_digits ds = true
              | None => True
              end)
           (_extract_articles urljoin soup page).
Proof.
  intros soup page. apply parse_loop_forall. intros c i a H.
  pose proof (parse_container_texts _ _ _ _ H) as (_ & Hr & _).
  rewrite Hr. unfold extract_reading_time.
  destruct (search_reading_time (get_text c)) as [g |] eqn:E; simpl; [| exact I].
  exists g. split; [reflexivity | apply (search_reading_time_digits _ _ E)].
Qed.

End RecordContents.

Example reading_time_sample :
  Extract.extract_reading_time
    (Soup.Tag "div" [] [Soup.NavigableString "A 12   MINUTE
 Read about maps"])
  = Some "12 minute read"%string.
Proof. vm_compute. reflexivity. Qed.

(* --------------------------------------------------------------------- *)
(* Candidates                                                            *)
(* --------------------------------------------------------------------- *)

Section Candidates.

Import Soup Extract.

Lemma named_div_or_article (names : list string) (c : Node) :
  is_named names c = true ->
  (forall nm, In nm names -> nm = "div"%string \/ nm = "article"%string) ->
  name_of c = Some "div"%string \/ name_of c = Some "article"%string.
Proof.
  unfold is_named. destruct (name_of c) as [nm |]; [| discriminate].
  intros H Hnames. apply existsb_exists in H. destruct H as (x & Hin & Heq).
  apply String.eqb_eq in Heq. subst x.
  destruct (Hnames nm Hin) as [-> | ->]; [left | right]; reflexivity.
Qed.

Lemma candidates_are_div_or_article (soup c : Node) :
  c ∈ article_containers soup ->
  name_of c = Some "div"%string \/ name_of c = Some "article"%string.
Proof.
  unfold article_containers, find_all_class, find_all.
  rewrite !elem_of_app, !list_elem_of_In, !filter_In.
  intros [[_ H] | [[_ H] | [_ H]]].
  - apply andb_true_iff in H. destruct H as [H _].
    apply (named_div_or_article _ _ H). intros nm [<- | []]. left; reflexivity.
  - apply (named_div_or_article _ _ H). intros nm [<- | []]. right; reflexivity.
  - apply andb_true_iff in H. destruct H as [H _].
    apply (named_div_or_article _ _ H). intros nm [<- | []]. left; reflexivity.
Qed.

Lemma parse_loop_length (parse : Node -> string -> Z -> result (option Article))
      (page : string) (cs : list Node) :
  forall i : Z, (length (parse_loop parse page i cs) <= length cs)%nat.
Proof.
  induction cs as [| c rest IH]; intros i; simpl; [lia |].
  specialize (IH (i + 1)).
  destruct (parse c page i) as [[a |] | e]; try lia.
  destruct (PyStr.truthy (title a)); simpl; lia.
Qed.

Lemma parse_loop_untitled (urljoin : string -> string -> result string)
      (page : string) (cs : list Node) :
  Forall (fun c => extract_title c = None) cs ->
  forall i : Z, parse_loop (_parse_article_container urljoin) page i cs = [].
Proof.
  induction 1 as [| c rest Hc Hrest IH]; intros i; simpl; [reflexivity |].
  rewrite (parse_container_untitled urljoin c page i Hc). apply IH.
Qed.

(** X6: Only div and article elements become article containers; the records
    of a page are never more than its deduplicated containers, which are
    never more than the candidates found, and a page none of whose
    containers has a qualifying heading (in particular a page without any
    candidate) gives the empty list. *)
Theorem articles_come_from_div_and_article_containers :
  forall (urljoin : string -> string -> result string) (soup : Node) (page : string),
    (forall c : Node,
        c ∈ unique_containers soup ->
        c ∈ article_containers soup
        /\ (name_of c = Some "div"%string \/ name_of c = Some "article"%string))
    /\ (length (_extract_articles urljoin soup page)
        <= length (unique_containers soup) <= length (article_containers soup))%nat
    /\ (Forall (fun c => extract_title c = None) (unique_containers soup) ->
        _extract_articles urljoin soup page = [])
    /\ (article_containers soup = [] -> _extract_articles urljoin soup page = []).
Proof.
  intros urljoin soup page.
  assert (Hsub : sublist (unique_containers soup) (article_containers soup))
    by apply dedup_loop_sublist.
  split; [| split; [| split]].
  - intros c Hc. assert (Hc' : c ∈ article_containers soup).
    { eapply sublist_submseteq in Hsub. eapply elem_of_submseteq; eassumption. }
    split; [exact Hc' | apply (candidates_are_div_or_article _ _ Hc')].
  - split; [apply parse_loop_length | apply sublist_length, Hsub].
  - intros H. apply parse_loop_untitled, H.
  - intros H. unfold _extract_articles, unique_containers. rewrite H. reflexivity.
Qed.

Lemma dedup_loop_distinct_is_id (l : list Node) :
  forall seen : gset string,
    NoDup (fingerprint <$> l) ->
    (forall c, c ∈ l -> fingerprint c ∉ seen) ->
    dedup_loop l seen [] = l.
Proof.
  induction l as [| c rest IH]; intros seen Hnd Hfresh; [reflexivity |].
  simpl. rewrite fmap_cons in Hnd. apply NoDup_cons in Hnd. destruct Hnd as [Hc Hnd].
  destruct (decide (fingerprint c ∈ seen)) as [Hin | Hout].
  - exfalso. apply (Hfresh c); [left | exact Hin].
  - rewrite dedup_loop_acc. simpl. f_equal. apply IH; [exact Hnd |].
    intros c' Hc' Hin. apply elem_of_union in Hin. destruct Hin as [Hin | Hin].
    + apply elem_of_singleton in Hin. apply Hc. rewrite <- Hin.
      apply list_elem_of_fmap. exists c'. split; [reflexivity | exact Hc'].
    + apply (Hfresh c'); [right; exact Hc' | exact Hin].
Qed.

(** X7: Deduplication is idempotent: deduplicating the deduplicated containers
    again changes nothing, and a list whose fingerprints are all different
    is returned as it is. *)
Theorem dedup_is_idempotent :
  forall cs : list Node,
    dedup_loop (dedup_loop cs ∅ []) ∅ [] = dedup_loop cs ∅ []
    /\ (NoDup (fingerprint <$> cs) -> dedup_loop cs ∅ [] = cs).
Proof.
  intros cs. split.
  - apply dedup_loop_distinct_is_id; [apply dedup_loop_nodup |].
    intros c _. apply not_elem_of_empty.
  - intros H. apply dedup_loop_distinct_is_id; [exact H |].
    intros c _. apply not_elem_of_empty.
Qed.

End Candidates.
(* --------------------------------------------------------------------- *)
(* The page: content and links                                           *)
(* --------------------------------------------------------------------- *)

Section PageFields.

Import Soup.

Variable urljoin : string -> string -> result string.

Lemma Node_induction (P : Node -> Prop) :
  (forall s, P (NavigableString s)) ->
  (forall cls s, P (SubclassString cls s)) ->
  (forall nm attrs cs, Forall P cs -> P (Tag nm attrs cs)) ->
  forall n, P n.
Proof.
  intros Hs Hc Ht. fix IH 1.
  intros [s | cls s | nm attrs cs]; [apply Hs | apply Hc | apply Ht].
  induction cs as [| c rest IHcs]; constructor; [apply IH | exact IHcs].
Qed.

Lemma descendants_child (nm : string) (attrs : list (string * string))
      (cs : list Node) (c d : Node) :
  In c cs -> (d = c \/ In d (descendants c)) -> In d (descendants (Tag nm attrs cs)).
Proof.
  intros Hc Hd. simpl. apply in_flat_map. exists c. split; [exact Hc |].
  destruct Hd as [-> | Hd]; [left; reflexivity | right; exact Hd].
Qed.

Lemma descendants_trans :
  forall n c d : Node,
    In c (descendants n) -> In d (descendants c) -> In d (descendants n).
Proof.
  induction n as [s | cls s | nm attrs cs IH] using Node_induction; intros c d Hc Hd.
  - destruct Hc.
  - destruct Hc.
  - simpl in Hc. apply in_flat_map in Hc. destruct Hc as (c0 & Hc0 & Hc).
    apply (descendants_child nm attrs cs c0 d Hc0). right.
    destruct Hc as [<- | Hc]; [exact Hd |].
    rewrite Forall_forall in IH. apply (IH c0 (proj2 (list_elem_of_In _ _) Hc0) c d Hc Hd).
Qed.

Lemma decompose_keeps_name (names : list string) (n : Node) :
  name_of (decompose names n) = name_of n.
Proof. destruct n; reflexivity. Qed.

(* nothing named in [names] is left below the root *)
Lemma decompose_removes (names : list string) :
  forall n d : Node,
    In d (descendants (decompose names n)) -> is_named names d = false.
Proof.
  induction n as [s | cls s | nm attrs cs IH] using Node_induction; intros d.
  - simpl. intros [].
  - simpl. intros [].
  - simpl. induction IH as [| c rest Hc Hrest IHrest]; simpl.
    + intros [].
    + destruct (is_named names c) eqn:E; [exact IHrest |].
      simpl. rewrite in_app_iff. intros [<- | [H | H]].
      * unfold is_named in *. rewrite decompose_keeps_name. exact E.
      * apply Hc, H.
      * apply IHrest, H.
Qed.

(* below an element free of the names, no text node has a parent of that name *)
Lemma strings_under_clean (names : list string) :
  forall (n : Node) (parent : string),
    (forall d, In d (descendants n) -> is_named names d = false) ->
    is_named names n = false ->
    existsb (String.eqb parent) names = false ->
    Forall (fun pt : string * string => existsb (String.eqb (fst pt)) names = false)
           (strings_under parent n).
Proof.
  induction n as [s | cls s | nm attrs cs IH] using Node_induction;
    intros parent Hclean Hn Hp.
  - simpl. constructor; [exact Hp | constructor].
  - simpl. constructor; [exact Hp | constructor].
  - simpl. apply List.Forall_forall. intros pt Hpt.
    apply in_flat_map in Hpt. destruct Hpt as (c & Hc & Hpt).
    rewrite Forall_forall in IH.
    assert (Hok : Forall (fun pt : string * string =>
                            existsb (String.eqb (fst pt)) names = false)
                         (strings_under nm c)).
    { apply (IH c (proj2 (list_elem_of_In _ _) Hc)).
      - intros d Hd. apply Hclean. apply (descendants_child nm attrs cs c d Hc).
        right. exact Hd.
      - apply Hclean. apply (descendants_child nm attrs cs c c Hc). left. reflexivity.
      - exact Hn. }
    rewrite List.Forall_forall in Hok. apply Hok, Hpt.
Qed.

Lemma text_nodes_clean (names : list string) (n : Node) :
  (forall d, In d (descendants n) -> is_named names d = false) ->
  is_named names n = false ->
  Forall (fun pt : string * string => existsb (String.eqb (fst pt)) names = false)
         (text_nodes n).
Proof.
  intros Hclean Hn. destruct n as [s | cls s | nm attrs cs]; [constructor | constructor |].
  apply (strings_under_clean names (Tag nm attrs cs) nm Hclean Hn). exact Hn.
Qed.

Lemma head_filter_In {A : Type} (p : A -> bool) (l : list A) (x : A) :
  head (List.filter p l) = Some x -> In x l /\ p x = true.
Proof.
  intros H. apply filter_In. destruct (List.filter p l); [discriminate |].
  injection H as ->. left. reflexivity.
Qed.

Lemma first_selected_In (selectors : list (Node -> bool)) (soup c : Node) :
  Webscraper.first_selected selectors soup = Some c -> In c (descendants soup).
Proof.
  induction selectors as [| sel rest IH]; simpl; [discriminate |].
  destruct (Webscraper.select_one sel soup) as [c' |] eqn:E; [| exact IH].
  intros [= ->]. apply head_filter_In in E. apply E.
Qed.

(* the element whose text is the content of the page *)
Lemma content_element (soup : Node) :
  exists c : Node,
    (c = soup \/ In c (descendants soup))
    /\ Webscraper._extract_content soup = get_text_stripped c.
Proof.
  unfold Webscraper._extract_content.
  destruct (Webscraper.first_selected Webscraper.content_selectors soup) as [c |] eqn:E.
  - exists c. split; [right; apply (first_selected_In _ _ _ E) | reflexivity].
  - destruct (find ["body"%string] soup) as [b |] eqn:Eb.
    + exists b. split; [right | reflexivity].
      apply head_filter_In in Eb. apply Eb.
    + exists soup. split; [left; reflexivity | reflexivity].
Qed.

(* the tags of the document that a selector matches, in document order *)
Lemma select_one_head (selector : Node -> bool) (soup : Node) :
  Webscraper.select_one selector soup
  = head (List.filter (fun n => bool_decide (is_Some (name_of n)) && selector n)
                      (descendants soup)).
Proof. reflexivity. Qed.

(* the selectors are tried in their order; the first that matches a tag
   gives the first tag it matches *)
Lemma first_selected_spec (soup : Node) (selectors : list (Node -> bool)) :
  (forall (pre : list (Node -> bool)) (sel : Node -> bool) (post : list (Node -> bool))
          (c : Node) (rest : list Node),
      selectors = pre ++ sel :: post ->
      Forall (fun s => Webscraper.select_one s soup = None) pre ->
      Webscraper.select_one sel soup = Some c ->
      Webscraper.first_selected selectors soup = Some c)
  /\ (Forall (fun s => Webscraper.select_one s soup = None) selectors ->
      Webscraper.first_selected selectors soup = None).
Proof.
  split.
  - intros pre. revert selectors.
    induction pre as [| s0 pre IH]; intros selectors sel post c rest -> Hpre Hsel.
    + simpl. rewrite Hsel. reflexivity.
    + inversion Hpre as [| ? ? H0 Hpre']; subst. simpl. rewrite H0.
      apply (IH _ sel post c rest eq_refl Hpre' Hsel).
  - induction 1 as [| s0 rest H0 _ IH]; [reflexivity |]. simpl. rewrite H0. exact IH.
Qed.

(** X8: The content of a page is taken from the document from which the
    script and style elements were removed: it is the stripped text of the
    first tag, in document order, matched by the first of the selectors
    main, article, .content, #content, .post-content, .entry-content,
    .article-body that matches a tag at all; when none matches, of the
    first body element; when there is no body, of the whole document.  No
    descendant of that element is a script or a style element and no
    string below it has one as parent. *)
Theorem page_content_has_no_script_or_style_text :
  forall soup : Node,
    is_named ["script"; "style"]%string soup = false ->
    let clean := decompose ["script"; "style"]%string soup in
    let selectors : list (Node -> bool) :=
      [ is_named ["main"%string]; is_named ["article"%string];
        Webscraper.has_class "content"; Webscraper.has_id "content";
        Webscraper.has_class "post-content"; Webscraper.has_class "entry-content";
        Webscraper.has_class "article-body" ] in
    let matched (sel : Node -> bool) : list Node :=
      List.filter (fun n => bool_decide (is_Some (name_of n)) && sel n)
                  (descendants clean) in
    (forall (pre : list (Node -> bool)) (sel : Node -> bool) (post : list (Node -> bool))
            (c : Node) (rest : list Node),
        selectors = pre ++ sel :: post ->
        Forall (fun s => matched s = []) pre ->
        matched sel = c :: rest ->
        Webscraper._extract_content clean = get_text_stripped c)
    /\ (Forall (fun s => matched s = []) selectors ->
        (forall (b : Node) (rest : list Node),
            find_all ["body"%string] clean = b :: rest ->
            Webscraper._extract_content clean = get_text_stripped b)
        /\ (find_all ["body"%string] clean = [] ->
            Webscraper._extract_content clean = get_text_stripped clean))
    /\ exists c : Node,
        (c = clean \/ In c (descendants clean))
        /\ Webscraper._extract_content clean = get_text_stripped c
        /\ Forall (fun d => is_named ["script"; "style"]%string d = false)
                  (descendants c)
        /\ Forall (fun pt : string * string =>
                     existsb (String.eqb (fst pt)) ["script"; "style"]%string = false)
                  (text_nodes c).
Proof.
  intros soup Hroot clean selectors matched.
  assert (Hnone : forall l : list (Node -> bool),
             Forall (fun s => matched s = []) l ->
             Forall (fun s => Webscraper.select_one s clean = None) l).
  { intros l Hl. eapply Forall_impl; [exact Hl |]. intros s Hs. simpl.
    rewrite select_one_head.
    fold (matched s). rewrite Hs. reflexivity. }
  destruct (first_selected_spec clean selectors) as [Hfirst Hlast].
  split; [| split].
  - intros pre sel post c rest Hsplit Hpre Hsel.
    unfold Webscraper._extract_content.
    change Webscraper.content_selectors with selectors.
    rewrite (Hfirst pre sel post c rest Hsplit (Hnone _ Hpre)); [reflexivity |].
    rewrite select_one_head. fold (matched sel). rewrite Hsel. reflexivity.
  - intros Hall. unfold Webscraper._extract_content.
    change Webscraper.content_selectors with selectors.
    rewrite (Hlast (Hnone _ Hall)). unfold find. split.
    + intros b rest ->. reflexivity.
    + intros ->. reflexivity.
  - destruct (content_element clean) as (c & Hc & Hcontent).
    assert (Hdesc : forall d, In d (descendants c) ->
                              is_named ["script"; "style"]%string d = false).
    { intros d Hd. destruct Hc as [-> | Hc].
      - apply (decompose_removes _ _ _ Hd).
      - apply (decompose_removes _ soup). apply (descendants_trans _ c d Hc Hd). }
    exists c. split; [exact Hc |]. split; [exact Hcontent |].
    split; [apply List.Forall_forall; exact Hdesc |].
    apply text_nodes_clean; [exact Hdesc |].
    destruct Hc as [-> | Hc].
    + unfold clean, is_named in *. rewrite decompose_keeps_name. exact Hroot.
    + apply (decompose_removes _ _ _ Hc).
Qed.

Lemma page_content_has_no_script_or_style_text_witness :
  Webscraper._extract_content (decompose ["script"; "style"]%string Samples.selectors_doc)
  = "in main"%string
  /\ Webscraper._extract_content (decompose ["script"; "style"]%string Samples.script_doc)
     = "Read this now"%string.
Proof.
  split.
  - destruct (page_content_has_no_script_or_style_text Samples.selectors_doc eq_refl)
      as (H & _ & _).
    rewrite (H [] (is_named ["main"%string])
               [ is_named ["article"%string];
                 Webscraper.has_class "content"; Webscraper.has_id "content";
                 Webscraper.has_class "post-content"; Webscraper.has_class "entry-content";
                 Webscraper.has_class "article-body" ]
               (Tag "main" [("class", "content")]%string
                    [Tag "p" [] [NavigableString "in main"]]) []);
      [reflexivity | reflexivity | constructor | vm_compute; reflexivity].
  - destruct (page_content_has_no_script_or_style_text Samples.script_doc eq_refl)
      as (_ & H & _).
    destruct H as [H _].
    + repeat (constructor; [vm_compute; reflexivity |]). constructor.
    + erewrite H; [| vm_compute; reflexivity]. vm_compute. reflexivity.
Defined.

Example script_text_is_dropped :
  Webscraper._extract_content Samples.script_doc = "Read this now"%string
  /\ get_text_stripped (Tag "script" [] [SubclassString Script "var x = 1;"])
     = "var x = 1;"%string
  /\ Webscraper._extract_content (decompose ["script"; "style"]%string Samples.script_doc)
     = "Read this now"%string.
Proof. split; [| split]; vm_compute; reflexivity. Qed.

Example first_selector_wins_over_document_order :
  Webscraper._extract_content Samples.selectors_doc = "in main"%string
  /\ Webscraper._extract_content Samples.class_before_id_doc = "by class"%string.
Proof. split; vm_compute; reflexivity. Qed.

Lemma join_links_spec (base_url : string) :
  forall hrefs : list string,
    match Webscraper.join_links urljoin base_url hrefs with
    | Ok ls => Forall2 (fun href l => urljoin base_url href = Ok l) hrefs ls
    | Raise e =>
        exists (before : list string) (href : string) (after : list string),
          hrefs = before ++ href :: after
          /\ Forall (fun h => exists l, urljoin base_url h = Ok l) before
          /\ urljoin base_url href = Raise e
    end.
Proof.
  induction hrefs as [| href rest IH]; simpl; [constructor |].
  destruct (urljoin base_url href) as [l | e] eqn:E; simpl.
  - destruct (Webscraper.join_links urljoin base_url rest) as [ls | e]; simpl.
    + constructor; assumption.
    + destruct IH as (before & h & after & -> & Hb & Hh).
      exists (href :: before), h, after. split; [reflexivity |].
      split; [constructor; [exists l; exact E | exact Hb] | exact Hh].
  - exists [], href, rest. split; [reflexivity |]. split; [constructor | exact E].
Qed.

(** X9: The links of a page are the hrefs of its anchors, each resolved against
    the page URL, in document order and with nothing left out; when one
    href cannot be resolved the whole extraction raises the error of the
    first such href and gives no list. *)
Theorem links_are_all_hrefs_resolved_or_an_error :
  forall (soup : Node) (base_url : string),
    match Webscraper._extract_links urljoin soup base_url with
    | Ok ls =>
        Forall2 (fun href l => urljoin base_url href = Ok l) (Extract.hrefs_of soup) ls
    | Raise e =>
        exists (before : list string) (href : string) (after : list string),
          Extract.hrefs_of soup = before ++ href :: after
          /\ Forall (fun h => exists l, urljoin base_url h = Ok l) before
          /\ urljoin base_url href = Raise e
    end.
Proof. intros soup base_url. apply join_links_spec. Qed.

End PageFields.
(* --------------------------------------------------------------------- *)
(* The page counters and the errors that leave scrape_url                *)
(* --------------------------------------------------------------------- *)

Section Counters.

Import World Webscraper.

Variable urljoin : string -> string -> result string.

Lemma backoff_fields (a : Z) (s : State) :
  config (backoff a s) = config s
  /\ domain_counters (backoff a s) = domain_counters s.
Proof. unfold backoff. destruct (a <? max_retries (config s) - 1); split; reflexivity. Qed.

Lemma build_data_raises (env : Env) (url : string) (response : Response) (s : State)
      (e : exn) :
  build_data urljoin env url response s = Raise e ->
  _extract_links urljoin (Soup.decompose ["script"; "style"]%string (resp_soup response)) url
  = Raise e.
Proof.
  unfold build_data.
  destruct (_extract_links urljoin
              (Soup.decompose ["script"; "style"]%string (resp_soup response)) url)
    as [ls | e']; simpl; [discriminate |].
  intros [= ->]. reflexivity.
Qed.

(* what a run of the attempts leaves in the counters, by its outcome *)
Lemma attempt_loop_outcome (env : Env) (url : string) (n : nat) :
  forall (a : Z) (s : State) (r : result (option PageResult)) (s' : State),
    attempt_loop urljoin env url a n s = (r, s') ->
    config s' = config s
    /\ match r with
       | Ok None => domain_counters s' = domain_counters s
       | Ok (Some _) =>
           domain_counters s'
           = <[Url.netloc url := default 0 (domain_counters s !! Url.netloc url) + 1]>
               (domain_counters s)
       | Raise e =>
           domain_counters s'
           = <[Url.netloc url := default 0 (domain_counters s !! Url.netloc url) + 1]>
               (domain_counters s)
           /\ consecutive_failures s' = 0
           /\ (exists tr, trace s' = tr ++ [SessionGet url])
           /\ exists response : Response,
               raises_for_status response = false
               /\ _extract_links urljoin
                    (Soup.decompose ["script"; "style"]%string (resp_soup response)) url
                  = Raise e
       end.
Proof.
  induction n as [| n IH]; intros a s r s'.
  - simpl. intros [= <- <-]. split; reflexivity.
  - simpl.
    assert (Hnext : attempt_loop urljoin env url (a + 1) n
                      (backoff a (log (SessionGet url)
                                      (log (SleepDelay (_get_delay env url s)) s)))
                    = (r, s') ->
                    config s' = config s
                    /\ match r with
                       | Ok None => domain_counters s' = domain_counters s
                       | Ok (Some _) =>
                           domain_counters s'
                           = <[Url.netloc url :=
                                 default 0 (domain_counters s !! Url.netloc url) + 1]>
                               (domain_counters s)
                       | Raise e =>
                           domain_counters s'
                           = <[Url.netloc url :=
                                 default 0 (domain_counters s !! Url.netloc url) + 1]>
                               (domain_counters s)
                           /\ consecutive_failures s' = 0
                           /\ (exists tr, trace s' = tr ++ [SessionGet url])
                           /\ exists response : Response,
                               raises_for_status response = false
                               /\ _extract_links urljoin
                                    (Soup.decompose ["script"; "style"]%string
                                                    (resp_soup response)) url
                                  = Raise e
                       end).
    { intros H. apply IH in H.
      destruct (backoff_fields a (log (SessionGet url)
                                      (log (SleepDelay (_get_delay env url s)) s)))
        as [Hc Hd].
      rewrite Hc, Hd in H. exact H. }
    match goal with
    | |- context [session_get env ?t url] =>
        destruct (session_get env t url) as [| response] eqn:Eget
    end; [exact Hnext |].
    destruct (raises_for_status response) eqn:Eraise; [exact Hnext |].
    unfold succeed.
    match goal with
    | |- context [build_data urljoin env url response ?st] =>
        destruct (build_data urljoin env url response st) as [data | e] eqn:Eb
    end; intros [= <- <-]; simpl.
    + split; reflexivity.
    + split; [reflexivity |]. split; [reflexivity |]. split; [reflexivity |].
      split; [eexists; reflexivity |].
      exists response. split; [exact Eraise | apply (build_data_raises _ _ _ _ _ Eb)].
Qed.

Lemma scrape_url_outcome (env : Env) (url : string) (s : State)
      (r : result (option PageResult)) (s' : State) :
  scrape_url urljoin env url s = (r, s') ->
  config s' = config s
  /\ match r with
     | Ok None => domain_counters s' = domain_counters s
     | Ok (Some _) =>
         domain_counters s'
         = <[Url.netloc url := default 0 (domain_counters s !! Url.netloc url) + 1]>
             (domain_counters s)
     | Raise e =>
         domain_counters s'
         = <[Url.netloc url := default 0 (domain_counters s !! Url.netloc url) + 1]>
             (domain_counters s)
         /\ consecutive_failures s' = 0
         /\ (exists tr, trace s' = tr ++ [SessionGet url])
         /\ exists response : Response,
             raises_for_status response = false
             /\ _extract_links urljoin
                  (Soup.decompose ["script"; "style"]%string (resp_soup response)) url
                = Raise e
     end.
Proof.
  unfold scrape_url.
  pose proof (should_scrape_frame env url s) as (Hc & Hd & _).
  destruct (_should_scrape_url env url s) as [go s1]. simpl in Hc, Hd.
  destruct go; simpl.
  - intros H. apply attempt_loop_outcome in H. rewrite Hc, Hd in H. exact H.
  - intros [= <- <-]. split; [exact Hc | exact Hd].
Qed.



Lemma uncounted_domain_passes_the_quota (env : Env) (url : string) (s : State) :
  domain_counters s !! Url.netloc url = None ->
  respect_robots_txt (config s) = false ->
  _should_scrape_url env url s = (true, s).
Proof. intros Hd Hr. unfold _should_scrape_url. rewrite Hd, Hr. reflexivity. Qed.

Lemma allowed_url_is_under_quota (env : Env) (url : string) (s : State) :
  fst (_should_scrape_url env url s) = true ->
  default 0 (domain_counters s !! Url.netloc url) + 1 <= max_pages_per_domain (config s)
  \/ domain_counters s !! Url.netloc url = None.
Proof.
  unfold _should_scrape_url.
  destruct (domain_counters s !! Url.netloc url) as [n |]; [| right; reflexivity].
  destruct (n >=? max_pages_per_domain (config s)) eqn:E; [discriminate |].
  intros _. left. simpl. lia.
Qed.

Lemma scrape_url_within_quota (env : Env) (url : string) (s : State) :
  1 <= max_pages_per_domain (config s) ->
  Checks.within_quota s ->
  Checks.within_quota (snd (scrape_url urljoin env url s)).
Proof.
  intros Hmax Hq.
  destruct (scrape_url urljoin env url s) as [r s'] eqn:E. simpl.
  assert (Hgo : fst (_should_scrape_url env url s) = false -> r = Ok None).
  { intros Hb. rewrite (scrape_url_blocked urljoin env url s Hb) in E.
    injection E as <- _. reflexivity. }
  apply scrape_url_outcome in E. destruct E as [Hc E].
  assert (Hsame : domain_counters s' = domain_counters s -> Checks.within_quota s').
  { intros Hd d n. unfold Checks.within_quota in Hq. rewrite Hc, Hd. apply Hq. }
  assert (Hplus : domain_counters s'
                  = <[Url.netloc url := default 0 (domain_counters s !! Url.netloc url) + 1]>
                      (domain_counters s) -> Checks.within_quota s').
  { intros Hd d n. rewrite Hc, Hd.
    destruct (decide (Url.netloc url = d)) as [<- | Hne].
    - rewrite lookup_insert_eq. intros [= <-].
      destruct (fst (_should_scrape_url env url s)) eqn:Ego.
      + destruct (allowed_url_is_under_quota env url s Ego) as [Hle | Hnone];
          [exact Hle | rewrite Hnone; simpl; lia].
      + specialize (Hgo eq_refl). subst r. rewrite Hd in E.
        exfalso. assert (Hl := f_equal (fun m => m !! Url.netloc url) E).
        simpl in Hl. rewrite lookup_insert_eq in Hl.
        destruct (domain_counters s !! Url.netloc url) as [m |]; simpl in Hl;
          [injection Hl; lia | discriminate].
    - rewrite lookup_insert_ne by exact Hne. apply Hq. }
  destruct r as [[data |] | e]; [apply Hplus, E | apply Hsame, E | apply Hplus, E].
Qed.

Lemma scrape_url_config (env : Env) (url : string) (s : State) :
  config (snd (scrape_url urljoin env url s)) = config s.
Proof.
  destruct (scrape_url urljoin env url s) as [r s'] eqn:E.
  apply scrape_url_outcome in E. apply E.
Qed.

Lemma date_loop_within_quota (env : Env) (url_template : string) :
  forall (dates : list Z) (results : list PageResult) (s : State),
    1 <= max_pages_per_domain (config s) ->
    Checks.within_quota s ->
    Checks.within_quota (snd (date_loop urljoin env url_template dates results s)).
Proof.
  induction dates as [| date rest IH]; intros results s Hmax Hq; [exact Hq |].
  simpl. destruct (consecutive_failures s >=? max_consecutive_failures (config s));
    [exact Hq |].
  pose proof (scrape_url_within_quota env (Dates.format_url_with_date url_template date)
                                      s Hmax Hq) as Hq1.
  pose proof (scrape_url_config env (Dates.format_url_with_date url_template date) s)
    as Hc1.
  destruct (scrape_url urljoin env (Dates.format_url_with_date url_template date) s)
    as [[[data |] | e] s1]; simpl in Hq1, Hc1.
  - apply IH; [rewrite Hc1; exact Hmax | exact Hq1].
  - apply IH; [rewrite Hc1; exact Hmax | exact Hq1].
  - exact Hq1.
Qed.

Lemma fresh_scraper_within_quota (cfg : ScrapingConfig) :
  Checks.within_quota (new_scraper cfg).
Proof. intros d n H. simpl in H. rewrite lookup_empty in H. discriminate. Qed.

(** X12: With a quota of at least one page per domain, no page counter ever
    exceeds max_pages_per_domain: the bound is kept by scrape_url and by a
    whole scrape_date_range, whatever the answers of the network.  (With a
    quota of 0 the first page of a domain is still requested: a domain
    without a counter is never refused.) *)
Theorem page_counters_stay_within_the_quota :
  forall (env : Env) (url url_template : string) (start_date end_date : Z) (s : State),
    1 <= max_pages_per_domain (config s) ->
    Checks.within_quota s ->
    Checks.within_quota (snd (scrape_url urljoin env url s))
    /\ Checks.within_quota
         (snd (scrape_date_range urljoin env url_template start_date end_date s)).
Proof.
  intros env url url_template a b s Hmax Hq. split.
  - apply scrape_url_within_quota; assumption.
  - unfold scrape_date_range. apply date_loop_within_quota; assumption.
Qed.

End Counters.


Lemma page_counters_stay_within_the_quota_witness :
  Checks.within_quota
    (snd (Webscraper.scrape_url Url.urljoin (Samples.env_up Samples.script_doc) Samples.page
            (Webscraper.new_scraper Webscraper.default_config)))
  /\ Checks.within_quota
       (snd (Webscraper.scrape_date_range Url.urljoin (Samples.env_up Samples.script_doc)
               "https://tldr.tech/tech/{YYYY-MM-DD}" 739257 739262
               (Webscraper.new_scraper Webscraper.default_config))).
Proof.
  apply page_counters_stay_within_the_quota;
    [vm_compute; discriminate | apply fresh_scraper_within_quota].
Defined.

(* with a quota of 0 the first page of a domain is requested all the same *)
Example quota_zero_lets_the_first_page_through :
  (fun rs : result (option Webscraper.PageResult) * Webscraper.State =>
     (World.fetched (Webscraper.trace (snd rs)),
      Webscraper.domain_counters (snd rs) !! "tldr.tech"%string))
    (Webscraper.scrape_url Url.urljoin (Samples.env_up Samples.script_doc) Samples.page
       (Webscraper.new_scraper Samples.no_quota_config))
  = ([Samples.page], Some 1).
Proof. vm_compute. reflexivity. Qed.

(* one unresolvable href makes the whole date range raise *)
Example date_range_raises_on_a_bad_link :
  fst (Webscraper.scrape_date_range Url.urljoin (Samples.env_up Samples.gap_doc)
         "https://tldr.tech/tech/{YYYY-MM-DD}" 739257 739262
         (Webscraper.new_scraper (Samples.config_with false 3 5)))
  = Raise ValueError.
Proof. vm_compute. reflexivity. Qed.
(* --------------------------------------------------------------------- *)
(* Delays                                                                *)
(* --------------------------------------------------------------------- *)

Section Delays.

Import World Webscraper.

Variable urljoin : string -> string -> result string.

Lemma uniform_bounds (env : Env) (tr : list Event) (range : Q * Q) :
  (fst range <= snd range)%Q ->
  (0 <= random env tr)%Q -> (random env tr <= 1)%Q ->
  (fst range <= uniform env tr range)%Q /\ (uniform env tr range <= snd range)%Q.
Proof.
  intros Hr H0 H1. unfold uniform.
  set (lo := fst range) in *. set (hi := snd range) in *. set (r := random env tr) in *.
  assert (Hd : (0 <= hi - lo)%Q).
  { rewrite <- (Qplus_opp_r lo). apply Qplus_le_l. exact Hr. }
  split.
  - rewrite <- (Qplus_0_r lo) at 1. apply Qplus_le_r.
    apply Qmult_le_0_compat; assumption.
  - assert (Hm : ((hi - lo) * r <= (hi - lo) * 1)%Q).
    { rewrite (Qmult_comm (hi - lo) r), (Qmult_comm (hi - lo) 1).
      apply Qmult_le_compat_r; assumption. }
    rewrite Qmult_1_r in Hm.
    apply (Qle_trans _ (lo + (hi - lo))%Q); [apply Qplus_le_r; exact Hm |].
    assert (He : (lo + (hi - lo) == hi)%Q) by ring.
    rewrite He. apply Qle_refl.
Qed.

Lemma qmax_bounds (a b : Q) :
  (a <= qmax a b)%Q /\ (b <= qmax a b)%Q /\ (qmax a b = a \/ qmax a b = b).
Proof.
  unfold qmax. destruct (Qle_bool b a) eqn:E.
  - apply Qle_bool_iff in E. split; [apply Qle_refl |]. split; [exact E | left; reflexivity].
  - assert (Hlt : ~ (b <= a)%Q).
    { intros H. apply Qle_bool_iff in H. congruence. }
    apply Qnot_le_lt in Hlt.
    split; [apply Qlt_le_weak; exact Hlt |]. split; [apply Qle_refl | right; reflexivity].
Qed.

(** X13: The delay slept before a request is drawn from delay_range and is never
    below its lower end; when robots.txt gives a crawl delay other than 0
    for the user agent, the delay is at least that crawl delay, and it
    exceeds the upper end of delay_range only by being the crawl delay. *)
Theorem delay_is_in_range_and_honours_crawl_delay :
  forall (env : Env) (url : string) (s : State),
    (fst (delay_range (config s)) <= snd (delay_range (config s)))%Q ->
    (0 <= random env (trace s))%Q -> (random env (trace s) <= 1)%Q ->
    (fst (delay_range (config s)) <= _get_delay env url s)%Q
    /\ match get_crawl_delay url (user_agent (config s)) s with
       | Some d =>
           if d =? 0 then (_get_delay env url s <= snd (delay_range (config s)))%Q
           else (inject_Z d <= _get_delay env url s)%Q
                /\ ((_get_delay env url s <= snd (delay_range (config s)))%Q
                    \/ _get_delay env url s = inject_Z d)
       | None => (_get_delay env url s <= snd (delay_range (config s)))%Q
       end.
Proof.
  intros env url s Hr H0 H1.
  destruct (uniform_bounds env (trace s) (delay_range (config s)) Hr H0 H1) as [Hlo Hhi].
  unfold _get_delay.
  destruct (get_crawl_delay url (user_agent (config s)) s) as [d |]; [| split; assumption].
  destruct (d =? 0); [split; assumption |].
  destruct (qmax_bounds (inject_Z d) (uniform env (trace s) (delay_range (config s))))
    as (Ha & Hb & Hc).
  split; [apply (Qle_trans _ _ _ Hlo Hb) |]. split; [exact Ha |].
  destruct Hc as [-> | ->]; [right; reflexivity | left; exact Hhi].
Qed.

Lemma delay_is_in_range_and_honours_crawl_delay_witness :
  (fst (delay_range (config (new_scraper default_config)))
   <= _get_delay Samples.env_down Samples.page (new_scraper default_config))%Q
  /\ match get_crawl_delay Samples.page (user_agent (config (new_scraper default_config)))
                           (new_scraper default_config) with
     | Some d =>
         if d =? 0
         then (_get_delay Samples.env_down Samples.page (new_scraper default_config)
               <= snd (delay_range (config (new_scraper default_config))))%Q
         else (inject_Z d
               <= _get_delay Samples.env_down Samples.page (new_scraper default_config))%Q
              /\ ((_get_delay Samples.env_down Samples.page (new_scraper default_config)
                   <= snd (delay_range (config (new_scraper default_config))))%Q
                  \/ _get_delay Samples.env_down Samples.page (new_scraper default_config)
                     = inject_Z d)
     | None =>
         (_get_delay Samples.env_down Samples.page (new_scraper default_config)
          <= snd (delay_range (config (new_scraper default_config))))%Q
     end.
Proof.
  apply delay_is_in_range_and_honours_crawl_delay; vm_compute; discriminate.
Defined.

Lemma get_delay_floor (env : Env) (url : string) (s : State) :
  (fst (delay_range (config s)) <= snd (delay_range (config s)))%Q ->
  (forall tr, (0 <= random env tr)%Q /\ (random env tr <= 1)%Q) ->
  (fst (delay_range (config s)) <= _get_delay env url s)%Q.
Proof.
  intros Hr Hrand. destruct (Hrand (trace s)) as [H0 H1].
  destruct (uniform_bounds env (trace s) (delay_range (config s)) Hr H0 H1) as [Hlo Hhi].
  unfold _get_delay.
  destruct (get_crawl_delay url (user_agent (config s)) s) as [d |]; [| exact Hlo].
  destruct (d =? 0); [exact Hlo |].
  destruct (qmax_bounds (inject_Z d) (uniform env (trace s) (delay_range (config s))))
    as (_ & Hb & _).
  apply (Qle_trans _ _ _ Hlo Hb).
Qed.

Lemma paced_weaken (floor : Q) (prev : option Q) (tr : list Event) :
  Checks.paced floor None tr -> Checks.paced floor prev tr.
Proof.
  destruct tr as [| e rest]; [intros _; exact I |].
  destruct e; simpl; try (intros H; exact H).
  intros [[] _].
Qed.

Lemma paced_app (floor : Q) (l1 l2 : list Event) :
  forall prev : option Q,
    Checks.paced floor prev l1 -> Checks.paced floor None l2 ->
    Checks.paced floor prev (l1 ++ l2).
Proof.
  induction l1 as [| e rest IH]; intros prev H1 H2.
  - apply paced_weaken. exact H2.
  - destruct e; simpl in *; try (apply IH; assumption).
    destruct H1 as [Hq H1]. split; [exact Hq | apply IH; assumption].
Qed.

Lemma paced_robots (floor : Q) (l : list Event) :
  forallb is_robots_event l = true -> Checks.paced floor None l.
Proof.
  induction l as [| e rest IH]; [intros _; exact I |]. simpl. intros H.
  apply andb_true_iff in H. destruct H as [He Hrest].
  destruct e; try discriminate; simpl; apply IH; exact Hrest.
Qed.

Lemma attempt_loop_paced (env : Env) (url : string) (floor : Q) (n : nat) :
  (forall tr, (0 <= random env tr)%Q /\ (random env tr <= 1)%Q) ->
  forall (a : Z) (s : State),
    (fst (delay_range (config s)) <= snd (delay_range (config s)))%Q ->
    floor = fst (delay_range (config s)) ->
    exists new : list Event,
      trace (snd (attempt_loop urljoin env url a n s)) = trace s ++ new
      /\ Checks.paced floor None new.
Proof.
  intros Hrand. induction n as [| n IH]; intros a s Hr Hfloor.
  - exists []. simpl. rewrite app_nil_r. split; [reflexivity | exact I].
  - simpl.
    assert (Hq : (floor <= _get_delay env url s)%Q).
    { rewrite Hfloor. apply get_delay_floor; assumption. }
    assert (Hnext : exists new : list Event,
               trace (snd (attempt_loop urljoin env url (a + 1) n
                             (backoff a (log (SessionGet url)
                                (log (SleepDelay (_get_delay env url s)) s)))))
               = trace s ++ new
               /\ Checks.paced floor None new).
    { set (s2 := backoff a (log (SessionGet url)
                              (log (SleepDelay (_get_delay env url s)) s))).
      assert (Hc2 : config s2 = config s).
      { unfold s2, backoff. destruct (a <? _); reflexivity. }
      destruct (IH (a + 1) s2) as (new & Htr & Hp).
      { rewrite Hc2. exact Hr. }
      { rewrite Hc2. exact Hfloor. }
      assert (Ht2 : exists b : list Event,
                 trace s2 = trace s ++ [SleepDelay (_get_delay env url s); SessionGet url]
                            ++ b
                 /\ Checks.paced floor None b).
      { unfold s2, backoff. destruct (a <? _); simpl.
        - exists [SleepBackoff (2 ^ a)]. rewrite <- !app_assoc. split; [reflexivity |].
          simpl. exact I.
        - exists []. rewrite <- !app_assoc. split; [reflexivity | exact I]. }
      destruct Ht2 as (b & Ht2 & Hb).
      exists ([SleepDelay (_get_delay env url s); SessionGet url] ++ b ++ new).
      rewrite Htr, Ht2. rewrite <- !app_assoc. split; [reflexivity |].
      simpl. split; [exact Hq |]. apply paced_app; assumption. }
    match goal with
    | |- context [session_get env ?t url] =>
        destruct (session_get env t url) as [| response] eqn:Eget
    end; [exact Hnext |].
    destruct (raises_for_status response); [exact Hnext |].
    exists [SleepDelay (_get_delay env url s); SessionGet url].
    split; [| simpl; split; [exact Hq | exact I]].
    unfold succeed.
    match goal with
    | |- context [build_data urljoin env url response ?st] =>
        destruct (build_data urljoin env url response st)
    end; simpl; rewrite <- app_assoc; reflexivity.
Qed.

Lemma scrape_url_paced (env : Env) (url : string) (s : State) :
  (forall tr, (0 <= random env tr)%Q /\ (random env tr <= 1)%Q) ->
  (fst (delay_range (config s)) <= snd (delay_range (config s)))%Q ->
  exists new : list Event,
    trace (snd (scrape_url urljoin env url s)) = trace s ++ new
    /\ Checks.paced (fst (delay_range (config s))) None new.
Proof.
  intros Hrand Hr. unfold scrape_url.
  pose proof (should_scrape_frame env url s) as (Hc & _ & _ & (new1 & Ht1 & Hn1) & _).
  destruct (_should_scrape_url env url s) as [go s1]. simpl in Hc, Ht1.
  destruct go; simpl.
  - destruct (attempt_loop_paced env url (fst (delay_range (config s)))
                (Z.to_nat (max_retries (config s1))) Hrand 0 s1) as (new2 & Ht2 & Hn2).
    { rewrite Hc. exact Hr. }
    { rewrite Hc. reflexivity. }
    exists (new1 ++ new2). rewrite Ht2, Ht1, <- app_assoc. split; [reflexivity |].
    apply paced_app; [apply paced_robots; exact Hn1 | exact Hn2].
  - exists new1. split; [exact Ht1 | apply paced_robots; exact Hn1].
Qed.

Lemma date_loop_paced (env : Env) (url_template : string) (floor : Q) :
  (forall tr, (0 <= random env tr)%Q /\ (random env tr <= 1)%Q) ->
  forall (dates : list Z) (results : list PageResult) (s : State),
    (fst (delay_range (config s)) <= snd (delay_range (config s)))%Q ->
    floor = fst (delay_range (config s)) ->
    exists new : list Event,
      trace (snd (date_loop urljoin env url_template dates results s)) = trace s ++ new
      /\ Checks.paced floor None new.
Proof.
  intros Hrand. induction dates as [| date rest IH]; intros results s Hr Hfloor.
  - exists []. simpl. rewrite app_nil_r. split; [reflexivity | exact I].
  - simpl. destruct (consecutive_failures s >=? max_consecutive_failures (config s)).
    + exists []. simpl. rewrite app_nil_r. split; [reflexivity | exact I].
    + destruct (scrape_url_paced env (Dates.format_url_with_date url_template date) s
                                 Hrand Hr) as (new1 & Ht1 & Hn1).
      pose proof (scrape_url_config urljoin env
                    (Dates.format_url_with_date url_template date) s) as Hc1.
      rewrite <- Hfloor in Hn1.
      destruct (scrape_url urljoin env (Dates.format_url_with_date url_template date) s)
        as [[[data |] | e] s1]; simpl in Ht1, Hc1.
      * destruct (IH (results ++ [with_scraped_date (Dates.isoformat date) data]) s1)
          as (new2 & Ht2 & Hn2); [rewrite Hc1; exact Hr | rewrite Hc1; exact Hfloor |].
        exists (new1 ++ new2). rewrite Ht2, Ht1, <- app_assoc.
        split; [reflexivity | apply paced_app; assumption].
      * destruct (IH results s1) as (new2 & Ht2 & Hn2);
          [rewrite Hc1; exact Hr | rewrite Hc1; exact Hfloor |].
        exists (new1 ++ new2). rewrite Ht2, Ht1, <- app_assoc.
        split; [reflexivity | apply paced_app; assumption].
      * exists new1. split; [exact Ht1 | exact Hn1].
Qed.

(** X14: Rate limiting: every page request of scrape_url, and of a whole
    scrape_date_range, comes immediately after a sleep of at least the
    lower end of delay_range; robots.txt traffic and backoff sleeps may lie
    between two requests, never a request without its own delay. *)
Theorem every_page_request_follows_a_delay :
  forall (env : Env) (url url_template : string) (start_date end_date : Z) (s : State),
    (forall tr, (0 <= random env tr)%Q /\ (random env tr <= 1)%Q) ->
    (fst (delay_range (config s)) <= snd (delay_range (config s)))%Q ->
    (exists new : list Event,
        trace (snd (scrape_url urljoin env url s)) = trace s ++ new
        /\ Checks.paced (fst (delay_range (config s))) None new)
    /\ (exists new : list Event,
           trace (snd (scrape_date_range urljoin env url_template start_date end_date s))
           = trace s ++ new
           /\ Checks.paced (fst (delay_range (config s))) None new).
Proof.
  intros env url url_template a b s Hrand Hr. split.
  - apply scrape_url_paced; assumption.
  - unfold scrape_date_range. apply date_loop_paced; [assumption | assumption | reflexivity].
Qed.

End Delays.

Lemma every_page_request_follows_a_delay_witness :
  (exists new : list World.Event,
      Webscraper.trace
        (snd (Webscraper.scrape_url Url.urljoin (Samples.env_flaky Samples.script_doc)
                Samples.page (Webscraper.new_scraper Webscraper.default_config)))
      = Webscraper.trace (Webscraper.new_scraper Webscraper.default_config) ++ new
      /\ Checks.paced
           (fst (Webscraper.delay_range
                   (Webscraper.config (Webscraper.new_scraper Webscraper.default_config))))
           None new)
  /\ (exists new : list World.Event,
         Webscraper.trace
           (snd (Webscraper.scrape_date_range Url.urljoin
                   (Samples.env_flaky Samples.script_doc)
                   "https://tldr.tech/tech/{YYYY-MM-DD}" 739257 739262
                   (Webscraper.new_scraper Webscraper.default_config)))
         = Webscraper.trace (Webscraper.new_scraper Webscraper.default_config) ++ new
         /\ Checks.paced
              (fst (Webscraper.delay_range
                      (Webscraper.config (Webscraper.new_scraper Webscraper.default_config))))
              None new).
Proof.
  apply every_page_request_follows_a_delay.
  - intros tr. split; vm_compute; discriminate.
  - vm_compute. discriminate.
Defined.
(* --------------------------------------------------------------------- *)
(* The two downloads of robots.txt                                       *)
(* --------------------------------------------------------------------- *)

Section TwoDownloads.

Import World Webscraper.

(** X15: When the download of robots.txt by requests.get is answered with
    status 200, its text is what is recorded and saved, but the rules come
    from a second download, made by the parser itself: a 401 or 403 there
    closes the domain, any other 4xx opens it, a 5xx or a network error
    leaves a parser that refuses every URL, and a body is judged by its
    own records.  The first answer decides nothing about access. *)
Theorem robots_rules_come_from_the_second_download :
  forall (env : Env) (url ua : string) (s : State) (body : Robots.RobotsTxt)
         (second : UrlopenOutcome),
    robot_parsers s !! robots_domain url = None ->
    requests_get env (trace s) (robots_url_of (robots_domain url))
    = RobotsResponse 200 body ->
    (forall tr, urlopen env tr (robots_url_of (robots_domain url)) = second) ->
    fst (can_fetch env url ua s)
    = match second with
      | UrlopenBody rules =>
          match Robots.first_applicable ua (Robots.parsed_entries rules) with
          | Some entry => Robots.allowance entry url
          | None =>
              match Robots.parsed_default rules with
              | Some entry => Robots.allowance entry url
              | None => true
              end
          end
      | UrlopenHTTPError code =>
          if (code =? 401) || (code =? 403) then false
          else (400 <=? code) && (code <? 500)
      | UrlopenError => false
      end
    /\ robots_content (snd (can_fetch env url ua s)) !! robots_domain url
       = Some (Robots.robots_text body)
    /\ exists saved : list Event,
        trace (snd (can_fetch env url ua s))
        = trace s ++ RequestsGet (robots_url_of (robots_domain url)) :: saved
                  ++ [Urlopen (robots_url_of (robots_domain url))]
        /\ (saved = [] \/ saved = [SaveRobotsTxt (robots_domain url)]).
Proof.
  intros env url ua s body second Hnone Hget Hsecond.
  unfold can_fetch. rewrite Hnone. unfold load_robots. rewrite Hget. simpl.
  set (d := robots_domain url) in *.
  match goal with
  | |- context [read_and_store env d ?st] => set (s1 := st)
  end.
  assert (Hs1 : robots_content s1 !! d = Some (Robots.robots_text body)
                /\ exists saved : list Event,
                    trace s1 = trace s ++ RequestsGet (robots_url_of d) :: saved
                    /\ (saved = [] \/ saved = [SaveRobotsTxt d])).
  { unfold s1.
    destruct (save_robots_txt (config s) && negb (bool_decide (d ∈ saved_robots s)));
      simpl; (split; [apply lookup_insert_eq |]).
    - exists [SaveRobotsTxt d]. rewrite <- app_assoc. split; [reflexivity | right; reflexivity].
    - exists []. split; [reflexivity | left; reflexivity]. }
  destruct Hs1 as (Hcontent & saved & Htrace & Hsaved).
  unfold read_and_store. rewrite Hsecond.
  assert (Hfinal : forall rp : Robots.RobotFileParser,
             trace (set_parser d rp (log (Urlopen (robots_url_of d)) s1))
             = trace s ++ RequestsGet (robots_url_of d) :: saved ++ [Urlopen (robots_url_of d)]).
  { intros rp. simpl. rewrite Htrace, <- app_assoc. reflexivity. }
  assert (Hstored : forall rp : Robots.RobotFileParser,
             robot_parsers (set_parser d rp (log (Urlopen (robots_url_of d)) s1)) !! d
             = Some rp).
  { intros rp. apply lookup_insert_eq. }
  assert (Hkept : forall rp : Robots.RobotFileParser,
             robots_content (set_parser d rp (log (Urlopen (robots_url_of d)) s1)) !! d
             = Some (Robots.robots_text body)).
  { intros rp. exact Hcontent. }
  destruct second as [rules | code |].
  - rewrite Hstored. cbn [fst snd].
    split; [reflexivity |]. split; [apply Hkept |].
    exists saved. split; [apply Hfinal | exact Hsaved].
  - destruct ((code =? 401) || (code =? 403)) eqn:E1;
      [| destruct ((400 <=? code) && (code <? 500)) eqn:E2];
      rewrite Hstored; cbn [fst snd];
      (split; [reflexivity |]); (split; [apply Hkept |]);
      exists saved; (split; [apply Hfinal | exact Hsaved]).
  - unfold store_unread_parser. rewrite Hstored. cbn [fst snd].
    split; [reflexivity |]. split; [apply Hkept |].
    exists saved. split; [apply Hfinal | exact Hsaved].
Qed.

End TwoDownloads.

Lemma robots_rules_come_from_the_second_download_witness :
  fst (Webscraper.can_fetch (Samples.env_two_answers Samples.script_doc) Samples.page "*"
         (Webscraper.new_scraper Webscraper.default_config))
  = true
  /\ Webscraper.robots_content
       (snd (Webscraper.can_fetch (Samples.env_two_answers Samples.script_doc) Samples.page
               "*" (Webscraper.new_scraper Webscraper.default_config)))
       !! Webscraper.robots_domain Samples.page
     = Some (Robots.robots_text Samples.closed_robots)
  /\ exists saved : list World.Event,
      Webscraper.trace
        (snd (Webscraper.can_fetch (Samples.env_two_answers Samples.script_doc) Samples.page
                "*" (Webscraper.new_scraper Webscraper.default_config)))
      = Webscraper.trace (Webscraper.new_scraper Webscraper.default_config)
        ++ World.RequestsGet
             (Webscraper.robots_url_of (Webscraper.robots_domain Samples.page))
           :: saved
           ++ [World.Urlopen
                 (Webscraper.robots_url_of (Webscraper.robots_domain Samples.page))]
      /\ (saved = [] \/ saved = [World.SaveRobotsTxt (Webscraper.robots_domain Samples.page)]).
Proof.
  apply (robots_rules_come_from_the_second_download
           (Samples.env_two_answers Samples.script_doc) Samples.page "*"
           (Webscraper.new_scraper Webscraper.default_config) Samples.closed_robots
           (World.UrlopenHTTPError 404)).
  - vm_compute. reflexivity.
  - vm_compute. reflexivity.
  - intros tr. reflexivity.
Defined.
(* --------------------------------------------------------------------- *)
(* lambda_handler                                                        *)
(* --------------------------------------------------------------------- *)

Section HandlerResults.

Import World.

Variable urljoin : string -> string -> result string.

Lemma put_keys_app (l1 l2 : list Event) :
  Checks.put_keys (l1 ++ l2) = Checks.put_keys l1 ++ Checks.put_keys l2.
Proof. apply omap_app. Qed.

Lemma put_keys_robots (l : list Event) :
  forallb is_robots_event l = true -> Checks.put_keys l = [].
Proof.
  induction l as [| e rest IH]; [reflexivity |]. simpl. intros H.
  apply andb_true_iff in H. destruct H as [He Hrest].
  destruct e; try discriminate; simpl; apply IH; exact Hrest.
Qed.

Lemma lambda_backoff_puts (a : Z) (s : Lambda.State) :
  Checks.put_keys (Lambda.trace (Lambda.backoff a s)) = Checks.put_keys (Lambda.trace s).
Proof.
  unfold Lambda.backoff. destruct (a <? _); [| reflexivity].
  simpl. rewrite put_keys_app. simpl. apply app_nil_r.
Qed.

Lemma lambda_attempt_loop_puts (env : Env) (url : string) (n : nat) :
  forall (a : Z) (s : Lambda.State),
    Checks.put_keys (Lambda.trace (snd (Lambda.attempt_loop urljoin env url a n s)))
    = Checks.put_keys (Lambda.trace s).
Proof.
  induction n as [| n IH]; intros a s; [reflexivity |]. simpl.
  assert (Hlogs : Checks.put_keys
                    (Lambda.trace (Lambda.log (SessionGet url)
                       (Lambda.log (SleepDelay (Lambda._get_delay env url s)) s)))
                  = Checks.put_keys (Lambda.trace s)).
  { simpl. rewrite !put_keys_app. simpl. rewrite !app_nil_r. reflexivity. }
  assert (Hnext : Checks.put_keys
                    (Lambda.trace
                       (snd (Lambda.attempt_loop urljoin env url (a + 1) n
                               (Lambda.backoff a
                                  (Lambda.log (SessionGet url)
                                     (Lambda.log (SleepDelay (Lambda._get_delay env url s))
                                                 s))))))
                  = Checks.put_keys (Lambda.trace s)).
  { rewrite IH, lambda_backoff_puts. exact Hlogs. }
  match goal with
  | |- context [session_get env ?t url] =>
      destruct (session_get env t url) as [| response] eqn:Eget
  end; [exact Hnext |].
  destruct (raises_for_status response); [exact Hnext |].
  simpl. simpl in Hlogs. exact Hlogs.
Qed.

(* scraping a page puts nothing into S3 *)
Lemma lambda_scrape_url_puts (env : Env) (url : string) (s : Lambda.State) :
  Checks.put_keys (Lambda.trace (snd (Lambda.scrape_url urljoin env url s)))
  = Checks.put_keys (Lambda.trace s).
Proof.
  unfold Lambda.scrape_url.
  pose proof (lambda_should_scrape_frame env url s) as (_ & _ & (new & Ht & Hn) & _).
  destruct (Lambda._should_scrape_url env url s) as [go s1]. simpl in Ht.
  assert (H1 : Checks.put_keys (Lambda.trace s1) = Checks.put_keys (Lambda.trace s)).
  { rewrite Ht, put_keys_app, (put_keys_robots new Hn). apply app_nil_r. }
  destruct go; simpl; [| exact H1].
  rewrite lambda_attempt_loop_puts. exact H1.
Qed.

(* one date of one category whose URL can be made: one more entry, with
   the date as the event gave it, and the keys of that entry put into S3 *)
Lemma handler_dates_step (env : Env) (url_template category date_str url : string)
      (rest : list string) (acc : list Lambda.ResultEntry) (s : Lambda.State) :
  Lambda.format_url_with_date url_template date_str = Ok url ->
  exists (r : Lambda.ResultEntry) (s' : Lambda.State),
    Lambda.handler_dates urljoin env url_template category (date_str :: rest) acc s
    = Lambda.handler_dates urljoin env url_template category rest (acc ++ [r]) s'
    /\ (Lambda.entry_category r, Lambda.entry_date r, Lambda.entry_url r)
       = (category, date_str, url)
    /\ Checks.put_keys (Lambda.trace s')
       = Checks.put_keys (Lambda.trace s) ++ Checks.entry_keys r
    /\ match Lambda.entry_status r with
              | Lambda.success =>
                  Lambda.entry_full_data_key r
                  = Some ("scraped_data/" +:+ Lambda.entry_category r +:+ "/full/"
                          +:+ Lambda.entry_date r +:+ ".json")
                  /\ exists n : Z,
                      Lambda.entry_article_count r = Some n /\ 0 <= n
                      /\ Lambda.entry_articles_key r
                         = if n =? 0 then None
                           else Some ("scraped_data/" +:+ Lambda.entry_category r
                                      +:+ "/articles/" +:+ Lambda.entry_date r +:+ ".json")
              | Lambda.failed =>
                  Lambda.entry_full_data_key r = None
                  /\ Lambda.entry_articles_key r = None
                  /\ Lambda.entry_article_count r = None
              end.
Proof.
  intros Hf. cbn [Lambda.handler_dates]. rewrite Hf.
  pose proof (lambda_scrape_url_puts env url s) as Hputs.
  destruct (Lambda.scrape_url urljoin env url s) as [[data |] s1]; simpl in Hputs.
  - destruct (Lambda.articles data) as [| a arts] eqn:Earts.
    + eexists _, _. split; [reflexivity |]. split; [reflexivity |]. split.
      * simpl. rewrite put_keys_app, Hputs. reflexivity.
      * simpl. split; [reflexivity |]. exists 0.
        split; [reflexivity |]. split; [lia | reflexivity].
    + eexists _, _. split; [reflexivity |]. split; [reflexivity |]. split.
      * simpl. rewrite !put_keys_app, Hputs. simpl. rewrite <- app_assoc. reflexivity.
      * simpl. split; [reflexivity |].
        exists (Z.pos (Pos.of_succ_nat (length arts))).
        split; [reflexivity |]. split; [lia | reflexivity].
  - eexists _, _. split; [reflexivity |]. split; [reflexivity |]. split.
    + simpl. rewrite Hputs, app_nil_r. reflexivity.
    + simpl. repeat split.
Qed.

(* whatever the dates are: the entries are added after those at hand, the
   keys put into S3 are theirs, and each is as its status says *)
Lemma handler_dates_frame (env : Env) (url_template category : string) :
  forall (dates : list string) (acc : list Lambda.ResultEntry) (s : Lambda.State),
    exists new : list Lambda.ResultEntry,
      fst (fst (Lambda.handler_dates urljoin env url_template category dates acc s))
      = acc ++ new
      /\ Checks.put_keys
           (Lambda.trace
              (snd (Lambda.handler_dates urljoin env url_template category dates acc s)))
         = Checks.put_keys (Lambda.trace s) ++ flat_map Checks.entry_keys new
      /\ Forall
           (fun r =>
              match Lambda.entry_status r with
              | Lambda.success =>
                  Lambda.entry_full_data_key r
                  = Some ("scraped_data/" +:+ Lambda.entry_category r +:+ "/full/"
                          +:+ Lambda.entry_date r +:+ ".json")
                  /\ exists n : Z,
                      Lambda.entry_article_count r = Some n /\ 0 <= n
                      /\ Lambda.entry_articles_key r
                         = if n =? 0 then None
                           else Some ("scraped_data/" +:+ Lambda.entry_category r
                                      +:+ "/articles/" +:+ Lambda.entry_date r +:+ ".json")
              | Lambda.failed =>
                  Lambda.entry_full_data_key r = None
                  /\ Lambda.entry_articles_key r = None
                  /\ Lambda.entry_article_count r = None
              end) new.
Proof.
  induction dates as [| date_str rest IH]; intros acc s.
  - exists []. simpl. rewrite !app_nil_r. repeat split; constructor.
  - destruct (Lambda.format_url_with_date url_template date_str) as [url | e] eqn:Ef.
    + destruct (handler_dates_step env url_template category date_str url rest acc s Ef)
        as (r & s' & -> & _ & Hk & Hr).
      destruct (IH (acc ++ [r]) s') as (new & Hres & Hkeys & Hall).
      exists (r :: new). rewrite Hres, <- app_assoc. split; [reflexivity |].
      split; [| constructor; assumption].
      rewrite Hkeys, Hk. simpl. rewrite <- app_assoc. reflexivity.
    + exists []. cbn [Lambda.handler_dates]. rewrite Ef. simpl. rewrite !app_nil_r.
      repeat split; constructor.
Qed.



Lemma lambda_handler_frame (env : Env) (dates : list string) :
  forall (url_templates : list (string * string)) (acc : list Lambda.ResultEntry)
         (s : Lambda.State),
    exists new : list Lambda.ResultEntry,
      fst (fst (Lambda.lambda_handler urljoin env url_templates dates acc s)) = acc ++ new
      /\ Checks.put_keys
           (Lambda.trace (snd (Lambda.lambda_handler urljoin env url_templates dates acc s)))
         = Checks.put_keys (Lambda.trace s) ++ flat_map Checks.entry_keys new
      /\ Forall
           (fun r =>
              match Lambda.entry_status r with
              | Lambda.success =>
                  Lambda.entry_full_data_key r
                  = Some ("scraped_data/" +:+ Lambda.entry_category r +:+ "/full/"
                          +:+ Lambda.entry_date r +:+ ".json")
                  /\ exists n : Z,
                      Lambda.entry_article_count r = Some n /\ 0 <= n
                      /\ Lambda.entry_articles_key r
                         = if n =? 0 then None
                           else Some ("scraped_data/" +:+ Lambda.entry_category r
                                      +:+ "/articles/" +:+ Lambda.entry_date r +:+ ".json")
              | Lambda.failed =>
                  Lambda.entry_full_data_key r = None
                  /\ Lambda.entry_articles_key r = None
                  /\ Lambda.entry_article_count r = None
              end) new.
Proof.
  induction url_templates as [| [url_template category] rest IH]; intros acc s.
  - exists []. simpl. rewrite !app_nil_r. repeat split; constructor.
  - cbn [Lambda.lambda_handler].
    destruct (handler_dates_frame env url_template category dates [] s)
      as (new1 & Hres1 & Hkeys1 & Hall1).
    destruct (Lambda.handler_dates urljoin env url_template category dates [] s)
      as [[category_results raised] s1]. simpl in Hres1, Hkeys1. subst category_results.
    destruct raised as [e |].
    + exists new1. simpl. split; [reflexivity |]. split; assumption.
    + destruct (IH (acc ++ new1) s1) as (new2 & Hres2 & Hkeys2 & Hall2).
      exists (new1 ++ new2). rewrite Hres2, <- app_assoc. split; [reflexivity |].
      split; [rewrite Hkeys2, Hkeys1, flat_map_app, <- app_assoc; reflexivity |].
      apply Forall_app. split; assumption.
Qed.



(** X17: The objects put into S3 during lambda_handler are exactly the keys its
    result entries name, in the order of the entries and with the full data
    before the articles; scraping itself writes nothing. *)
Theorem handler_writes_exactly_the_keys_it_reports :
  forall (env : Env) (url_templates : list (string * string)) (dates : list string)
         (s : Lambda.State),
    Checks.put_keys
      (Lambda.trace (snd (Lambda.lambda_handler urljoin env url_templates dates [] s)))
    = Checks.put_keys (Lambda.trace s)
      ++ flat_map Checks.entry_keys
           (fst (fst (Lambda.lambda_handler urljoin env url_templates dates [] s))).
Proof.
  intros env url_templates dates s.
  destruct (lambda_handler_frame env dates url_templates [] s)
    as (new & Hres & Hkeys & _).
  rewrite Hres. exact Hkeys.
Qed.

(** X18: A successful entry names the full-data object of its category and date
    and carries an article count; it names an articles object exactly when
    that count is not 0.  A failed entry has no key and no count. *)
Theorem handler_entries_match_their_status :
  forall (env : Env) (url_templates : list (string * string)) (dates : list string)
         (s : Lambda.State),
    Forall
      (fun r =>
         match Lambda.entry_status r with
         | Lambda.success =>
             Lambda.entry_full_data_key r
             = Some ("scraped_data/" +:+ Lambda.entry_category r +:+ "/full/"
                     +:+ Lambda.entry_date r +:+ ".json")
             /\ exists n : Z,
                 Lambda.entry_article_count r = Some n /\ 0 <= n
                 /\ Lambda.entry_articles_key r
                    = if n =? 0 then None
                      else Some ("scraped_data/" +:+ Lambda.entry_category r
                                 +:+ "/articles/" +:+ Lambda.entry_date r +:+ ".json")
         | Lambda.failed =>
             Lambda.entry_full_data_key r = None
             /\ Lambda.entry_articles_key r = None
             /\ Lambda.entry_article_count r = None
         end)
      (fst (fst (Lambda.lambda_handler urljoin env url_templates dates [] s))).
Proof.
  intros env url_templates dates s.
  destruct (lambda_handler_frame env dates url_templates [] s)
    as (new & Hres & _ & Hall).
  rewrite Hres. exact Hall.
Qed.






Example handler_keeps_the_date_of_the_event :
  match fst (Handler.handle Url.urljoin
               (Samples.env_up (Samples.document [Samples.long_card]))
               "TLDR-Scraper/1.0" (Some "bucket"%string) 739300
               (Handler.mkPayload (Some "Tech"%string) None None (Some "2025-1-5"%string)
                                  None None None None None)) with
  | Handler.Status200 _ [r] =>
      (Lambda.entry_date r, Lambda.entry_category r, Lambda.entry_url r)
      = ("2025-1-5", "tech", "https://tldr.tech/tech/2025-01-05")%string
      /\ Checks.entry_keys r
         = ["scraped_data/tech/full/2025-1-5.json";
            "scraped_data/tech/articles/2025-1-5.json"]%string
  | _ => False
  end.
Proof. vm_compute. split; reflexivity. Qed.

Example handler_raises_on_an_unreadable_date :
  Handler.handle Url.urljoin Samples.env_down "TLDR-Scraper/1.0" (Some "bucket"%string)
    739300
    (Handler.mkPayload (Some "tech"%string) None None (Some "yesterday"%string)
                       None None None None None)
  = (Handler.Raised ValueError, [])
  /\ fst (Handler.handle Url.urljoin Samples.env_down "TLDR-Scraper/1.0"
            (Some "bucket"%string) 739300
            (Handler.mkPayload None None None None (Some "2025-01-03"%string)
                               (Some "2025-02-30"%string) None None None))
     = Handler.Raised ValueError.
Proof. split; vm_compute; reflexivity. Qed.

End HandlerResults.
(* --------------------------------------------------------------------- *)
(* URL templates                                                         *)
(* --------------------------------------------------------------------- *)

Section Templates.

Lemma app_cons (x : ascii) (a b : string) : String x a +:+ b = String x (a +:+ b).
Proof. reflexivity. Qed.

Lemma str_app_assoc (a b c : string) : (a +:+ b) +:+ c = a +:+ (b +:+ c).
Proof.
  induction a as [| x a IH]; [reflexivity |]. rewrite !app_cons, IH. reflexivity.
Qed.

Lemma str_app_nil_r (a : string) : a +:+ EmptyString = a.
Proof.
  induction a as [| x a IH]; [reflexivity |]. rewrite app_cons, IH. reflexivity.
Qed.

Lemma has_char_app (c : ascii) (a b : string) :
  Checks.has_char c (a +:+ b) = Checks.has_char c a || Checks.has_char c b.
Proof.
  induction a as [| x a IH]; [reflexivity |]. rewrite app_cons. simpl.
  rewrite IH. apply orb_assoc.
Qed.

(* a placeholder starts with a brace: a text without braces has none *)
Lemma replace_without_brace (old new : string) (s : string) :
  Checks.has_char "{" s = false ->
  Dates.replace_aux (String "{" old) new 0 s = s.
Proof.
  induction s as [| c r IH]; [reflexivity |]. cbn [Checks.has_char]. intros H.
  apply orb_false_iff in H. destruct H as [Hc Hr].
  cbn [Dates.replace_aux String.prefix].
  destruct (ascii_dec "{" c) as [<- | _]; [discriminate Hc |].
  rewrite (IH Hr). reflexivity.
Qed.

Lemma replace_after_prefix (old new : string) (p s : string) :
  Checks.has_char "{" p = false ->
  Dates.replace_aux (String "{" old) new 0 (p +:+ s)
  = p +:+ Dates.replace_aux (String "{" old) new 0 s.
Proof.
  induction p as [| c r IH]; [reflexivity |].
  rewrite !app_cons. cbn [Checks.has_char]. intros H.
  apply orb_false_iff in H. destruct H as [Hc Hr].
  cbn [Dates.replace_aux String.prefix].
  destruct (ascii_dec "{" c) as [<- | _]; [discriminate Hc |].
  rewrite (IH Hr). reflexivity.
Qed.

(* the decimal digits of a number are among 0..9: a character that is none
   of them (and not the sign) does not occur in str(n) *)
Lemma digit_differs (x : ascii) (n : Z) :
  forallb (fun d => negb (Ascii.eqb (PyStr.digit d) x)) [0; 1; 2; 3; 4; 5; 6; 7; 8; 9]
  = true ->
  Ascii.eqb (PyStr.digit (n mod 10)) x = false.
Proof.
  intros Hx. rewrite forallb_forall in Hx.
  pose proof (Z.mod_pos_bound n 10 ltac:(lia)) as Hb.
  apply negb_true_iff, Hx.
  set (d := n mod 10) in *.
  simpl. lia.
Qed.

Lemma digits_without (x : ascii) (fuel : nat) :
  forallb (fun d => negb (Ascii.eqb (PyStr.digit d) x)) [0; 1; 2; 3; 4; 5; 6; 7; 8; 9]
  = true ->
  forall (n : Z) (acc : string),
    Checks.has_char x acc = false ->
    Checks.has_char x (PyStr.digits fuel n acc) = false.
Proof.
  intros Hx. induction fuel as [| f IH]; intros n acc Hacc; [exact Hacc |].
  simpl.
  assert (Hacc' : Checks.has_char x (String (PyStr.digit (n mod 10)) acc) = false).
  { simpl. rewrite (digit_differs x n Hx), Hacc. reflexivity. }
  destruct (n <? 10); [exact Hacc' | apply IH; exact Hacc'].
Qed.

Lemma of_int_without (x : ascii) (n : Z) :
  forallb (fun d => negb (Ascii.eqb (PyStr.digit d) x)) [0; 1; 2; 3; 4; 5; 6; 7; 8; 9]
  = true ->
  Ascii.eqb "-" x = false ->
  Checks.has_char x (PyStr.of_int n) = false.
Proof.
  intros Hx Hsign. unfold PyStr.of_int. destruct (n <? 0).
  - cbn [Checks.has_char]. rewrite Hsign. cbn [orb].
    apply digits_without; [exact Hx | reflexivity].
  - apply digits_without; [exact Hx | reflexivity].
Qed.

Lemma of_int_no_brace (n : Z) : Checks.has_char "{" (PyStr.of_int n) = false.
Proof. apply of_int_without; reflexivity. Qed.

Lemma zfill_no_brace (w : nat) (n : Z) : Checks.has_char "{" (Dates.zfill w n) = false.
Proof.
  unfold Dates.zfill. rewrite has_char_app, of_int_no_brace, orb_false_r.
  induction (w - String.length (PyStr.of_int n))%nat as [| k IH]; [reflexivity |].
  simpl. exact IH.
Qed.

Lemma strftime_Y_no_brace (d : Z) : Checks.has_char "{" (Dates.strftime_Y d) = false.
Proof. apply of_int_no_brace. Qed.

Lemma isoformat_no_brace (d : Z) : Checks.has_char "{" (Dates.isoformat d) = false.
Proof.
  unfold Dates.isoformat.
  rewrite !has_char_app, !zfill_no_brace, strftime_Y_no_brace. reflexivity.
Qed.

(* from the year 1000 to the year 9999 the year has its four digits *)
Lemma four_digit_years_check :
  forallb (fun n => String.eqb (PyStr.of_int (Z.of_nat n)) (Dates.zfill 4 (Z.of_nat n)))
          (seq (Z.to_nat 1000) (Z.to_nat 9000)) = true.
Proof. vm_compute. reflexivity. Qed.

Lemma four_digit_years (y : Z) : 1000 <= y <= 9999 -> PyStr.of_int y = Dates.zfill 4 y.
Proof.
  intros Hy. pose proof four_digit_years_check as H. rewrite forallb_forall in H.
  specialize (H (Z.to_nat y)). rewrite Z2Nat.id in H by lia.
  apply String.eqb_eq, H, in_seq. lia.
Qed.

Lemma lower_char_brace (c : ascii) :
  Ascii.eqb (PyStr.lower_char c) "{" = Ascii.eqb c "{".
Proof. destruct c as [[] [] [] [] [] [] [] []]; vm_compute; reflexivity. Qed.

Lemma lower_no_brace (s : string) :
  Checks.has_char "{" (PyStr.lower s) = Checks.has_char "{" s.
Proof.
  induction s as [| c r IH]; [reflexivity |]. simpl.
  rewrite lower_char_brace, IH. reflexivity.
Qed.

Lemma format_plain (p : string) (date : Z) :
  Checks.has_char "{" p = false -> Dates.format_url_with_date p date = p.
Proof.
  intros Hp. unfold Dates.format_url_with_date, Dates.replace. simpl.
  rewrite !(replace_without_brace _ _ p Hp). reflexivity.
Qed.

Lemma format_iso (p : string) (date : Z) :
  Checks.has_char "{" p = false ->
  Dates.format_url_with_date (p +:+ "{YYYY-MM-DD}") date = p +:+ Dates.isoformat date.
Proof.
  intros Hp. unfold Dates.format_url_with_date, Dates.replace.
  cbn [fold_left fst snd].
  rewrite (replace_after_prefix _ _ p _ Hp).
  change (Dates.replace_aux "{YYYY}" (Dates.strftime_Y date) 0 "{YYYY-MM-DD}")
    with "{YYYY-MM-DD}"%string.
  rewrite (replace_after_prefix _ _ p _ Hp).
  change (Dates.replace_aux "{MM}" (Dates.zfill 2 (Dates.month date)) 0 "{YYYY-MM-DD}")
    with "{YYYY-MM-DD}"%string.
  rewrite (replace_after_prefix _ _ p _ Hp).
  change (Dates.replace_aux "{DD}" (Dates.zfill 2 (Dates.day date)) 0 "{YYYY-MM-DD}")
    with "{YYYY-MM-DD}"%string.
  rewrite (replace_after_prefix _ _ p _ Hp).
  change (Dates.replace_aux "{YYYY-MM-DD}" (Dates.isoformat date) 0 "{YYYY-MM-DD}")
    with (Dates.isoformat date +:+ EmptyString).
  rewrite str_app_nil_r.
  assert (Hfull : Checks.has_char "{" (p +:+ Dates.isoformat date) = false).
  { rewrite has_char_app, Hp, isoformat_no_brace. reflexivity. }
  rewrite !(replace_without_brace _ _ _ Hfull). reflexivity.
Qed.

Lemma format_parts (p : string) (date : Z) :
  Checks.has_char "{" p = false ->
  Dates.format_url_with_date (p +:+ "{YYYY}/{MM}/{DD}") date
  = p +:+ Dates.strftime_Y date +:+ "/" +:+ Dates.zfill 2 (Dates.month date)
      +:+ "/" +:+ Dates.zfill 2 (Dates.day date).
Proof.
  intros Hp. unfold Dates.format_url_with_date, Dates.replace.
  cbn [fold_left fst snd].
  set (y := Dates.strftime_Y date).
  set (m := Dates.zfill 2 (Dates.month date)).
  set (d := Dates.zfill 2 (Dates.day date)).
  assert (Hy : Checks.has_char "{" y = false) by apply strftime_Y_no_brace.
  assert (Hm : Checks.has_char "{" m = false) by apply zfill_no_brace.
  assert (Hd : Checks.has_char "{" d = false) by apply zfill_no_brace.
  rewrite (replace_after_prefix _ _ p _ Hp).
  change (Dates.replace_aux "{YYYY}" y 0 "{YYYY}/{MM}/{DD}")
    with (y +:+ Dates.replace_aux "{YYYY}" y 0 "/{MM}/{DD}").
  change (Dates.replace_aux "{YYYY}" y 0 "/{MM}/{DD}") with "/{MM}/{DD}"%string.
  assert (H1 : p +:+ y +:+ "/{MM}/{DD}" = (p +:+ y +:+ "/") +:+ "{MM}/{DD}").
  { rewrite !str_app_assoc. reflexivity. }
  rewrite H1.
  assert (Hp1 : Checks.has_char "{" (p +:+ y +:+ "/") = false).
  { rewrite !has_char_app, Hp, Hy. reflexivity. }
  rewrite (replace_after_prefix _ _ _ _ Hp1).
  change (Dates.replace_aux "{MM}" m 0 "{MM}/{DD}")
    with (m +:+ Dates.replace_aux "{MM}" m 0 "/{DD}").
  change (Dates.replace_aux "{MM}" m 0 "/{DD}") with "/{DD}"%string.
  assert (H2 : (p +:+ y +:+ "/") +:+ m +:+ "/{DD}"
               = (p +:+ y +:+ "/" +:+ m +:+ "/") +:+ "{DD}").
  { rewrite !str_app_assoc. reflexivity. }
  rewrite H2.
  assert (Hp2 : Checks.has_char "{" (p +:+ y +:+ "/" +:+ m +:+ "/") = false).
  { rewrite !has_char_app, Hp, Hy, Hm. reflexivity. }
  rewrite (replace_after_prefix _ _ _ _ Hp2).
  change (Dates.replace_aux "{DD}" d 0 "{DD}") with (d +:+ EmptyString).
  rewrite str_app_nil_r.
  assert (Hfull : Checks.has_char "{" ((p +:+ y +:+ "/" +:+ m +:+ "/") +:+ d) = false).
  { rewrite has_char_app, Hp2, Hd. reflexivity. }
  rewrite !(replace_without_brace _ _ _ Hfull).
  rewrite !str_app_assoc. reflexivity.
Qed.

(** X3: format_url_with_date leaves a template without braces as it is, turns
    a final {YYYY-MM-DD} into the date as strftime('%Y-%m-%d') writes it,
    and {YYYY}/{MM}/{DD} into the year, the month and the day, whatever
    the text before the placeholders (as long as it has no brace).  The
    month and the day are padded with zeros to two digits; the year is
    written as strftime('%Y') writes it, which is with its four digits
    from the year 1000 on and without padding before: the first day of
    the year 999 gives 999 and 999-01-01. *)
Theorem format_url_fills_in_the_date :
  forall (p : string) (date : Z),
    Checks.has_char "{" p = false ->
    Dates.format_url_with_date p date = p
    /\ Dates.format_url_with_date (p +:+ "{YYYY-MM-DD}") date = p +:+ Dates.isoformat date
    /\ Dates.format_url_with_date (p +:+ "{YYYY}/{MM}/{DD}") date
       = p +:+ Dates.strftime_Y date +:+ "/"
           +:+ Dates.zfill 2 (Dates.month date) +:+ "/"
           +:+ Dates.zfill 2 (Dates.day date)
    /\ Dates.isoformat date
       = Dates.strftime_Y date +:+ "-" +:+ Dates.zfill 2 (Dates.month date)
         +:+ "-" +:+ Dates.zfill 2 (Dates.day date)
    /\ (1000 <= Dates.year date <= 9999 ->
        Dates.strftime_Y date = Dates.zfill 4 (Dates.year date))
    /\ Dates.strftime_Y (Dates._ymd2ord 999 1 1) = "999"%string
    /\ Dates.format_url_with_date "{YYYY-MM-DD}" (Dates._ymd2ord 999 1 1)
       = "999-01-01"%string
    /\ Dates.format_url_with_date "{YYYY}/{M}/{D}" (Dates._ymd2ord 2025 1 5)
       = "2025/1/5"%string.
Proof.
  intros p date Hp. split; [apply format_plain; exact Hp |].
  split; [apply format_iso; exact Hp |].
  split; [apply format_parts; exact Hp |].
  split; [reflexivity |].
  split; [intros Hy; apply four_digit_years; exact Hy |].
  split; [| split]; vm_compute; reflexivity.
Qed.

Lemma format_url_fills_in_the_date_witness :
  Dates.format_url_with_date ("https://x.test/" +:+ "{YYYY-MM-DD}") 739318
  = "https://x.test/2025-03-08"%string
  /\ Dates.format_url_with_date ("https://x.test/" +:+ "{YYYY}/{MM}/{DD}") 739318
     = "https://x.test/2025/03/08"%string.
Proof.
  destruct (format_url_fills_in_the_date "https://x.test/" 739318 eq_refl)
    as (_ & H1 & H2 & _).
  split; [rewrite H1 | rewrite H2]; vm_compute; reflexivity.
Defined.

Lemma template_for_shape (category : string) :
  Handler.template_for category
  = ("https://tldr.tech/" +:+ PyStr.lower category +:+ "/{YYYY-MM-DD}",
     PyStr.lower category).
Proof.
  unfold Handler.template_for. generalize (PyStr.lower category). intros lc.
  unfold Handler.known_template, Handler.TLDR_CATEGORIES.
  cbn [List.find fst snd].
  repeat match goal with
         | |- context [String.eqb ?a lc] =>
             destruct (String.eqb_spec a lc) as [<- | _]; [reflexivity |]
         end.
  reflexivity.
Qed.

(** X20: Every category of an event, listed in TLDR_CATEGORIES or not and in
    whatever case it is written, is scraped under its lower-case name from
    https://tldr.tech/<name>/<date>: the table of known categories and the
    pattern for unknown ones give the same template.  The date of the URL
    is the date string of the event read as %Y-%m-%d and written again by
    strftime('%Y-%m-%d'), so 2025-1-5 gives .../2025-01-05; a date string
    that cannot be read raises in place of a URL. *)
Theorem category_is_scraped_from_its_dated_page :
  forall category date_str : string,
    Checks.has_char "{" category = false ->
    Handler.template_for category
    = ("https://tldr.tech/" +:+ PyStr.lower category +:+ "/{YYYY-MM-DD}",
       PyStr.lower category)
    /\ (forall date : Z,
           Dates.format_url_with_date (fst (Handler.template_for category)) date
           = "https://tldr.tech/" +:+ PyStr.lower category +:+ "/"
             +:+ Dates.isoformat date)
    /\ match Dates.strptime date_str with
       | Ok date =>
           Lambda.format_url_with_date (fst (Handler.template_for category)) date_str
           = Ok ("https://tldr.tech/" +:+ PyStr.lower category +:+ "/"
                 +:+ Dates.isoformat date)
       | Raise e =>
           Lambda.format_url_with_date (fst (Handler.template_for category)) date_str
           = Raise e
       end.
Proof.
  intros category date_str Hc. split; [apply template_for_shape |].
  assert (Hf : forall date : Z,
             Dates.format_url_with_date (fst (Handler.template_for category)) date
             = "https://tldr.tech/" +:+ PyStr.lower category +:+ "/"
               +:+ Dates.isoformat date).
  { intros date. rewrite template_for_shape. cbn [fst].
    assert (Ht : "https://tldr.tech/" +:+ PyStr.lower category +:+ "/{YYYY-MM-DD}"
                 = ("https://tldr.tech/" +:+ PyStr.lower category +:+ "/")
                   +:+ "{YYYY-MM-DD}").
    { rewrite !str_app_assoc. reflexivity. }
    rewrite Ht, format_iso; [rewrite !str_app_assoc; reflexivity |].
    rewrite !has_char_app, lower_no_brace, Hc. reflexivity. }
  split; [exact Hf |].
  unfold Lambda.format_url_with_date.
  destruct (Dates.strptime date_str) as [date | e]; [| reflexivity].
  simpl. rewrite Hf. reflexivity.
Qed.

Lemma category_is_scraped_from_its_dated_page_witness :
  Lambda.format_url_with_date (fst (Handler.template_for "WebDev")) "2025-1-5"
  = Ok "https://tldr.tech/webdev/2025-01-05"%string
  /\ Lambda.format_url_with_date (fst (Handler.template_for "WebDev")) "5 Jan 2025"
     = Raise ValueError.
Proof.
  split.
  - destruct (category_is_scraped_from_its_dated_page "WebDev" "2025-1-5" eq_refl)
      as (_ & _ & H).
    change (Dates.strptime "2025-1-5") with (Ok 739256 : result Z) in H.
    rewrite H. vm_compute. reflexivity.
  - destruct (category_is_scraped_from_its_dated_page "WebDev" "5 Jan 2025" eq_refl)
      as (_ & _ & H).
    exact H.
Defined.

Example webdev_url :
  Dates.format_url_with_date (fst (Handler.template_for "WebDev")) 739261
  = "https://tldr.tech/webdev/2025-01-10"%string.
Proof. vm_compute. reflexivity. Qed.

End Templates.
(* --------------------------------------------------------------------- *)
(* The files written                                                     *)
(* --------------------------------------------------------------------- *)

Section Files.

Import World Webscraper.

Variable urljoin : string -> string -> result string.

Lemma replace_slash (s : string) :
  Checks.has_char "/" (Dates.replace "/" "_" s) = false.
Proof.
  unfold Dates.replace. induction s as [| c r IH]; [reflexivity |].
  cbn [Dates.replace_aux String.prefix].
  destruct (ascii_dec "/" c) as [<- | Hne].
  - destruct r; exact IH.
  - cbn [Checks.has_char]. rewrite IH, orb_false_r.
    apply Ascii.eqb_neq. congruence.
Qed.

Lemma lstrip_char_without (x c : ascii) (s : string) :
  Checks.has_char x s = false -> Checks.has_char x (Outputs.lstrip_char c s) = false.
Proof.
  induction s as [| a r IH]; [trivial |]. intros H. simpl.
  destruct (Ascii.eqb a c); [| exact H].
  apply IH. simpl in H. apply orb_false_iff in H. apply H.
Qed.

Lemma rstrip_char_without (x c : ascii) (s : string) :
  Checks.has_char x s = false -> Checks.has_char x (Outputs.rstrip_char c s) = false.
Proof.
  induction s as [| a r IH]; [trivial |]. intros H. simpl in H.
  apply orb_false_iff in H. destruct H as [Ha Hr]. specialize (IH Hr).
  simpl. destruct (Outputs.rstrip_char c r) as [| b r'].
  - destruct (Ascii.eqb a c); [reflexivity |]. simpl. rewrite Ha. reflexivity.
  - change (Checks.has_char x (String a (String b r')))
      with (Ascii.eqb a x || Checks.has_char x (String b r')).
    rewrite Ha, IH. reflexivity.
Qed.

Lemma before_without_stop (stops : string) (x : ascii) (s : string) :
  PyStr.contains (String x EmptyString) stops = true ->
  Checks.has_char x (Url.before stops s) = false.
Proof.
  intros Hx. induction s as [| c r IH]; [reflexivity |]. cbn [Url.before].
  destruct (PyStr.contains (String c EmptyString) stops) eqn:E; [reflexivity |].
  cbn [Checks.has_char]. rewrite IH, orb_false_r.
  destruct (Ascii.eqb_spec c x) as [-> | _]; [congruence | reflexivity].
Qed.

(* the host of a URL ends before the first slash *)
Lemma urlparse_netloc_without_slash (url scheme : string) (p : Url.Parsed) :
  Url.urlparse url scheme = Ok p -> Checks.has_char "/" (Url.p_netloc p) = false.
Proof.
  unfold Url.urlparse. intros H.
  match type of H with
  | context [let '(_, _) := ?X in _] => destruct X as [sc rest]
  end.
  assert (Hn : forall b : bool,
             Checks.has_char "/"
               (fst (if b
                     then (Url.before "/?#" (Url.drop 2 rest),
                           Url.from "/?#" (Url.drop 2 rest))
                     else (EmptyString, rest))) = false).
  { intros [|]; [apply before_without_stop |]; reflexivity. }
  specialize (Hn (PyStr.startswith rest "//")).
  destruct (if PyStr.startswith rest "//"
            then (Url.before "/?#" (Url.drop 2 rest), Url.from "/?#" (Url.drop 2 rest))
            else (EmptyString, rest)) as [netloc rest'].
  simpl in Hn.
  destruct (xorb _ _); [discriminate |].
  repeat match type of H with
         | context [let '(_, _) := ?X in _] => destruct X as [? ?]
         end.
  injection H as <-. exact Hn.
Qed.

Lemma netloc_without_slash (url : string) : Checks.has_char "/" (Url.netloc url) = false.
Proof.
  unfold Url.netloc. destruct (Url.urlparse url EmptyString) as [p | e] eqn:E;
    [| reflexivity].
  apply (urlparse_netloc_without_slash _ _ _ E).
Qed.

Lemma page_filename_without_slash (url : string) (scraped_at : Z) :
  Checks.has_char "/" (Outputs.page_filename url scraped_at) = false.
Proof.
  unfold Outputs.page_filename. rewrite !has_char_app.
  rewrite (of_int_without "/" scraped_at eq_refl eq_refl).
  assert (Hname : Checks.has_char "/"
                    (Outputs.strip_char "_" (Dates.replace "/" "_" (Outputs.path url)))
                  = false).
  { unfold Outputs.strip_char. apply rstrip_char_without, lstrip_char_without.
    apply replace_slash. }
  destruct (PyStr.truthy _); [rewrite Hname | rewrite netloc_without_slash]; reflexivity.
Qed.

(** X21: The names under which files are written have no slash, whatever the
    URL: the name save_scraped_data makes from the path of the URL (or the
    host when the path is empty) and the time, and the name _save_robots_txt
    makes from the domain.  A path of the URL cannot reach another
    directory. *)
Theorem output_file_names_have_no_slash :
  forall (url domain : string) (scraped_at : Z),
    Checks.has_char "/" (Outputs.page_filename url scraped_at) = false
    /\ Checks.has_char "/" (Outputs.robots_filename domain) = false.
Proof.
  intros url domain scraped_at. split; [apply page_filename_without_slash |].
  unfold Outputs.robots_filename. rewrite !has_char_app, replace_slash. reflexivity.
Qed.

Example page_filename_sample :
  Outputs.page_filename "https://tldr.tech/tech/2025-01-10?x=1#top" 1736500000
  = "tech_2025-01-10_1736500000"%string
  /\ Outputs.page_filename "https://tldr.tech/" 1736500000
     = "tldr.tech_1736500000"%string
  /\ Outputs.robots_filename "https://tldr.tech" = "robots_tldr.tech.txt"%string.
Proof. repeat split; vm_compute; reflexivity. Qed.

Lemma build_data_fields (env : Env) (url : string) (response : Response) (s : State)
      (data : PageResult) :
  build_data urljoin env url response s = Ok data ->
  article_count data = Z.of_nat (length (articles data))
  /\ Webscraper.url data = url
  /\ (raw_html data = None <-> debug_mode (config s) = false).
Proof.
  unfold build_data.
  destruct (_extract_links urljoin _ url) as [ls | e]; simpl; [| discriminate].
  intros [= <-]. simpl. split; [reflexivity |]. split; [reflexivity |].
  destruct (debug_mode (config s)); split; intros H; try reflexivity; discriminate H.
Qed.

Lemma attempt_loop_data (env : Env) (url : string) (n : nat) :
  forall (a : Z) (s : State) (data : PageResult) (s' : State),
    attempt_loop urljoin env url a n s = (Ok (Some data), s') ->
    article_count data = Z.of_nat (length (articles data))
    /\ Webscraper.url data = url
    /\ (raw_html data = None <-> debug_mode (config s) = false).
Proof.
  induction n as [| n IH]; intros a s data s'; [discriminate |]. simpl.
  assert (Hnext : attempt_loop urljoin env url (a + 1) n
                    (backoff a (log (SessionGet url)
                                    (log (SleepDelay (_get_delay env url s)) s)))
                  = (Ok (Some data), s') ->
                  article_count data = Z.of_nat (length (articles data))
                  /\ Webscraper.url data = url
                  /\ (raw_html data = None <-> debug_mode (config s) = false)).
  { intros H. apply IH in H.
    destruct (backoff_fields a (log (SessionGet url)
                                    (log (SleepDelay (_get_delay env url s)) s)))
      as [Hc _].
    rewrite Hc in H. exact H. }
  match goal with
  | |- context [session_get env ?t url] =>
      destruct (session_get env t url) as [| response] eqn:Eget
  end; [exact Hnext |].
  destruct (raises_for_status response); [exact Hnext |].
  unfold succeed.
  match goal with
  | |- context [build_data urljoin env url response ?st] =>
      destruct (build_data urljoin env url response st) as [d | e] eqn:Eb
  end; [| discriminate].
  intros [= <- <-]. apply build_data_fields in Eb. exact Eb.
Qed.

Lemma scrape_url_data (env : Env) (url : string) (s : State) (data : PageResult)
      (s' : State) :
  scrape_url urljoin env url s = (Ok (Some data), s') ->
  article_count data = Z.of_nat (length (articles data))
  /\ Webscraper.url data = url
  /\ (raw_html data = None <-> debug_mode (config s) = false).
Proof.
  unfold scrape_url.
  pose proof (should_scrape_frame env url s) as (Hc & _).
  destruct (_should_scrape_url env url s) as [go s1]. simpl in Hc.
  destruct go; simpl; [| discriminate].
  intros H. apply attempt_loop_data in H. rewrite Hc in H. exact H.
Qed.

(** X22: The files save_scraped_data writes for a page that scrape_url returned,
    in their order: the text file, always; the JSON and then the CSV of the
    articles, exactly when the page has articles; the HTML and then the
    headers, exactly when debug mode is on both in the configuration of
    the scraper and in the call.  The JSON and the CSV hold the articles of
    the page and the article_count of the JSON is their number.  Every
    file lies in the output directory or in the one subdirectory of its
    kind. *)
Theorem saved_files_follow_the_page :
  forall (env : Env) (url : string) (s : State) (data : PageResult) (s' : State)
         (debug : bool),
    scrape_url urljoin env url s = (Ok (Some data), s') ->
    (exists content : string,
        head (Outputs.save_scraped_data data debug)
        = Some (Outputs.WriteText
                  (Outputs.page_filename url (scraped_at data) +:+ ".txt") content))
    /\ (articles data <> []
        <-> exists f n arts, Outputs.WriteJson f n arts ∈ Outputs.save_scraped_data data debug)
    /\ (articles data <> []
        <-> exists f arts, Outputs.WriteCsv f arts ∈ Outputs.save_scraped_data data debug)
    /\ (debug && debug_mode (config s) = true
        <-> exists f html, Outputs.WriteHtml f html ∈ Outputs.save_scraped_data data debug)
    /\ map Outputs.file_of (Outputs.save_scraped_data data debug)
       = [Outputs.page_filename url (scraped_at data) +:+ ".txt"]
         ++ match articles data with
            | [] => []
            | _ :: _ =>
                ["articles_json/" +:+ Outputs.page_filename url (scraped_at data)
                 +:+ "_articles.json";
                 "articles_csv/" +:+ Outputs.page_filename url (scraped_at data)
                 +:+ "_articles.csv"]
            end
         ++ (if debug && debug_mode (config s)
             then ["debug_html/" +:+ Outputs.page_filename url (scraped_at data)
                   +:+ ".html";
                   "debug_html/" +:+ Outputs.page_filename url (scraped_at data)
                   +:+ "_headers.txt"]
             else [])
    /\ Forall
         (fun w =>
            match w with
            | Outputs.WriteText f _ => Checks.has_char "/" f = false
            | Outputs.WriteJson f n arts =>
                arts = articles data /\ n = Z.of_nat (length arts)
                /\ exists name, f = "articles_json/" +:+ name
                                /\ Checks.has_char "/" name = false
            | Outputs.WriteCsv f arts =>
                arts = articles data /\ arts <> []
                /\ exists name, f = "articles_csv/" +:+ name
                                /\ Checks.has_char "/" name = false
            | Outputs.WriteHtml f _ | Outputs.WriteHeaders f _ =>
                debug = true /\ debug_mode (config s) = true
                /\ exists name, f = "debug_html/" +:+ name
                                /\ Checks.has_char "/" name = false
            end)
         (Outputs.save_scraped_data data debug).
Proof.
  intros env url s data s' debug H.
  apply scrape_url_data in H. destruct H as (Hcount & Hurl & Hraw).
  unfold Outputs.save_scraped_data, Outputs.save_articles_csv. rewrite Hurl.
  set (fn := Outputs.page_filename url (scraped_at data)).
  assert (Hfn : forall suffix : string,
             Checks.has_char "/" suffix = false ->
             Checks.has_char "/" (fn +:+ suffix) = false).
  { intros suffix Hs. rewrite has_char_app, Hs.
    unfold fn. rewrite page_filename_without_slash. reflexivity. }
  assert (Hname : forall (dir suffix : string),
             Checks.has_char "/" suffix = false ->
             exists name, dir +:+ fn +:+ suffix = dir +:+ name
                          /\ Checks.has_char "/" name = false).
  { intros dir suffix Hs. exists (fn +:+ suffix). split; [reflexivity | apply Hfn, Hs]. }
  destruct (articles data) as [| a arts] eqn:Earts;
    destruct (raw_html data) as [html |] eqn:Eraw;
    destruct (debug_mode (config s)) eqn:Emode;
    try (destruct Hraw as [Hraw _]; specialize (Hraw eq_refl); discriminate Hraw);
    try (destruct Hraw as [_ Hraw]; specialize (Hraw eq_refl); discriminate Hraw);
    destruct debug; cbn [app andb];
    (split; [eexists; reflexivity |]);
    (split;
     [split;
      [intros Hne; first [exfalso; apply Hne; reflexivity
                         | eexists _, _, _; apply list_elem_of_In; simpl; tauto]
      | intros (f & n & l & Hin); try discriminate;
        apply list_elem_of_In in Hin; simpl in Hin;
        repeat (destruct Hin as [Hin | Hin]; [discriminate Hin |]); destruct Hin] |]);
    (split;
     [split;
      [intros Hne; first [exfalso; apply Hne; reflexivity
                         | eexists _, _; apply list_elem_of_In; simpl; tauto]
      | intros (f & l & Hin); try discriminate;
        apply list_elem_of_In in Hin; simpl in Hin;
        repeat (destruct Hin as [Hin | Hin]; [discriminate Hin |]); destruct Hin] |]);
    (split;
     [split;
      [intros Hd; first [discriminate Hd
                        | eexists _, _; apply list_elem_of_In; simpl; tauto]
      | intros (f & l & Hin); try reflexivity;
        apply list_elem_of_In in Hin; simpl in Hin;
        repeat (destruct Hin as [Hin | Hin]; [discriminate Hin |]); destruct Hin] |]);
    (split; [reflexivity |]);
    repeat (constructor;
            [first [apply Hfn; reflexivity
                   | split; [reflexivity |]; split;
                     [first [exact Hcount | discriminate | reflexivity] |];
                     apply Hname; reflexivity] |]);
    constructor.
Qed.

Lemma date_loop_counts (env : Env) (url_template : string) :
  forall (dates : list Z) (results : list PageResult) (s : State)
         (r : list PageResult) (s' : State),
    Forall (fun p => article_count p = Z.of_nat (length (articles p))) results ->
    date_loop urljoin env url_template dates results s = (Ok r, s') ->
    Forall (fun p => article_count p = Z.of_nat (length (articles p))) r.
Proof.
  induction dates as [| date rest IH]; intros results s r s' Hres.
  - simpl. intros [= <- <-]. exact Hres.
  - simpl. destruct (consecutive_failures s >=? max_consecutive_failures (config s)).
    + intros [= <- <-]. exact Hres.
    + destruct (scrape_url urljoin env (Dates.format_url_with_date url_template date) s)
        as [[[data |] | e] s1] eqn:E; [| apply IH; exact Hres | discriminate].
      apply IH. apply Forall_app. split; [exact Hres |].
      constructor; [| constructor]. simpl.
      apply scrape_url_data in E. apply E.
Qed.

Lemma all_articles_length (rs : list PageResult) :
  Forall (fun p => article_count p = Z.of_nat (length (articles p))) rs ->
  Z.of_nat (length (Outputs.all_articles rs)) = Checks.sum_counts rs.
Proof.
  induction 1 as [| p rest Hp Hrest IH]; [reflexivity |]. simpl.
  rewrite Hp, <- IH.
  destruct (articles p) as [| a arts]; [reflexivity |].
  rewrite length_app. lia.
Qed.

(** X23: The combined files of a date range: total_articles of
    combined_all_articles.json is the sum of the article_count fields of
    the pages scrape_date_range returned, the JSON and the CSV hold the
    same articles, and nothing is written when that sum is 0. *)
Theorem combined_total_is_the_sum_of_the_page_counts :
  forall (env : Env) (url_template : string) (start_date end_date : Z) (s : State)
         (results : list PageResult) (s' : State),
    scrape_date_range urljoin env url_template start_date end_date s = (Ok results, s') ->
    match Outputs.save_all_articles_combined results with
    | [] => Checks.sum_counts results = 0
    | [Outputs.WriteJson json_file total arts; Outputs.WriteCsv csv_file rows] =>
        total = Checks.sum_counts results /\ 0 < total
        /\ arts = Outputs.all_articles results /\ rows = arts
    | _ => False
    end.
Proof.
  intros env url_template a b s results s' H. unfold scrape_date_range in H.
  apply date_loop_counts in H; [| constructor].
  apply all_articles_length in H. unfold Outputs.save_all_articles_combined.
  destruct (Outputs.all_articles results) as [| x arts]; [symmetry; exact H |].
  split; [exact H |]. split; [simpl; lia |]. split; reflexivity.
Qed.

End Files.

Lemma saved_files_follow_the_page_witness :
  exists data : Webscraper.PageResult,
    map Outputs.file_of (Outputs.save_scraped_data data true)
    = ["tech_2025-01-10_1736500000.txt";
       "articles_json/tech_2025-01-10_1736500000_articles.json";
       "articles_csv/tech_2025-01-10_1736500000_articles.csv"]%string.
Proof.
  destruct (Webscraper.scrape_url Url.urljoin
              (Samples.env_up (Samples.document [Samples.long_card])) Samples.page
              (Webscraper.new_scraper Webscraper.default_config))
    as [[[data |] | e] s'] eqn:E; [| vm_compute in E; discriminate E
                                   | vm_compute in E; discriminate E].
  exists data.
  destruct (saved_files_follow_the_page Url.urljoin
              (Samples.env_up (Samples.document [Samples.long_card])) Samples.page
              (Webscraper.new_scraper Webscraper.default_config) data s' true E)
    as (_ & _ & _ & _ & Hfiles & _).
  rewrite Hfiles. vm_compute in E. injection E as <- _. vm_compute. reflexivity.
Defined.

Example debug_files_need_both_switches :
  match fst (Webscraper.scrape_url Url.urljoin
               (Samples.env_up (Samples.document [Samples.short_card])) Samples.page
               (Webscraper.new_scraper Samples.debug_config)) with
  | Ok (Some data) =>
      map Outputs.file_of (Outputs.save_scraped_data data true)
      = ["tech_2025-01-10_1736500000.txt";
         "debug_html/tech_2025-01-10_1736500000.html";
         "debug_html/tech_2025-01-10_1736500000_headers.txt"]%string
      /\ map Outputs.file_of (Outputs.save_scraped_data data false)
         = ["tech_2025-01-10_1736500000.txt"]%string
  | _ => False
  end.
Proof. vm_compute. split; reflexivity. Qed.

Lemma combined_total_is_the_sum_of_the_page_counts_witness :
  match fst (Webscraper.scrape_date_range Url.urljoin
               (Samples.env_up (Samples.document [Samples.long_card]))
               "https://tldr.tech/tech/{YYYY-MM-DD}" 739257 739258
               (Webscraper.new_scraper Webscraper.default_config)) with
  | Ok results =>
      match Outputs.save_all_articles_combined results with
      | [] => Checks.sum_counts results = 0
      | [Outputs.WriteJson json_file total arts; Outputs.WriteCsv csv_file rows] =>
          total = Checks.sum_counts results /\ 0 < total
          /\ arts = Outputs.all_articles results /\ rows = arts
      | _ => False
      end
  | Raise _ => False
  end.
Proof.
  destruct (Webscraper.scrape_date_range Url.urljoin
              (Samples.env_up (Samples.document [Samples.long_card]))
              "https://tldr.tech/tech/{YYYY-MM-DD}" 739257 739258
              (Webscraper.new_scraper Webscraper.default_config))
    as [[results | e] s'] eqn:E; [| vm_compute in E; discriminate E].
  simpl.
  apply (combined_total_is_the_sum_of_the_page_counts Url.urljoin
           (Samples.env_up (Samples.document [Samples.long_card]))
           "https://tldr.tech/tech/{YYYY-MM-DD}" 739257 739258
           (Webscraper.new_scraper Webscraper.default_config) results s' E).
Defined.

Example combined_total_sample :
  match fst (Webscraper.scrape_date_range Url.urljoin
               (Samples.env_up (Samples.document [Samples.long_card]))
               "https://tldr.tech/tech/{YYYY-MM-DD}" 739257 739258
               (Webscraper.new_scraper Webscraper.default_config)) with
  | Ok results =>
      (length results, Checks.sum_counts results,
       map Outputs.file_of (Outputs.save_all_articles_combined results))
      = (2%nat, 2, ["combined_all_articles.json"; "combined_all_articles.csv"]%string)
  | Raise _ => False
  end.
Proof. vm_compute. reflexivity. Qed.
(* --------------------------------------------------------------------- *)
(* The two parsers, and the texts of a page                              *)
(* --------------------------------------------------------------------- *)

Section TwoParsers.

Import Soup Extract.

Variable urljoin : string -> string -> result string.

Lemma lambda_parse_is_parse_without (container : Node) (page_url : string) (index : Z) :
  lambda_parse_article_container urljoin container page_url index
  = match _parse_article_container urljoin container page_url index with
    | Ok (Some a) => Ok (Some (Checks.without_date_fields a))
    | Ok None => Ok None
    | Raise e => Raise e
    end.
Proof.
  unfold lambda_parse_article_container, _parse_article_container.
  destruct (extract_title container) as [t |]; [| reflexivity].
  destruct (extract_link urljoin page_url container) as [l | e]; [| reflexivity].
  simpl.
  destruct (extract_image urljoin page_url container) as [i | e]; [| reflexivity].
  simpl. destruct (extract_date container) as [d c]. reflexivity.
Qed.

Lemma parse_loop_without (page_url : string) (containers : list Node) :
  forall idx : Z,
    parse_loop (lambda_parse_article_container urljoin) page_url idx containers
    = map Checks.without_date_fields
          (parse_loop (_parse_article_container urljoin) page_url idx containers).
Proof.
  induction containers as [| c rest IH]; intros idx; [reflexivity |].
  simpl. rewrite lambda_parse_is_parse_without.
  destruct (_parse_article_container urljoin c page_url idx) as [[a |] | e];
    [| apply IH | apply IH].
  change (title (Checks.without_date_fields a)) with (title a).
  destruct (PyStr.truthy (title a)); [simpl; rewrite IH; reflexivity | apply IH].
Qed.

(** X24: On the same document the extraction of lamda_webscraper.py gives the
    records of webscraper.py, the same in number, order, record_id and
    every other field, without date, category and reading_time. *)
Theorem lambda_records_are_the_records_without_dates :
  forall (soup : Node) (page_url : string),
    lambda_extract_articles urljoin soup page_url
    = map Checks.without_date_fields (_extract_articles urljoin soup page_url).
Proof.
  intros soup page_url. unfold lambda_extract_articles, _extract_articles.
  apply parse_loop_without.
Qed.

(** X25: The texts of a page are stripped: the title (empty without a title
    element), the meta description (empty without one), and the text of
    every heading; the level of a heading is one of h1 to h6. *)
Theorem page_texts_are_stripped :
  forall soup : Node,
    PyStr.strip (Webscraper._extract_title soup) = Webscraper._extract_title soup
    /\ PyStr.strip (Webscraper._extract_meta_description soup)
       = Webscraper._extract_meta_description soup
    /\ Forall (fun h : string * string =>
                 In (fst h) heading_names /\ PyStr.strip (snd h) = snd h)
              (Webscraper._extract_headings soup)
    /\ (find ["title"%string] soup = None -> Webscraper._extract_title soup = EmptyString).
Proof.
  intros soup. split; [| split; [| split]].
  - unfold Webscraper._extract_title.
    destruct (find ["title"%string] soup); [apply strip_idempotent | reflexivity].
  - unfold Webscraper._extract_meta_description.
    destruct (head _); [apply strip_idempotent | reflexivity].
  - unfold Webscraper._extract_headings, find_all.
    apply List.Forall_forall. intros h Hh. apply in_map_iff in Hh.
    destruct Hh as (n & <- & Hn). apply filter_In in Hn. destruct Hn as [_ Hn].
    simpl. split; [| apply strip_idempotent].
    unfold is_named in Hn. destruct (name_of n) as [nm |]; [| discriminate]. simpl.
    apply existsb_exists in Hn. destruct Hn as (x & Hx & Heq).
    apply String.eqb_eq in Heq. subst x. exact Hx.
  - intros H. unfold Webscraper._extract_title. rewrite H. reflexivity.
Qed.

End TwoParsers.
